(** * Wildstar Addon Updater: a shallow embedding of wildstar_addon_updater.py

    The development follows the layout of the Python module: the string
    helpers, [Config], [Addon]/[JsonAddon], [MultiQueue], [AddonSearch] and
    [Downloader].  Python objects that are mutated in place (the config
    dictionary, the two caches of the search thread, the three queues, the
    files on disk) live in one [World] record that is threaded through a
    state-and-exception monad; the outside world (the catalog servers, the
    clock of the file system, the hash order of a set) is an [Env].

    Python strings are modelled by [string]: a character is a code point
    below 256.  JSON numbers are the integers.

    Opening the config file can fail with an error of the file system;
    once a file is open, what is written reaches it, and appending to
    errors.log and printing succeed. *)

From Stdlib Require Import ZArith QArith Ascii String.
From stdpp Require Import gmap strings list fin_maps.

Set Warnings "-register-all".
Local Open Scope Z_scope.

(* ===================================================================== *)
(** ** Python: exceptions, results, the state-and-exception monad         *)
(* ===================================================================== *)

Module Py.

(** The exception classes that the module can meet. *)
Inductive exn : Set :=
  | ValueError | AssertionError | TypeError | AttributeError | KeyError
  | NameError | FileNotFoundError
  | PermissionError | IsADirectoryError
  | BadZipFile        (* zipfile.BadZipFile *)
  | QueueEmpty.       (* queue.Empty *)

#[global] Instance exn_eq_dec : EqDecision exn.
Proof. solve_decision. Defined.

Inductive result (A : Type) : Type :=
  | Ok (a : A)
  | Raise (e : exn).
Arguments Ok {A} a.
Arguments Raise {A} e.

(** A computation over a mutable state [S]: the state survives an
    exception, as the heap of a Python program does. *)
Definition M (S A : Type) : Type := S → result A * S.

Definition ret {S A} (a : A) : M S A := λ s, (Ok a, s).
Definition raise {S A} (e : exn) : M S A := λ s, (Raise e, s).
Definition bind {S A B} (m : M S A) (k : A → M S B) : M S B :=
  λ s, match m s with
       | (Ok a, s') => k a s'
       | (Raise e, s') => (Raise e, s')
       end.
Definition gets {S A} (f : S → A) : M S A := λ s, (Ok (f s), s).
Definition modify {S} (f : S → S) : M S unit := λ s, (Ok tt, f s).
Definition lift {S A} (r : result A) : M S A := λ s, (r, s).

(** What an expression in an [except] clause denotes in
    wildstar_addon_updater.py.  The builtin exception names are always
    bound; the module itself binds, by its import statements,
    [BadZipfile] (from [from zipfile import ZipFile, BadZipfile]) and
    [queue] (from [import queue]).  Any other name is unbound. *)
Definition exception_names : list (string * exn) :=
  [ ("ValueError", ValueError); ("AssertionError", AssertionError);
    ("TypeError", TypeError); ("AttributeError", AttributeError);
    ("KeyError", KeyError); ("NameError", NameError);
    ("FileNotFoundError", FileNotFoundError);
    ("PermissionError", PermissionError);
    ("IsADirectoryError", IsADirectoryError);
    ("BadZipfile", BadZipFile);
    ("queue.Empty", QueueEmpty) ].

Fixpoint assoc {A} (k : string) (l : list (string * A)) : option A :=
  match l with
  | [] => None
  | (k', v) :: l' => if String.eqb k k' then Some v else assoc k l'
  end.

(** Evaluating a name: NameError when it is not bound. *)
Definition resolve (name : string) : result exn :=
  match assoc name exception_names with
  | Some e => Ok e
  | None => Raise NameError
  end.

(** Evaluating the tuple of an [except (A, B, ...)] clause, left to right. *)
Fixpoint resolve_all (names : list string) : result (list exn) :=
  match names with
  | [] => Ok []
  | n :: ns =>
      match resolve n with
      | Raise e => Raise e
      | Ok c => match resolve_all ns with
                | Raise e => Raise e
                | Ok cs => Ok (c :: cs)
                end
      end
  end.

(** [try: body  except (names): handler].  The expression of the except
    clause is evaluated only when an exception reaches it, and an
    exception raised by that evaluation replaces the one being handled. *)
Definition try_except {S A} (body : M S A) (names : list string)
    (handler : exn → M S A) : M S A :=
  λ s, match body s with
       | (Ok a, s') => (Ok a, s')
       | (Raise e, s') =>
           match resolve_all names with
           | Raise e' => (Raise e', s')
           | Ok classes =>
               if bool_decide (e ∈ classes) then handler e s'
               else (Raise e, s')
           end
       end.

End Py.

Export Py.

Declare Scope py_scope.
Delimit Scope py_scope with py.
Notation "'let!' x ':=' m 'in' k" := (Py.bind m (λ x, k))
  (at level 10, x name, m at level 100, k at level 200) : py_scope.
Notation "'do!' m 'in' k" := (Py.bind m (λ _, k))
  (at level 10, m at level 100, k at level 200) : py_scope.

(* ===================================================================== *)
(** ** Strings: character classes, [str.strip], [re.sub], [re.findall]    *)
(* ===================================================================== *)

Module Str.

Definition code (c : ascii) : N := N_of_ascii c.

Definition in_range (lo hi : N) (c : ascii) : bool :=
  ((lo <=? code c) && (code c <=? hi))%N.

Definition is_upper : ascii → bool := in_range 65 90.     (* [A-Z] *)
Definition is_lower : ascii → bool := in_range 97 122.    (* [a-z] *)
Definition is_digit : ascii → bool := in_range 48 57.     (* [0-9] *)

(** [a-zA-Z0-9] *)
Definition is_alnum (c : ascii) : bool := is_lower c || is_upper c || is_digit c.
(** [a-z0-9] *)
Definition is_lower_or_digit (c : ascii) : bool := is_lower c || is_digit c.

(** [str.isspace] on the code points below 256. *)
Definition is_space (c : ascii) : bool :=
  in_range 9 13 c || in_range 28 32 c
  || (code c =? 133)%N || (code c =? 160)%N.

Fixpoint filter (p : ascii → bool) (s : string) : string :=
  match s with
  | EmptyString => EmptyString
  | String c r => if p c then String c (filter p r) else filter p r
  end.

Fixpoint forallb (p : ascii → bool) (s : string) : bool :=
  match s with
  | EmptyString => true
  | String c r => p c && forallb p r
  end.

Fixpoint lstrip (s : string) : string :=
  match s with
  | EmptyString => EmptyString
  | String c r => if is_space c then lstrip r else s
  end.

(** Dropping the white space at the end: the tail first, then the
    character before it when nothing of the tail is left. *)
Fixpoint rstrip (s : string) : string :=
  match s with
  | EmptyString => EmptyString
  | String c r =>
      match rstrip r with
      | EmptyString => if is_space c then EmptyString else String c EmptyString
      | r' => String c r'
      end
  end.

(** [s.strip()] *)
Definition strip (s : string) : string := rstrip (lstrip s).

Definition nonempty (s : string) : bool :=
  match s with EmptyString => false | _ => true end.

(** [sep.join(l)] *)
Definition join (sep : string) (l : list string) : string := String.concat sep l.

(** [l[:-1]] *)
Definition but_last {A} (l : list A) : list A := removelast l.

(** [s.replace(old, new)] for a non-empty [old]: [skip] counts the
    characters of an occurrence that are still to be dropped. *)
Fixpoint replace_from (old new : string) (skip : nat) (s : string) : string :=
  match s with
  | EmptyString => EmptyString
  | String c r =>
      match skip with
      | S k => replace_from old new k r
      | O =>
          if String.prefix old s
          then new +:+ replace_from old new (Nat.pred (String.length old)) r
          else String c (replace_from old new O r)
      end
  end.
Definition replace (old new s : string) : string := replace_from old new O s.

(** [re.findall(r'[A-Z]{1}[a-z0-9]+', s)]: the non-overlapping matches,
    leftmost first, each as long as possible.  The scan keeps the match
    under construction: [None] outside a match, [Some (u, run)] after the
    capital [u] and the characters [run] of [a-z0-9] read so far (in
    reverse).  A capital followed by no such character is no match. *)
Definition close_match (cur : option (ascii * list ascii)) : list string :=
  match cur with
  | Some (u, (_ :: _) as run) => [String u (string_of_list_ascii (rev run))]
  | _ => []
  end.

Fixpoint findall_from (cur : option (ascii * list ascii)) (s : string) : list string :=
  match s with
  | EmptyString => close_match cur
  | String c r =>
      match cur with
      | Some (u, run) =>
          if is_lower_or_digit c then findall_from (Some (u, c :: run)) r
          else close_match cur
                 ++ findall_from (if is_upper c then Some (c, []) else None) r
      | None => findall_from (if is_upper c then Some (c, []) else None) r
      end
  end.

Definition findall_capitalized (s : string) : list string := findall_from None s.

(** Is there a capital letter directly followed by a character of
    [a-z0-9] somewhere in [s]? *)
Fixpoint has_capitalized_run (s : string) : bool :=
  match s with
  | EmptyString => false
  | String c r =>
      match r with
      | String d _ => (is_upper c && is_lower_or_digit d) || has_capitalized_run r
      | EmptyString => false
      end
  end.

(** *** [int(s)] for a string: surrounding white space, an optional sign,
    decimal digits, single underscores between digits.  The white space
    of [int] is narrower than that of [str.strip]: the separators with
    the codes 28 to 31 are not part of it, and [int] rejects a string
    that has one of them. *)
Definition is_int_space (c : ascii) : bool :=
  in_range 9 13 c || (code c =? 32)%N
  || (code c =? 133)%N || (code c =? 160)%N.

Fixpoint int_lstrip (s : string) : string :=
  match s with
  | EmptyString => EmptyString
  | String c r => if is_int_space c then int_lstrip r else s
  end.

Fixpoint int_rstrip (s : string) : string :=
  match s with
  | EmptyString => EmptyString
  | String c r =>
      match int_rstrip r with
      | EmptyString => if is_int_space c then EmptyString else String c EmptyString
      | r' => String c r'
      end
  end.

Definition digit_value (c : ascii) : Z := Z.of_N (code c) - 48.

Fixpoint parse_digits (acc : Z) (after_digit : bool) (s : string) : option Z :=
  match s with
  | EmptyString => if after_digit then Some acc else None
  | String c r =>
      if is_digit c then parse_digits (10 * acc + digit_value c) true r
      else if Ascii.eqb c "_" then
        (if after_digit then parse_digits acc false r else None)
      else None
  end.

Definition int_of (s : string) : option Z :=
  match int_rstrip (int_lstrip s) with
  | String "-" r => Z.opp <$> parse_digits 0 false r
  | String "+" r => parse_digits 0 false r
  | t => parse_digits 0 false t
  end.

End Str.

(** [convert_addon_name]: strip, then delete everything outside [a-zA-Z0-9]. *)
Definition convert_addon_name (name : string) : string :=
  Str.filter Str.is_alnum (Str.strip name).

(* ===================================================================== *)
(** ** Python values that travel through JSON                              *)
(* ===================================================================== *)

(** What [json.loads] returns and [json.dumps] accepts: [None], booleans,
    integers, strings, lists, and dictionaries with string keys.  A
    dictionary is a finite map: two dictionaries are equal when they have
    the same items, as in Python. *)
Inductive json : Type :=
  | JNull
  | JBool (b : bool)
  | JInt (z : Z)
  | JStr (s : string)
  | JList (l : list json)
  | JDict (d : gmap string json).

Module Json.

(** Truth value of an object: [bool(v)]. *)
Definition truthy (v : json) : bool :=
  match v with
  | JNull => false
  | JBool b => b
  | JInt z => negb (z =? 0)
  | JStr s => Str.nonempty s
  | JList l => match l with [] => false | _ => true end
  | JDict d => match map_to_list d with [] => false | _ => true end
  end.

(** [v[k]] for a string [k]. *)
Definition getitem (v : json) (k : string) : result json :=
  match v with
  | JDict d => match d !! k with Some x => Ok x | None => Raise KeyError end
  | _ => Raise TypeError
  end.

(** [v.get(k)]: only a dictionary has the method; a missing key gives [None]. *)
Definition get (v : json) (k : string) : result json :=
  match v with
  | JDict d => Ok (default JNull (d !! k))
  | _ => Raise AttributeError
  end.

(** [v.get(k, dflt)] *)
Definition get_default (v : json) (k : string) (dflt : json) : result json :=
  match v with
  | JDict d => Ok (default dflt (d !! k))
  | _ => Raise AttributeError
  end.

(** [v[k] = x] for a string [k]: the updated object. *)
Definition setitem (v : json) (k : string) (x : json) : result json :=
  match v with
  | JDict d => Ok (JDict (<[k := x]> d))
  | _ => Raise TypeError
  end.

(** [int(v)] *)
Definition to_int (v : json) : result Z :=
  match v with
  | JInt z => Ok z
  | JBool b => Ok (if b then 1 else 0)
  | JStr s => match Str.int_of s with Some z => Ok z | None => Raise ValueError end
  | JNull | JList _ | JDict _ => Raise TypeError
  end.

End Json.

(* ===================================================================== *)
(** ** The outside world                                                   *)
(* ===================================================================== *)

(** A GET request: the address and the value of the [search] parameter. *)
Record request : Type := Request {
  req_url : string;
  req_search : option string
}.

(** What the program reads off a [requests.Response]: the scraping
    primitives are taken at their interface. *)
Inductive released : Type :=
  | NoReleasedItem                    (* no [li] mentions 'Last Released File' *)
  | ReleasedNoAbbr                    (* such a [li] without an [abbr] inside *)
  | ReleasedEpoch (e : option string). (* [abbr.get('data-epoch')] *)

Record response : Type := Response {
  (** 'No results for' occurs in the text of [li.no-results] *)
  no_results_marker : bool;
  (** text and [href] of the first [a] below a [tr.wildstar] *)
  first_link : option (string * option string);
  (** the 'Last Released File' item of [ul.cf-details] *)
  last_released : released;
  (** the members of [content] read as a zip archive, if it is one *)
  zip_members : option (list (string * string))
}.

Inductive net_outcome : Type :=
  | Responded (r : response)     (* a response whose status is not an error *)
  | TimedOut                     (* requests.exceptions.Timeout *)
  | Failed (err : string).       (* any other requests.exceptions.RequestException *)

Record Env : Type := {
  (** the servers: the outcome of a request, given the requests made so far *)
  net : list request → request → net_outcome;
  (** [urllib.parse.urljoin] *)
  urljoin : string → string → string;
  (** the order in which a [for] loop visits the set built from the given
      elements (it depends on the hashes of the strings) *)
  set_iter : list string → list string;
  (** [str.format] of an object that is not a string *)
  format_other : json → string;
  (** [os.listdir(dir)] *)
  listdir : string → list string;
  (** [os.path.isdir(os.path.join(dir, name))] *)
  isdir : string → string → bool;
  (** [os.stat(os.path.join(dir, name)).st_ctime], when the path exists *)
  st_ctime : string → string → option Q
}.

(* ===================================================================== *)
(** ** class Addon, class JsonAddon                                       *)
(* ===================================================================== *)

Module Addon.

Definition ADDON_DL_SUFFIX : string := "/files/latest".

(** [_url] is the argument as it came: a string from the catalog, any
    value from a config file. *)
Record t : Type := Make {
  _name : string;
  _url : json;
  _full_url : string;
  _epoch_date : Z
}.

Section Methods.
Context (E : Env).

(** ['{0}{1}'.format(url, suffix)] *)
Definition format2 (url : json) (suffix : string) : string :=
  match url with
  | JStr s => s +:+ suffix
  | _ => format_other E url +:+ suffix
  end.

(** [re.match(r'[a-zA-Z0-9]+', s)] as a truth value: the match is
    anchored at the start and needs one character. *)
Definition match_alnum (s : string) : bool :=
  match s with
  | String c _ => Str.is_alnum c
  | EmptyString => false
  end.

(** [name.strip()] exists for a string only. *)
Definition convert_name (name : json) : result string :=
  match name with
  | JStr s => Ok (convert_addon_name s)
  | _ => Raise AttributeError
  end.

Definition __init__ (name url epoch_date : json) : result t :=
  if negb (Json.truthy name && Json.truthy url && Json.truthy epoch_date)
  then Raise ValueError
  else
    match convert_name name with
    | Raise e => Raise e
    | Ok n =>
        if negb (match_alnum n) then Raise AssertionError
        else
          match Json.to_int epoch_date with
          | Raise e => Raise e
          | Ok d => Ok {| _name := n; _url := url;
                          _full_url := format2 url ADDON_DL_SUFFIX;
                          _epoch_date := d |}
          end
    end.

End Methods.

Definition get_name (a : t) : string := _name a.
Definition get_url (a : t) : json := _url a.
Definition get_full_url (a : t) : string := _full_url a.
Definition get_date (a : t) : Z := _epoch_date a.

Definition to_json (a : t) : json :=
  JDict (<["name" := JStr (_name a)]>
          (<["url" := _url a]>
            (<["date" := JInt (_epoch_date a)]> ∅))).

End Addon.

Module JsonAddon.

Section Methods.
Context (E : Env).

Definition __init__ (json_dict : json) : result Addon.t :=
  match json_dict with
  | JDict _ =>
      match Json.getitem json_dict "name" with
      | Raise e => Raise e
      | Ok name =>
          match Json.getitem json_dict "url" with
          | Raise e => Raise e
          | Ok url =>
              match Json.getitem json_dict "date" with
              | Raise e => Raise e
              | Ok date => Addon.__init__ E name url date
              end
          end
      end
  | _ => Raise ValueError
  end.

End Methods.

End JsonAddon.

(* ===================================================================== *)
(** ** The objects of the program and the state they live in               *)
(* ===================================================================== *)

(** class Message: a dictionary of keyword arguments, read with [get].
    The program uses the keys [msg], [current_addon] and [online_addon];
    [get] of an absent key is [None]. *)
Module Message.

Record t : Type := Make {
  msg : option string;
  current_addon : option string;
  online_addon : option Addon.t
}.

Definition text (s : string) : t :=
  {| msg := Some s; current_addon := None; online_addon := None |}.

Definition task (addon : string) (online : Addon.t) : t :=
  {| msg := None; current_addon := Some addon; online_addon := Some online |}.

End Message.

(** The fields of the instances: a [MultiQueue], the two caches of an
    [AddonSearch], a [Config]. *)
Module Obj.

Record MultiQueue : Type := {
  _task_queue : list Message.t;       (* FIFO: put at the end, get at the front *)
  _message_queue : list Message.t;
  _warning_queue : list Message.t
}.

Record AddonSearch : Type := {
  _no_results_found : gmap string bool;
  _retrieved_addons : gmap string Addon.t
}.

Record Config : Type := {
  _config_file : string;
  _config_dict : json
}.

End Obj.

(** A file holds the text that [json.dumps(d, sort_keys=True, indent=4)]
    writes for a document [d], from which [json.loads] gives [d] back, or
    some text that [json.loads] rejects. *)
Inductive file_body : Type :=
  | JsonText (d : json)
  | OtherText (s : string).

(** The two modes in which the program opens a file of [files]:
    ['r'] and ['w']. *)
Inductive access : Set := Reading | Writing.

Record Storage : Type := {
  files : gmap string file_body;                 (* files read and written by name *)
  errors_log : list string;                      (* what was appended to errors.log *)
  stdout : list string;                          (* what was printed *)
  extracted : gmap (string * string) string;     (* (directory, member) ↦ data *)
  (** the error, if any, with which [open(name, mode)] ends for a reason
      other than a missing file: the path is a directory
      (IsADirectoryError), the process has no right to it
      (PermissionError) *)
  open_error : string → access → option exn
}.

Record World : Type := {
  disk : Storage;
  net_log : list request;                        (* the requests sent, oldest first *)
  queue : Obj.MultiQueue;
  search : Obj.AddonSearch;
  config : Obj.Config
}.

Definition upd_disk (f : Storage → Storage) (w : World) : World :=
  {| disk := f (disk w); net_log := net_log w; queue := queue w;
     search := search w; config := config w |}.
Definition upd_net_log (f : list request → list request) (w : World) : World :=
  {| disk := disk w; net_log := f (net_log w); queue := queue w;
     search := search w; config := config w |}.
Definition upd_queue (f : Obj.MultiQueue → Obj.MultiQueue) (w : World) : World :=
  {| disk := disk w; net_log := net_log w; queue := f (queue w);
     search := search w; config := config w |}.
Definition upd_search (f : Obj.AddonSearch → Obj.AddonSearch) (w : World) : World :=
  {| disk := disk w; net_log := net_log w; queue := queue w;
     search := f (search w); config := config w |}.
Definition upd_config (f : Obj.Config → Obj.Config) (w : World) : World :=
  {| disk := disk w; net_log := net_log w; queue := queue w;
     search := search w; config := f (config w) |}.

Definition write_file (name : string) (body : file_body) (d : Storage) : Storage :=
  {| files := <[name := body]> (files d); errors_log := errors_log d;
     stdout := stdout d; extracted := extracted d; open_error := open_error d |}.
Definition append_log (line : string) (d : Storage) : Storage :=
  {| files := files d; errors_log := errors_log d ++ [line];
     stdout := stdout d; extracted := extracted d; open_error := open_error d |}.
Definition append_stdout (line : string) (d : Storage) : Storage :=
  {| files := files d; errors_log := errors_log d;
     stdout := stdout d ++ [line]; extracted := extracted d;
     open_error := open_error d |}.
Definition write_member (dir : string) (member : string * string) (d : Storage) : Storage :=
  {| files := files d; errors_log := errors_log d; stdout := stdout d;
     extracted := <[(dir, member.1) := member.2]> (extracted d);
     open_error := open_error d |}.

Abbreviation W := (Py.M World).

(** [str(err)] for an exception of the given class. *)
Definition exn_text (e : exn) : string :=
  match e with
  | ValueError => "ValueError" | AssertionError => "AssertionError"
  | TypeError => "TypeError" | AttributeError => "AttributeError"
  | KeyError => "KeyError" | NameError => "NameError"
  | FileNotFoundError => "FileNotFoundError"
  | PermissionError => "PermissionError"
  | IsADirectoryError => "IsADirectoryError"
  | BadZipFile => "File is not a zip file"
  | QueueEmpty => "Empty"
  end.

(** [log]: append to errors.log. *)
Definition log (error : string) : W unit := modify (upd_disk (append_log error)).

Definition print (line : string) : W unit := modify (upd_disk (append_stdout line)).

Section HttpRequest.
Context (E : Env).
Local Open Scope py_scope.

(** [http_request]: the response, or [None] after a timeout (printed) or
    another request error (logged). *)
Definition http_request (url : string) (url_params : option string)
    : W (option response) :=
  let rq := Request url url_params in
  let! history := gets net_log in
  do! modify (upd_net_log (λ l, l ++ [rq])) in
  match net E history rq with
  | Responded r => ret (Some r)
  | TimedOut => do! print "Connection timed out." in ret None
  | Failed err => do! log err in ret None
  end.

End HttpRequest.

(* ===================================================================== *)
(** ** class MultiQueue                                                    *)
(* ===================================================================== *)

Module MultiQueue.
Import Obj.

Definition __init__ : MultiQueue :=
  {| _task_queue := []; _message_queue := []; _warning_queue := [] |}.

Definition put_task (task : Message.t) (q : MultiQueue) : MultiQueue :=
  {| _task_queue := _task_queue q ++ [task];
     _message_queue := _message_queue q; _warning_queue := _warning_queue q |}.
Definition put_message (message : Message.t) (q : MultiQueue) : MultiQueue :=
  {| _task_queue := _task_queue q;
     _message_queue := _message_queue q ++ [message];
     _warning_queue := _warning_queue q |}.
Definition put_warning (warning : Message.t) (q : MultiQueue) : MultiQueue :=
  {| _task_queue := _task_queue q; _message_queue := _message_queue q;
     _warning_queue := _warning_queue q ++ [warning] |}.

(** [get_task] on a queue that holds a task: the task and the rest. *)
Definition get_task (q : MultiQueue) : option (Message.t * MultiQueue) :=
  match _task_queue q with
  | [] => None
  | task :: rest =>
      Some (task, {| _task_queue := rest; _message_queue := _message_queue q;
                     _warning_queue := _warning_queue q |})
  end.

Definition task_available (q : MultiQueue) : nat := length (_task_queue q).
Definition message_available (q : MultiQueue) : nat := length (_message_queue q).
Definition warning_available (q : MultiQueue) : nat := length (_warning_queue q).

End MultiQueue.

(* ===================================================================== *)
(** ** class Config                                                        *)
(* ===================================================================== *)

Module Config.
Import Obj.
Local Open Scope py_scope.

Definition CONFIG_FILE : string := "config.json".

Definition _default : json :=
  JDict (<["config" := JDict ∅]> (<["addons" := JDict ∅]> ∅)).

Definition set_dict (d : json) (c : Config) : Config :=
  {| _config_file := _config_file c; _config_dict := d |}.

(** [open(name, mode)]: it ends with the error of the file system for
    this path and mode, if there is one; opening for writing creates the
    file or empties it. *)
Definition open_file (name : string) (mode : access) : W unit :=
  let! d := gets disk in
  match open_error d name mode with
  | Some e => raise e
  | None =>
      match mode with
      | Reading => ret tt
      | Writing => modify (upd_disk (write_file name (OtherText "")))
      end
  end.

(** Reading the config file: [open] fails with the error of the file
    system or because the file is missing, [json.loads] on text that is
    not JSON. *)
Definition read_config_file : W json :=
  let! name := gets (λ w, _config_file (config w)) in
  do! open_file name Reading in
  let! fs := gets (λ w, files (disk w)) in
  match fs !! name with
  | None => raise FileNotFoundError
  | Some (OtherText _) => raise ValueError
  | Some (JsonText d) => ret d
  end.

Definition decode : W json :=
  try_except read_config_file
    ["FileNotFoundError"; "ValueError"; "KeyError"]
    (λ _, ret _default).

(** [_formatted_json]: the text of a dictionary. *)
Definition _formatted_json (json_dict : json) : result file_body :=
  match json_dict with
  | JDict _ => Ok (JsonText json_dict)
  | _ => Raise AssertionError
  end.

(** [encode]: the file is opened for writing, which empties it, before
    the text is made; then the file holds the text of the stored
    dictionary. *)
Definition encode : W unit :=
  let! name := gets (λ w, _config_file (config w)) in
  do! open_file name Writing in
  let! d := gets (λ w, _config_dict (config w)) in
  let! text := lift (_formatted_json d) in
  modify (upd_disk (write_file name text)).

Definition __init__ (file_name : string) : W unit :=
  do! modify (upd_config (λ _, {| _config_file := file_name; _config_dict := JNull |})) in
  let! d := decode in
  modify (upd_config (set_dict d)).

Section Methods.
Context (E : Env).

Definition get_addon (name : string) : W (option Addon.t) :=
  try_except
    (let! d := gets (λ w, _config_dict (config w)) in
     let! addons := lift (Json.getitem d "addons") in
     let! info := lift (Json.get addons name) in
     let! a := lift (JsonAddon.__init__ E info) in
     ret (Some a))
    ["ValueError"]
    (λ _, ret None).

(** The dictionary comprehension of [get_addons], entry by entry: the
    first entry that [JsonAddon] rejects ends it.  (The map lists its
    entries in an order of its own, Python in the order of insertion; the
    two agree on whether an entry is rejected, and may differ on which
    rejection is met first when there are several.) *)
Fixpoint build_addons (items : list (string * json))
    : result (gmap string Addon.t) :=
  match items with
  | [] => Ok ∅
  | (name, info) :: rest =>
      match JsonAddon.__init__ E info with
      | Raise e => Raise e
      | Ok a =>
          match build_addons rest with
          | Raise e => Raise e
          | Ok m => Ok (<[name := a]> m)
          end
      end
  end.

(** [.items()]: only a dictionary has the method. *)
Definition items (v : json) : result (list (string * json)) :=
  match v with
  | JDict d => Ok (map_to_list d)
  | _ => Raise AttributeError
  end.

Definition get_addons : W (gmap string Addon.t) :=
  let! d := gets (λ w, _config_dict (config w)) in
  let! addons := lift (Json.getitem d "addons") in
  let! its := lift (items addons) in
  lift (build_addons its).

End Methods.

Definition update_addon (addon : Addon.t) : W unit :=
  let! d := gets (λ w, _config_dict (config w)) in
  let! addons := lift (Json.getitem d "addons") in
  let! addons' := lift (Json.setitem addons (Addon.get_name addon) (Addon.to_json addon)) in
  let! d' := lift (Json.setitem d "addons" addons') in
  do! modify (upd_config (set_dict d')) in
  encode.

Definition get_directory : W json :=
  let! d := gets (λ w, _config_dict (config w)) in
  let! section := lift (Json.getitem d "config") in
  lift (Json.get_default section "PATH" (JStr "")).

Definition update_directory (directory : string) : W unit :=
  if Str.nonempty directory then
    let! d := gets (λ w, _config_dict (config w)) in
    let! section := lift (Json.getitem d "config") in
    let! section' := lift (Json.setitem section "PATH" (JStr directory)) in
    let! d' := lift (Json.setitem d "config" section') in
    do! modify (upd_config (set_dict d')) in
    encode
  else ret tt.

(** [.keys()]: only a dictionary has the method. *)
Definition keys (v : json) : result (gset string) :=
  match v with
  | JDict d => Ok (dom d)
  | _ => Raise AttributeError
  end.

Definition addon_names : W (gset string) :=
  let! d := gets (λ w, _config_dict (config w)) in
  let! addons := lift (Json.getitem d "addons") in
  lift (keys addons).

(** The argument of [add_addons]: a list of addons, or a dictionary whose
    values are addons, listed in the order of insertion. *)
Inductive addons_arg : Type :=
  | AddonList (l : list Addon.t)
  | AddonDict (d : list (string * Addon.t)).

(** [addons.values()] for a dictionary, the list itself otherwise. *)
Definition values (addons : addons_arg) : list Addon.t :=
  match addons with
  | AddonList l => l
  | AddonDict d => d.*2
  end.

(** The loop of [add_addons]. *)
Fixpoint update_each (addons : list Addon.t) : W unit :=
  match addons with
  | [] => ret tt
  | addon :: rest => do! update_addon addon in update_each rest
  end.

Definition add_addons (addons : addons_arg) : W unit :=
  do! update_each (values addons) in
  encode.

End Config.

(* ===================================================================== *)
(** ** class AddonSearch                                                   *)
(* ===================================================================== *)

Module AddonSearch.
Import Obj.
Local Open Scope py_scope.

Definition BASE_CURSE_URL : string := "http://www.curse.com/search/ws-addons".
Definition BASE_URL_CURSEFORGE : string := "http://wildstar.curseforge.com/".
Definition SEARCH_START : string := "Searching for addon updates...".

Definition __init__ : AddonSearch :=
  {| _no_results_found := ∅; _retrieved_addons := ∅ |}.

Definition _split_by_camel_case (addon_name : string) : string :=
  Str.join " " (Str.findall_capitalized addon_name).

Definition _remove_last_word (addon_name : string) : string :=
  Str.join "" (Str.but_last (Str.findall_capitalized addon_name)).

Definition _remove_page (url : string) : string :=
  Str.replace "/wildstar/" "/" url.

Definition _no_results_found_with (addon_name : string) : W unit :=
  modify (upd_search (λ s,
    {| _no_results_found := <[addon_name := true]> (_no_results_found s);
       _retrieved_addons := _retrieved_addons s |})).

Definition remember (name : string) (addon : Addon.t) : W unit :=
  modify (upd_search (λ s,
    {| _no_results_found := _no_results_found s;
       _retrieved_addons := <[name := addon]> (_retrieved_addons s) |})).

(** [_results_found_on]: [page.text] of [None] raises AttributeError,
    which the method catches and answers [True]. *)
Definition _results_found_on (page : option response) : W bool :=
  try_except
    (match page with
     | None => raise AttributeError
     | Some r => ret (negb (no_results_marker r))
     end)
    ["TypeError"; "AttributeError"]
    (λ _, ret true).

Section Methods.
Context (E : Env).

(** [url.replace] of [None] raises AttributeError. *)
Definition _make_full_url_from (partial_url : option string) : W string :=
  match partial_url with
  | None => raise AttributeError
  | Some u => ret (urljoin E BASE_URL_CURSEFORGE (_remove_page u))
  end.

Definition _find_addon_date (url : string) : W (option string) :=
  let! page := http_request E url None in
  match page with
  | None => ret None
  | Some r =>
      match last_released r with
      | NoReleasedItem => ret None
      | ReleasedNoAbbr => raise AttributeError
      | ReleasedEpoch e => ret e
      end
  end.

Definition _find_addon_info_on (page : response)
    : W (option string * option string * option string) :=
  match first_link page with
  | None => ret (None, None, None)
  | Some (text, href) =>
      let name := convert_addon_name text in
      let! url := _make_full_url_from href in
      let! date := _find_addon_date url in
      ret (Some name, Some url, date)
  end.

(** The elements of the set literal of [_search_request], in the order
    in which the loop visits them. *)
Definition search_terms (addon_name : string) : list string :=
  set_iter E [addon_name; _split_by_camel_case addon_name;
              _remove_last_word addon_name].

(** The loop of [_search_request]: its body returns as soon as a term
    is not empty; running off the end returns [None]. *)
Fixpoint search_loop (addon_name : string) (terms : list string)
    : W (option response) :=
  match terms with
  | [] => ret None
  | search_term :: rest =>
      if Str.nonempty search_term then
        let! page := http_request E BASE_CURSE_URL (Some search_term) in
        let! results := _results_found_on page in
        if results then ret page
        else do! _no_results_found_with addon_name in ret None
      else search_loop addon_name rest
  end.

Definition _search_request (addon_name : string) : W (option response) :=
  search_loop addon_name (search_terms addon_name).

Definition truthy_str (s : option string) : bool :=
  match s with Some t => Str.nonempty t | None => false end.

Definition not_found (addon_name : string) : W (option Addon.t) :=
  do! _no_results_found_with addon_name in
  do! modify (upd_queue (MultiQueue.put_warning
        (Message.text ("Unable to find '" +:+ addon_name +:+ "' on Curse.")))) in
  ret None.

Definition _search_online (addon_name : string) : W (option Addon.t) :=
  let! page := _search_request addon_name in
  match page with
  | Some p =>
      let! info := _find_addon_info_on p in
      match info with
      | (Some name, Some url, Some date) =>
          if Str.nonempty name && Str.nonempty url && Str.nonempty date then
            let! addon := lift (Addon.__init__ E (JStr name) (JStr url) (JStr date)) in
            do! remember name addon in
            ret (Some addon)
          else not_found addon_name
      | _ => not_found addon_name
      end
  | None => not_found addon_name
  end.

Definition find (addon_name : string) : W (option Addon.t) :=
  let! neg := gets (λ w, _no_results_found (search w) !! addon_name) in
  match neg with
  | Some true => ret None
  | _ =>
      let! addon := gets (λ w, _retrieved_addons (search w) !! addon_name) in
      match addon with
      | Some a => ret (Some a)
      | None => _search_online addon_name
      end
  end.

(** The loop of [run] over [self._addons]. *)
Fixpoint run_loop (addons : list string) : W unit :=
  match addons with
  | [] => ret tt
  | addon :: rest =>
      do! modify (upd_queue (MultiQueue.put_message
            (Message.text ("Searching for '" +:+ addon +:+ "'...")))) in
      let! online_addon := find addon in
      do! match online_addon with
          | Some a => modify (upd_queue (MultiQueue.put_task (Message.task addon a)))
          | None => ret tt
          end in
      run_loop rest
  end.

Definition run (_addons : list string) : W unit :=
  do! modify (upd_queue (MultiQueue.put_message (Message.text SEARCH_START))) in
  run_loop _addons.

End Methods.

End AddonSearch.

(* ===================================================================== *)
(** ** class Downloader                                                    *)
(* ===================================================================== *)

Module Downloader.
Local Open Scope py_scope.

(** The fields of an instance.  [__init__] sets [_queue],
    [_addon_directory] and [_config]; the methods [_update_required] and
    [_addon_exists] read a further attribute [_search], which is present
    only when something has put it there. *)
Record t : Type := Make {
  _addon_directory : string;
  _search : option (string → W (option Addon.t))
}.

Definition __init__ (addon_directory : string) : W t :=
  do! Config.__init__ Config.CONFIG_FILE in
  ret {| _addon_directory := addon_directory; _search := None |}.

(** [self._search]: AttributeError when the attribute is absent. *)
Definition get_search (self : t) : W (string → W (option Addon.t)) :=
  match _search self with
  | Some s => ret s
  | None => raise AttributeError
  end.

Section Methods.
Context (E : Env).

Definition extractall (dir : string) (members : list (string * string)) : W unit :=
  modify (upd_disk (λ d, foldl (λ d m, write_member dir m d) d members)).

Definition _extract_zipfile (self : t) (url : string) : W unit :=
  try_except
    (let! response := http_request E url None in
     match response with
     | None => raise AttributeError          (* [response.content] of [None] *)
     | Some r =>
         match zip_members r with
         | None => raise BadZipFile
         | Some members => extractall (_addon_directory self) members
         end
     end)
    ["TypeError"; "BadZipFile"]
    (λ err, log (exn_text err)).

(** One turn of the loop of [run], for a queue that holds a task. *)
Definition run_body (self : t) : W unit :=
  try_except
    (let! q := gets queue in
     match MultiQueue.get_task q with
     | None => ret tt
     | Some (task, q') =>
         do! modify (upd_queue (λ _, q')) in
         match Message.current_addon task, Message.online_addon task with
         | Some current_addon, Some online_addon =>
             if Str.nonempty current_addon then
               do! modify (upd_queue (MultiQueue.put_message
                     (Message.text ("Downloading " +:+ Addon.get_name online_addon +:+ "...")))) in
               do! _extract_zipfile self (Addon.get_full_url online_addon) in
               Config.update_addon online_addon
             else ret tt
         | _, _ => ret tt
         end
     end)
    ["queue.Empty"]
    (λ _, ret tt).

(** [while self._queue.task_available(): ...].  Every turn takes one
    task and none is added, so [fuel] beyond the number of queued tasks
    is never used up. *)
Fixpoint run_loop (self : t) (fuel : nat) : W unit :=
  match fuel with
  | O => ret tt
  | S fuel' =>
      let! n := gets (λ w, MultiQueue.task_available (queue w)) in
      match n with
      | O => ret tt
      | S _ => do! run_body self in run_loop self fuel'
      end
  end.

Definition run (self : t) : W unit :=
  let! n := gets (λ w, MultiQueue.task_available (queue w)) in
  run_loop self (S n).

Definition _directory_creation_date (self : t) (directory : string) : W Q :=
  match st_ctime E (_addon_directory self) directory with
  | Some c => ret c
  | None => raise FileNotFoundError
  end.

(** [a < b] for a float [a] and an integer [b]. *)
Definition float_lt_int (a : Q) (b : Z) : bool := negb (Qle_bool (inject_Z b) a).

(** [online_addon.get_date()]: AttributeError on [None]. *)
Definition date_of (online_addon : option Addon.t) : W Z :=
  match online_addon with
  | Some a => ret (Addon.get_date a)
  | None => raise AttributeError
  end.

Definition _update_required (self : t) (addon_name : string) : W bool :=
  let! installed_addon := Config.get_addon E addon_name in
  let! search := get_search self in
  let! online_addon := search addon_name in
  let! first :=
    match installed_addon with
    | None => ret true
    | Some installed =>
        let! online_date := date_of online_addon in
        ret (Addon.get_date installed =? online_date)
    end in
  if first : bool then ret true
  else
    let! created := _directory_creation_date self addon_name in
    let! online_date := date_of online_addon in
    if float_lt_int created online_date then ret true
    else ret false.

Definition _addon_exists (self : t) (addon_name : string) : W bool :=
  if isdir E (_addon_directory self) addon_name then
    let! search := get_search self in
    let! online_addon := search addon_name in
    ret (match online_addon with Some _ => true | None => false end)
  else ret false.

Fixpoint pending_loop (self : t) (names : list string) : W (list string) :=
  match names with
  | [] => ret []
  | addon_name :: rest =>
      let! exists_ := _addon_exists self addon_name in
      let! wanted := (if exists_ : bool then _update_required self addon_name
                      else ret false) in
      let! others := pending_loop self rest in
      ret (if wanted : bool then addon_name :: others else others)
  end.

Definition _get_pending_downloads (self : t) : W (gset string) :=
  let! download_list := pending_loop self (listdir E (_addon_directory self)) in
  ret (list_to_set download_list).

End Methods.

End Downloader.

(* ===================================================================== *)
(** ** Concrete catalogs and states used by the examples                   *)
(* ===================================================================== *)

Module Scenario.

(** [urljoin] of the catalog base with a reference that is an absolute
    path: scheme and host of the base, then the path. *)
Definition urljoin_path (base ref : string) : string :=
  match ref with
  | String "/" _ => String.substring 0 (Nat.pred (String.length base)) base +:+ ref
  | _ => base +:+ ref
  end.

Definition no_results_page : response :=
  {| no_results_marker := true; first_link := None;
     last_released := NoReleasedItem; zip_members := None |}.

(** A result page whose first row shows [name] and links to [href]. *)
Definition result_page (name href : string) : response :=
  {| no_results_marker := false; first_link := Some (name, Some href);
     last_released := NoReleasedItem; zip_members := None |}.

(** A detail page whose last released file carries [epoch]. *)
Definition detail_page (epoch : string) : response :=
  {| no_results_marker := false; first_link := None;
     last_released := ReleasedEpoch (Some epoch); zip_members := None |}.

(** A download that is a zip archive with the given members. *)
Definition archive (members : list (string * string)) : response :=
  {| no_results_marker := false; first_link := None;
     last_released := NoReleasedItem; zip_members := Some members |}.

(** A download whose bytes are not a zip archive. *)
Definition not_an_archive : response :=
  {| no_results_marker := false; first_link := None;
     last_released := NoReleasedItem; zip_members := None |}.

(** A catalog: the answer to each search term ([None]: the request times
    out; a term not listed: the page without results) and the page at
    each address (an address not listed: the request fails). *)
Definition catalog (searches : list (string * option response))
    (pages : list (string * response)) : list request → request → net_outcome :=
  λ _ rq,
    match req_search rq with
    | Some term =>
        match Py.assoc term searches with
        | Some (Some page) => Responded page
        | Some None => TimedOut
        | None => Responded no_results_page
        end
    | None =>
        match Py.assoc (req_url rq) pages with
        | Some page => Responded page
        | None => Failed "404 Client Error"
        end
    end.

(** An environment over a catalog: a set literal is visited in the order
    in which its elements were written (an element written twice at its
    last place), every directory entry is a directory created at
    [created]. *)
Definition env (searches : list (string * option response))
    (pages : list (string * response)) (created : Q) : Env :=
  {| net := catalog searches pages;
     urljoin := urljoin_path;
     set_iter := remove_dups;
     format_other := λ _, "";
     listdir := λ _, [];
     isdir := λ _ _, true;
     st_ctime := λ _ _, Some created |}.

Definition empty_disk : Storage :=
  {| files := ∅; errors_log := []; stdout := []; extracted := ∅;
     open_error := λ _ _, None |}.

(** The state at start: nothing on disk, nothing sent, empty queues and
    caches, the default configuration. *)
Definition start : World :=
  {| disk := empty_disk; net_log := [];
     queue := MultiQueue.__init__; search := AddonSearch.__init__;
     config := {| Obj._config_file := Config.CONFIG_FILE;
                  Obj._config_dict := Config._default |} |}.

Definition record (name url : string) (date : Z) : Addon.t :=
  {| Addon._name := name; Addon._url := JStr url;
     Addon._full_url := url +:+ Addon.ADDON_DL_SUFFIX;
     Addon._epoch_date := date |}.

(** [start] with one stored record, in memory and in the file. *)
Definition with_record (a : Addon.t) : World :=
  (Config.update_addon a start).2.

(** SpaceStashCore is on the catalog as "Space Stash". *)
Definition space_stash_href : string := "/ws-addons/wildstar/220022-spacestash".
Definition space_stash_url : string :=
  "http://wildstar.curseforge.com/ws-addons/220022-spacestash".

(** Every term finds it. *)
Definition env_space_stash : Env :=
  env [ ("SpaceStashCore", Some (result_page "Space Stash" space_stash_href));
        ("Space Stash Core", Some (result_page "Space Stash" space_stash_href));
        ("SpaceStash", Some (result_page "Space Stash" space_stash_href)) ]
      [ (space_stash_url, detail_page "1407542400") ] 0.

(** Only the camel-case split finds it; the raw name has no results. *)
Definition env_split_only : Env :=
  env [ ("Space Stash Core", Some (result_page "Space Stash" space_stash_href)) ]
      [ (space_stash_url, detail_page "1407542400") ] 0.

(** The request for the raw name times out; the other terms find it. *)
Definition env_raw_times_out : Env :=
  env [ ("SpaceStashCore", None);
        ("Space Stash Core", Some (result_page "Space Stash" space_stash_href));
        ("SpaceStash", Some (result_page "Space Stash" space_stash_href)) ]
      [ (space_stash_url, detail_page "1407542400") ] 0.

(** Bar: released at 100 on the catalog, recorded with 200 in the
    config, its directory created at 150. *)
Definition bar_url : string := "http://wildstar.curseforge.com/ws-addons/1-bar".
Definition env_bar : Env :=
  env [ ("Bar", Some (result_page "Bar" "/ws-addons/wildstar/1-bar")) ]
      [ (bar_url, detail_page "100") ] 150.
Definition bar_recorded : World := with_record (record "Bar" bar_url 200).

(** Two queued installs: the download of A is not a zip archive, the
    download of B is one. *)
Definition env_downloads : Env :=
  env [] [ ("http://x/a/files/latest", not_an_archive);
           ("http://x/b/files/latest", archive [("B/toc.xml", "<Addon/>")]) ] 0.
Definition task_a : Message.t := Message.task "A" (record "A" "http://x/a" 10).
Definition task_b : Message.t := Message.task "B" (record "B" "http://x/b" 20).
Definition task_c : Message.t := Message.task "C" (record "C" "http://x/c" 30).
Definition two_tasks : World :=
  upd_queue (MultiQueue.put_task task_b) (upd_queue (MultiQueue.put_task task_a) start).
(** The download of C fails (no such page), B is fine. *)
Definition two_tasks_unreachable : World :=
  upd_queue (MultiQueue.put_task task_b) (upd_queue (MultiQueue.put_task task_c) start).

Definition downloader : Downloader.t :=
  {| Downloader._addon_directory := "Addons"; Downloader._search := None |}.

(** A downloader that has been given a search object. *)
Definition downloader_with_search (E : Env) : Downloader.t :=
  {| Downloader._addon_directory := "Addons";
     Downloader._search := Some (AddonSearch.find E) |}.

End Scenario.

(* ===================================================================== *)
(** ** Notions used in the statements                                      *)
(* ===================================================================== *)

(** [m] relates the state it starts in to the state it leaves, whatever
    it returns or raises. *)
Definition preserves {A} (R : relation World) (m : W A) : Prop :=
  ∀ w, R w (m w).2.

(** [name] is in the negative cache of the search object. *)
Definition neg_cached (w : World) (name : string) : Prop :=
  Obj._no_results_found (search w) !! name = Some true.

(** Every name of the negative cache of [w] is still in that of [w']. *)
Definition neg_le (w w' : World) : Prop :=
  ∀ name, neg_cached w name → neg_cached w' name.

(** The later states of one search object: it has served further calls of
    [find], and the rest of the program has run without touching it. *)
Inductive later_on (E : Env) : World → World → Prop :=
  | later_now w : later_on E w w
  | later_find w1 w2 other :
      later_on E w1 w2 → later_on E w1 (AddonSearch.find E other w2).2
  | later_elsewhere w1 w2 w3 :
      later_on E w1 w2 → search w3 = search w2 → later_on E w1 w3.

(** [m] neither reads nor writes what [g] changes: running [m] after [g]
    is running [m] and then applying [g]. *)
Definition commutes {A} (g : World → World) (m : W A) : Prop :=
  ∀ w, m (g w) = ((m w).1, g (m w).2).

(** The task queue is the same in [w] and [w']. *)
Definition same_tasks (w w' : World) : Prop :=
  Obj._task_queue (queue w') = Obj._task_queue (queue w).

(** The requests sent between the states [w] and [w']. *)
Definition sent_between (w w' : World) : list request :=
  drop (length (net_log w)) (net_log w').

(** Writing the stored dictionary to its file, then loading the file
    into the object again. *)
Definition persist_and_reload : W unit :=
  Py.bind Config.encode (λ _,
  Py.bind (Py.gets (λ w, Obj._config_file (config w))) Config.__init__).

(** A record that the constructor has built, with a timestamp other than
    zero, filed under its name as [update_addon] files it. *)
Definition filed_record (E : Env) (key : string) (value : json) : Prop :=
  ∃ name url epoch_date a,
    Addon.__init__ E name url epoch_date = Ok a
    ∧ Addon.get_date a ≠ 0
    ∧ key = Addon.get_name a ∧ value = Addon.to_json a.

(** The config file can be opened in the given mode. *)
Definition config_file_opens (w : World) (mode : access) : Prop :=
  open_error (disk w) (Obj._config_file (config w)) mode = None.

(** The value found at [section][key] of the stored dictionary. *)
Definition config_item (w : World) (section key : string) : result json :=
  match Json.getitem (Obj._config_dict (config w)) section with
  | Ok v => Json.getitem v key
  | Raise e => Raise e
  end.

(** A fragment as the pattern [[A-Z]{1}[a-z0-9]+] matches it whole: a
    capital, then one character or more of [a-z0-9]. *)
Definition is_fragment (f : string) : bool :=
  match f with
  | String u run =>
      Str.is_upper u && Str.nonempty run && Str.forallb Str.is_lower_or_digit run
  | EmptyString => false
  end.

(** The [addons] mapping after the records of [l] have been stored in
    it one after the other. *)
Definition store_all (l : list Addon.t) (addons : gmap string json) : gmap string json :=
  foldl (λ m a, <[Addon.get_name a := Addon.to_json a]> m) addons l.

(** The stored dictionary has an [addons] section that is a dictionary. *)
Definition has_addons (w : World) : Prop :=
  ∃ m addons,
    Obj._config_dict (config w) = JDict m ∧ m !! "addons" = Some (JDict addons).

(** The config file holds the dictionary that the object holds. *)
Definition flushed (w : World) : Prop :=
  files (disk w) !! Obj._config_file (config w)
  = Some (JsonText (Obj._config_dict (config w))).

(** Every entry of the positive cache is filed under its own name. *)
Definition cache_keyed (w : World) : Prop :=
  ∀ key a, Obj._retrieved_addons (search w) !! key = Some a → key = Addon.get_name a.

(** [cache_keyed] is kept from [w] to [w']. *)
Definition keeps_cache_keyed (w w' : World) : Prop := cache_keyed w → cache_keyed w'.

(** From [w] to [w'] the queues, the positive cache, the config object
    and the files are the same: what looking at the catalog leaves alone. *)
Definition scrape_frame (w w' : World) : Prop :=
  queue w' = queue w
  ∧ Obj._retrieved_addons (search w') = Obj._retrieved_addons (search w)
  ∧ config w' = config w
  ∧ files (disk w') = files (disk w)
  ∧ extracted (disk w') = extracted (disk w).

(** From [w] to [w'] the config object is the same and, on disk, the
    files kept by name, what was extracted and the rights of the file
    system are the same, while errors.log and the output have at most
    grown at their ends. *)
Definition log_only_frame (w w' : World) : Prop :=
  config w' = config w
  ∧ files (disk w') = files (disk w)
  ∧ extracted (disk w') = extracted (disk w)
  ∧ open_error (disk w') = open_error (disk w)
  ∧ errors_log (disk w) `prefix_of` errors_log (disk w')
  ∧ stdout (disk w) `prefix_of` stdout (disk w').

(** From [w] to [w'] the task queue and the message queue are the same. *)
Definition same_tasks_messages (w w' : World) : Prop :=
  Obj._task_queue (queue w') = Obj._task_queue (queue w)
  ∧ Obj._message_queue (queue w') = Obj._message_queue (queue w).

(** From [w] to [w'] the search object and the warning queue are the
    same. *)
Definition install_frame (w w' : World) : Prop :=
  search w' = search w
  ∧ Obj._warning_queue (queue w') = Obj._warning_queue (queue w).

(** The messages of the two workers. *)
Definition searching_message (addon : string) : Message.t :=
  Message.text ("Searching for '" +:+ addon +:+ "'...").
Definition unable_message (addon_name : string) : Message.t :=
  Message.text ("Unable to find '" +:+ addon_name +:+ "' on Curse.").
Definition downloading_message (online_addon : Addon.t) : Message.t :=
  Message.text ("Downloading " +:+ Addon.get_name online_addon +:+ "...").

(** From [w] to [w'] only requests without a search parameter were
    sent: downloads. *)
Definition downloads_only (w w' : World) : Prop :=
  ∃ sent, net_log w' = net_log w ++ sent
          ∧ Forall (λ rq, req_search rq = None) sent.

(** The addon that the install worker installs for a task: the task
    must name a local addon and carry an online addon. *)
Definition installed_by (task : Message.t) : option Addon.t :=
  match Message.current_addon task, Message.online_addon task with
  | Some current_addon, Some online_addon =>
      if Str.nonempty current_addon then Some online_addon else None
  | _, _ => None
  end.

(** The message that the install worker sends for a task. *)
Definition announced (task : Message.t) : list Message.t :=
  match installed_by task with
  | Some online_addon => [downloading_message online_addon]
  | None => []
  end.

(** The names of the addons that the tasks install. *)
Definition installed_names (tasks : list Message.t) : list string :=
  omap (λ t, Addon.get_name <$> installed_by t) tasks.

(** From [w] to [w'] the config object and the queues are the same. *)
Definition keeps_config_queue (w w' : World) : Prop :=
  config w' = config w ∧ queue w' = queue w.

(** The record filed under [key] in the [addons] section. *)
Definition stored_record (w : World) (key : string) : result json :=
  config_item w "addons" key.

(** What one turn of the loop of the install worker does with the task
    it has taken off the queue. *)
Definition install_task (E : Env) (self : Downloader.t) (task : Message.t) : W unit :=
  match Message.current_addon task, Message.online_addon task with
  | Some current_addon, Some online_addon =>
      if Str.nonempty current_addon then
        Py.bind (Py.modify (upd_queue (MultiQueue.put_message
                   (Message.text ("Downloading " +:+ Addon.get_name online_addon +:+ "...")))))
          (λ _, Py.bind (Downloader._extract_zipfile E self (Addon.get_full_url online_addon))
          (λ _, Config.update_addon online_addon))
      else Py.ret tt
  | _, _ => Py.ret tt
  end.

(** The queue without its first task. *)
Definition without_first_task (q : Obj.MultiQueue) : Obj.MultiQueue :=
  {| Obj._task_queue := tail (Obj._task_queue q);
     Obj._message_queue := Obj._message_queue q;
     Obj._warning_queue := Obj._warning_queue q |}.


(** Catalogs with markup that the scraping does not expect, and an
    environment without network. *)
Module Malformed.


(** The detail page of Bar carries the timestamp zero. *)
Definition env_zero_epoch : Env :=
  Scenario.env [ ("Bar", Some (Scenario.result_page "Bar" "/ws-addons/wildstar/1-bar")) ]
               [ (Scenario.bar_url, Scenario.detail_page "0") ] 0.

(** Bar is found, and the request for its detail page fails. *)
Definition env_no_detail_page : Env :=
  Scenario.env [ ("Bar", Some (Scenario.result_page "Bar" "/ws-addons/wildstar/1-bar")) ]
               [] 0.


(** Every request times out. *)
Definition env_offline : Env :=
  {| net := λ _ _, TimedOut;
     urljoin := Scenario.urljoin_path;
     set_iter := remove_dups;
     format_other := λ _, "";
     listdir := λ _, [];
     isdir := λ _ _, true;
     st_ctime := λ _ _, None |}.

(** A directory that holds the folder Bar and the file notes.txt. *)
Definition env_listing : Env :=
  {| net := Scenario.catalog
              [ ("Bar", Some (Scenario.result_page "Bar" "/ws-addons/wildstar/1-bar")) ]
              [ (Scenario.bar_url, Scenario.detail_page "100") ];
     urljoin := Scenario.urljoin_path;
     set_iter := remove_dups;
     format_other := λ _, "";
     listdir := λ _, ["notes.txt"; "Bar"];
     isdir := λ _ name, String.eqb name "Bar";
     st_ctime := λ _ _, Some 50%Q |}.

(** The start state on a disk where the file system refuses every
    [open] with PermissionError. *)
Definition locked : World :=
  upd_disk (λ d, {| files := files d; errors_log := errors_log d; stdout := stdout d;
                    extracted := extracted d;
                    open_error := λ _ _, Some PermissionError |})
    Scenario.start.

(** A directory that holds files only. *)
Definition env_files_only : Env :=
  {| net := λ _ _, TimedOut;
     urljoin := Scenario.urljoin_path;
     set_iter := remove_dups;
     format_other := λ _, "";
     listdir := λ _, ["notes.txt"; "readme.md"];
     isdir := λ _ _, false;
     st_ctime := λ _ _, None |}.

End Malformed.

(** Where the scan may leave a match: at the end, or before a character
    outside [a-z0-9]. *)
Definition match_ends_before (rest : string) : Prop :=
  match rest with
  | String d _ => Str.is_lower_or_digit d = false
  | EmptyString => True
  end.

(* ===================================================================== *)
(** * Properties                                                           *)
(* ===================================================================== *)

(** ** Reasoning about computations *)

Ltac py_unfold :=
  cbv beta delta [Py.bind Py.ret Py.raise Py.gets Py.modify Py.lift] in *.

Section Frames.
Context (R : relation World) `{!PreOrder R}.

Lemma preserves_ret {A} (a : A) : preserves R (Py.ret a).
Proof. intros w. simpl. reflexivity. Qed.

Lemma preserves_raise {A} e : preserves R (@Py.raise World A e).
Proof. intros w. simpl. reflexivity. Qed.

Lemma preserves_lift {A} (r : result A) : preserves R (Py.lift r).
Proof. intros w. simpl. reflexivity. Qed.

Lemma preserves_gets {A} (f : World → A) : preserves R (Py.gets f).
Proof. intros w. simpl. reflexivity. Qed.

Lemma preserves_modify (f : World → World) :
  (∀ w, R w (f w)) → preserves R (Py.modify f).
Proof. intros Hf w. simpl. apply Hf. Qed.

Lemma preserves_bind {A B} (m : W A) (k : A → W B) :
  preserves R m → (∀ a, preserves R (k a)) → preserves R (Py.bind m k).
Proof.
  intros Hm Hk w. unfold Py.bind. specialize (Hm w).
  destruct (m w) as [[a|e] w1]; simpl in *; [|done].
  etransitivity; [exact Hm | apply Hk].
Qed.

Lemma preserves_try_except {A} (body : W A) names (handler : exn → W A) :
  preserves R body → (∀ e, preserves R (handler e)) →
  preserves R (Py.try_except body names handler).
Proof.
  intros Hb Hh w. unfold Py.try_except. specialize (Hb w).
  destruct (body w) as [[a|e] w1]; simpl in *; [done|].
  destruct (Py.resolve_all names); [|done].
  case_bool_decide; [|done].
  etransitivity; [exact Hb | apply Hh].
Qed.

End Frames.

(** ** Strings *)

Section StringFacts.

Lemma space_not_alnum c : Str.is_space c = true → Str.is_alnum c = false.
Proof.
  destruct c as [[] [] [] [] [] [] [] []]; vm_compute; intros; congruence.
Qed.

Lemma filter_lstrip s : Str.filter Str.is_alnum (Str.lstrip s) = Str.filter Str.is_alnum s.
Proof.
  induction s as [|c r IH]; [done|]. simpl.
  destruct (Str.is_space c) eqn:Hc; [|done].
  by rewrite (space_not_alnum _ Hc).
Qed.

Lemma filter_rstrip s : Str.filter Str.is_alnum (Str.rstrip s) = Str.filter Str.is_alnum s.
Proof.
  induction s as [|c r IH]; [done|]. simpl.
  destruct (Str.rstrip r) as [|d r'] eqn:Hr.
  - simpl in IH. rewrite <- IH.
    destruct (Str.is_space c) eqn:Hc; [|done].
    by rewrite (space_not_alnum _ Hc).
  - simpl. simpl in IH. by rewrite IH.
Qed.

(** [strip] removes nothing that the substitution keeps. *)
Lemma convert_addon_name_filter s :
  convert_addon_name s = Str.filter Str.is_alnum s.
Proof. unfold convert_addon_name, Str.strip. by rewrite filter_rstrip, filter_lstrip. Qed.

Lemma forallb_filter p s : Str.forallb p (Str.filter p s) = true.
Proof.
  induction s as [|c r IH]; [done|]. simpl.
  destruct (p c) eqn:Hc; [|done]. simpl. by rewrite Hc.
Qed.

Lemma filter_none p s :
  Str.forallb (λ c, negb (p c)) s = true → Str.filter p s = "".
Proof.
  induction s as [|c r IH]; [done|]. simpl.
  intros [Hc Hr]%andb_true_iff. apply negb_true_iff in Hc. rewrite Hc. auto.
Qed.

Lemma filter_filter p s : Str.filter p (Str.filter p s) = Str.filter p s.
Proof.
  induction s as [|c r IH]; [done|]. simpl.
  destruct (p c) eqn:Hc; [|done]. simpl. by rewrite Hc, IH.
Qed.

(** Normalization is idempotent. *)
Lemma convert_addon_name_idemp s :
  convert_addon_name (convert_addon_name s) = convert_addon_name s.
Proof. rewrite !convert_addon_name_filter. apply filter_filter. Qed.

Lemma match_alnum_nonempty s : Addon.match_alnum s = true → s ≠ "".
Proof. by destruct s. Qed.

(** Without a capital followed by [a-z0-9] the scan finds nothing,
    whether it starts outside a match or right after a capital. *)
Lemma findall_no_run s :
  Str.has_capitalized_run s = false →
  Str.findall_from None s = []
  ∧ ∀ u, match s with
         | String d _ => Str.is_lower_or_digit d = false
         | EmptyString => True
         end → Str.findall_from (Some (u, [])) s = [].
Proof.
  induction s as [|c r IH]; [done|]. intros Hrun.
  assert (Str.has_capitalized_run r = false
          ∧ (Str.is_upper c = true →
             match r with String d _ => Str.is_lower_or_digit d = false
                        | EmptyString => True end)) as [Hr Hhead].
  { simpl in Hrun. destruct r as [|d r']; [done|].
    apply orb_false_iff in Hrun as [Hcd Hr']. split; [done|].
    intros Hc. rewrite Hc in Hcd. exact Hcd. }
  destruct (IH Hr) as [IHnone IHcap].
  assert (Str.findall_from (if Str.is_upper c then Some (c, []) else None) r = []) as Hnext.
  { destruct (Str.is_upper c) eqn:Hc; [apply IHcap, Hhead; reflexivity | exact IHnone]. }
  split.
  - simpl. exact Hnext.
  - intros u Hd. simpl. rewrite Hd. simpl. exact Hnext.
Qed.

Lemma findall_capitalized_no_run s :
  Str.has_capitalized_run s = false → Str.findall_capitalized s = [].
Proof. intros H. apply (findall_no_run s H). Qed.

End StringFacts.

(** ** The search terms *)

Section SearchTerms.
Context (E : Env).

Lemma http_request_log url params w :
  net_log (http_request E url params w).2 = net_log w ++ [Request url params].
Proof.
  unfold http_request. py_unfold. simpl.
  destruct (net E (net_log w) _); reflexivity.
Qed.

Lemma results_found_on_state page w :
  (AddonSearch._results_found_on page w).2 = w.
Proof. destruct page; reflexivity. Qed.

(** The loop sends nothing, or exactly one request, and that one for a
    term of the list that is not empty. *)
Lemma search_loop_one_request addon_name terms w :
  let w' := (AddonSearch.search_loop E addon_name terms w).2 in
  net_log w' = net_log w
  ∨ ∃ term, term ∈ terms ∧ term ≠ ""
      ∧ net_log w' = net_log w ++ [Request AddonSearch.BASE_CURSE_URL (Some term)].
Proof.
  induction terms as [|term rest IH]; simpl; [by left|].
  destruct (Str.nonempty term) eqn:Hterm.
  - right. exists term. split; [left|]. split; [by destruct term|].
    pose proof (http_request_log AddonSearch.BASE_CURSE_URL (Some term) w) as Hlog.
    unfold Py.bind.
    destruct (http_request E _ _ w) as [[page|e] w1]; simpl in *; [|done].
    pose proof (results_found_on_state page w1) as Hst.
    destruct (AddonSearch._results_found_on page w1) as [[[]|e] w2];
      simpl in *; subst w2; done.
  - destruct IH as [IH|(t & Ht & Hne & IH)]; [by left|].
    right. exists t. split; [by right|done].
Qed.

End SearchTerms.

(** C7 (as amended): the camel-case split of "SpaceStashCore" is
    "Space Stash Core"; the term with the last fragment dropped is
    "SpaceStash", the remaining fragments joined without a separator; a
    name in which no capital letter is followed by a lower-case letter or
    digit gives the empty string for both derived terms; and the search
    never sends a request for an empty term. *)
Theorem C7_derived_search_terms (E : Env) (name : string) (w : World)
    (Hname : Str.has_capitalized_run name = false) :
  AddonSearch._split_by_camel_case "SpaceStashCore" = "Space Stash Core"
  ∧ AddonSearch._remove_last_word "SpaceStashCore" = "SpaceStash"
  ∧ AddonSearch._split_by_camel_case name = ""
  ∧ AddonSearch._remove_last_word name = ""
  ∧ Request AddonSearch.BASE_CURSE_URL (Some "")
      ∉ sent_between w (AddonSearch._search_request E name w).2.
Proof.
  split; [reflexivity|]. split; [reflexivity|].
  unfold AddonSearch._split_by_camel_case, AddonSearch._remove_last_word.
  rewrite (findall_capitalized_no_run _ Hname). split; [reflexivity|].
  split; [reflexivity|].
  unfold AddonSearch._search_request, sent_between.
  destruct (search_loop_one_request E name (AddonSearch.search_terms E name) w)
    as [Hlog|(t & _ & Hne & Hlog)]; rewrite Hlog.
  - rewrite drop_all. apply not_elem_of_nil.
  - rewrite drop_app_length. intros Hin%list_elem_of_singleton. congruence.
Qed.

Lemma C7_derived_search_terms_witness :
  AddonSearch._split_by_camel_case "wildstar" = ""
  ∧ AddonSearch._remove_last_word "wildstar" = "".
Proof.
  pose proof (C7_derived_search_terms Scenario.env_bar "wildstar" Scenario.start eq_refl)
    as (_ & _ & Hsplit & Hlast & _).
  exact (conj Hsplit Hlast).
Defined.

(** The term with the last fragment dropped is not "Space Stash". *)
Lemma C7_drop_last_counterexample :
  ¬ (AddonSearch._remove_last_word "SpaceStashCore" = "Space Stash").
Proof. vm_compute. discriminate. Qed.

(** ** Constructing an [Addon] *)

Section AddonConstruction.
Context (E : Env).

(** The empty string, the integer zero and [None] are the arguments
    that count as missing. *)
Lemma falsy_empty_zero :
  Json.truthy (JStr "") = false ∧ Json.truthy (JInt 0) = false
  ∧ Json.truthy JNull = false.
Proof. done. Qed.

Lemma init_falsy name url epoch_date :
  Json.truthy name && Json.truthy url && Json.truthy epoch_date = false →
  Addon.__init__ E name url epoch_date = Raise ValueError.
Proof. intros H. unfold Addon.__init__. by rewrite H. Qed.

(** What a successful construction says about its arguments. *)
Lemma init_ok_inv name url epoch_date a :
  Addon.__init__ E name url epoch_date = Ok a →
  ∃ s d, name = JStr s ∧ Json.truthy url = true
         ∧ Json.truthy epoch_date = true
         ∧ Json.to_int epoch_date = Ok d
         ∧ Addon.match_alnum (convert_addon_name s) = true
         ∧ a = {| Addon._name := convert_addon_name s; Addon._url := url;
                  Addon._full_url := Addon.format2 E url Addon.ADDON_DL_SUFFIX;
                  Addon._epoch_date := d |}.
Proof.
  unfold Addon.__init__.
  destruct (Json.truthy name && Json.truthy url && Json.truthy epoch_date) eqn:Hall;
    simpl; [|done].
  apply andb_true_iff in Hall as [[Hn Hu]%andb_true_iff Hd].
  destruct name as [| | |s| |]; simpl; try done.
  destruct (Addon.match_alnum (convert_addon_name s)) eqn:Hm; simpl; [|done].
  destruct (Json.to_int epoch_date) as [d|e] eqn:Hint; [|done].
  intros [= <-]. by exists s, d.
Qed.

(** A normalized name that is not empty starts with a character of
    [a-zA-Z0-9]. *)
Lemma match_alnum_convert s :
  convert_addon_name s ≠ "" → Addon.match_alnum (convert_addon_name s) = true.
Proof.
  intros Hne. pose proof (forallb_filter Str.is_alnum s) as Hf.
  rewrite <- convert_addon_name_filter in Hf.
  destruct (convert_addon_name s); [done|].
  simpl in Hf. by apply andb_true_iff in Hf as [? _].
Qed.

(** The arguments with which the construction succeeds, and the record
    it builds. *)
Lemma init_ok s url epoch_date d :
  convert_addon_name s ≠ "" →
  Json.truthy url = true →
  Json.truthy epoch_date = true →
  Json.to_int epoch_date = Ok d →
  Addon.__init__ E (JStr s) url epoch_date
  = Ok {| Addon._name := convert_addon_name s; Addon._url := url;
          Addon._full_url := Addon.format2 E url Addon.ADDON_DL_SUFFIX;
          Addon._epoch_date := d |}.
Proof.
  intros Hname Hurl Hdate Hint. unfold Addon.__init__.
  assert (Json.truthy (JStr s) = true) as ->.
  { destruct s; [by destruct Hname|done]. }
  rewrite Hurl, Hdate. simpl.
  by rewrite (match_alnum_convert s Hname), Hint.
Qed.

(** What the guards of the constructor do reject, and what holds of the
    name of a record that is built: a missing name, url or timestamp (an
    empty string, the integer zero, [None]: the arguments whose truth
    value is false) and a name without an alphanumeric character end the
    construction; the name of a record is the input name without the
    characters outside [A-Za-z0-9], and is not empty. *)
Lemma addon_construction_guards (name url epoch_date : json) :
  (Json.truthy name = false ∨ Json.truthy url = false
     ∨ Json.truthy epoch_date = false →
   Addon.__init__ E name url epoch_date = Raise ValueError)
  ∧ (∀ s, name = JStr s →
       Str.forallb (λ c, negb (Str.is_alnum c)) s = true →
       convert_addon_name s = ""
       ∧ ∃ e, Addon.__init__ E name url epoch_date = Raise e)
  ∧ (∀ a, Addon.__init__ E name url epoch_date = Ok a →
       ∃ s, name = JStr s
            ∧ Addon.get_name a = Str.filter Str.is_alnum s
            ∧ Str.forallb Str.is_alnum (Addon.get_name a) = true
            ∧ Addon.get_name a ≠ "").
Proof.
  split; [|split].
  - intros H. apply init_falsy.
    destruct H as [H | [H | H]]; rewrite H, ?andb_false_r; done.
  - intros s -> Hs.
    assert (convert_addon_name s = "") as Hconv.
    { rewrite convert_addon_name_filter. by apply filter_none. }
    split; [done|].
    destruct (Addon.__init__ E (JStr s) url epoch_date) as [a|e] eqn:Hinit; [|by eexists].
    apply init_ok_inv in Hinit as (s' & d & [= <-] & _ & _ & _ & Hm & _).
    rewrite Hconv in Hm. done.
  - intros a (s & d & -> & _ & _ & _ & Hm & ->)%init_ok_inv.
    exists s. unfold Addon.get_name; simpl.
    split; [done|]. split; [apply convert_addon_name_filter|].
    split; [|by apply match_alnum_nonempty].
    rewrite convert_addon_name_filter. apply forallb_filter.
Qed.

End AddonConstruction.

(** C8 (failing input): a timestamp of zero that comes as a string, the
    way the scraper passes the [data-epoch] of a detail page, gets past
    the guard of the constructor.  The guard looks at the argument before
    [int] converts it, and a string that is not empty counts as present:
    for a name with an alphanumeric character, a url that is not empty
    and a timestamp string that is not empty and reads as zero, the
    constructor returns a record with the date zero.  The same
    constructor rejects the integer zero with ValueError, and [JsonAddon]
    rejects the JSON form of the record just built. *)
Theorem C8_zero_timestamp_string_accepted (E : Env) (name url epoch_date : string)
    (Hname : convert_addon_name name ≠ "")
    (Hurl : url ≠ "")
    (Hepoch : epoch_date ≠ "")
    (Hzero : Str.int_of epoch_date = Some 0) :
  ∃ a,
    Addon.__init__ E (JStr name) (JStr url) (JStr epoch_date) = Ok a
    ∧ Addon.get_name a = convert_addon_name name
    ∧ Addon.get_url a = JStr url
    ∧ Addon.get_date a = 0
    ∧ Addon.__init__ E (JStr name) (JStr url) (JInt 0) = Raise ValueError
    ∧ JsonAddon.__init__ E (Addon.to_json a) = Raise ValueError.
Proof.
  eexists. split.
  { apply (init_ok E name (JStr url) (JStr epoch_date) 0 Hname).
    - by destruct url.
    - by destruct epoch_date.
    - simpl. by rewrite Hzero. }
  split; [done|]. split; [done|]. split; [done|]. split.
  - apply init_falsy. simpl. by rewrite !andb_false_r.
  - unfold JsonAddon.__init__, Addon.to_json, Json.getitem. simpl.
    rewrite lookup_insert_eq.
    rewrite lookup_insert_ne, lookup_insert_eq by done.
    rewrite !lookup_insert_ne, lookup_insert_eq by done.
    apply init_falsy. simpl. by rewrite !andb_false_r.
Qed.

Lemma C8_zero_timestamp_string_accepted_witness :
  ∃ a,
    Addon.__init__ Scenario.env_bar (JStr "Foo") (JStr "http://x/foo") (JStr "0") = Ok a
    ∧ Addon.get_name a = "Foo"
    ∧ Addon.get_url a = JStr "http://x/foo"
    ∧ Addon.get_date a = 0
    ∧ Addon.__init__ Scenario.env_bar (JStr "Foo") (JStr "http://x/foo") (JInt 0)
        = Raise ValueError
    ∧ JsonAddon.__init__ Scenario.env_bar (Addon.to_json a) = Raise ValueError.
Proof.
  apply (C8_zero_timestamp_string_accepted Scenario.env_bar "Foo" "http://x/foo" "0").
  - vm_compute. discriminate.
  - discriminate.
  - discriminate.
  - vm_compute. reflexivity.
Defined.

(** The timestamp string "0" is what the search passes on when the
    detail page of an addon shows [data-epoch="0"]: [find] returns a
    record with the date zero. *)
Example zero_epoch_from_the_catalog :
  (AddonSearch.find Malformed.env_zero_epoch "Bar" Scenario.start).1
  = Ok (Some (Scenario.record "Bar" Scenario.bar_url 0)).
Proof. vm_compute. reflexivity. Qed.

(** ** The update decision *)

Ltac preserves_step :=
  lazymatch goal with
  | |- PreOrder _ => apply _
  | |- ∀ _, _ => intros ?
  | |- preserves _ (Py.ret _) => apply preserves_ret
  | |- preserves _ (Py.raise _) => apply preserves_raise
  | |- preserves _ (Py.lift _) => apply preserves_lift
  | |- preserves _ (Py.gets _) => apply preserves_gets
  | |- preserves _ (Py.bind _ _) => apply preserves_bind
  | |- preserves _ (Py.try_except _ _ _) => apply preserves_try_except
  end.

Section UpdateDecision.
Context (E : Env).

(** Looking a record up changes nothing. *)
Lemma get_addon_state name : preserves eq (Config.get_addon E name).
Proof. unfold Config.get_addon. repeat preserves_step. Qed.

Lemma float_lt_int_spec (a : Q) (b : Z) :
  Downloader.float_lt_int a b = true ↔ (a < inject_Z b)%Q.
Proof.
  unfold Downloader.float_lt_int. rewrite negb_true_iff.
  split.
  - intros H. apply Qnot_le_lt. intros Hle.
    apply Qle_bool_iff in Hle. congruence.
  - intros H. destruct (Qle_bool (inject_Z b) a) eqn:Hle; [|done].
    apply Qle_bool_iff in Hle. by apply Qlt_not_le in H.
Qed.

(** The decision, once the three inputs are known. *)
Lemma update_required_eval (self : Downloader.t) find addon_name w w'
    stored remote created :
  Downloader._search self = Some find →
  (Config.get_addon E addon_name w).1 = Ok stored →
  find addon_name w = (Ok (Some remote), w') →
  st_ctime E (Downloader._addon_directory self) addon_name = Some created →
  Downloader._update_required E self addon_name w =
    (Ok (match stored with
         | None => true
         | Some s =>
             if Addon.get_date s =? Addon.get_date remote then true
             else Downloader.float_lt_int created (Addon.get_date remote)
         end), w').
Proof.
  intros Hsearch Hstored Hremote Hcreated.
  unfold Downloader._update_required, Py.bind at 1.
  pose proof (get_addon_state addon_name w) as Hstate.
  destruct (Config.get_addon E addon_name w) as [r w0]; simpl in *; subst.
  unfold Downloader.get_search. rewrite Hsearch.
  unfold Py.bind at 1. simpl.
  unfold Py.bind at 1. rewrite Hremote.
  destruct stored as [s|]; simpl; [|done].
  unfold Py.bind at 1. simpl.
  destruct (Addon.get_date s =? Addon.get_date remote); [done|].
  unfold Downloader._directory_creation_date. rewrite Hcreated.
  unfold Py.bind. simpl.
  by destruct (Downloader.float_lt_int created (Addon.get_date remote)).
Qed.

End UpdateDecision.

(** C1: given the stored record (possibly absent), the resolved remote
    entry and the creation time of the local directory, [_update_required]
    answers true when there is no stored record; otherwise true when the
    stored and the remote release timestamps are equal; otherwise true
    when the directory was created strictly before the remote release;
    and false in every remaining case. *)
Theorem C1_update_required (E : Env) (self : Downloader.t)
    (find : string → W (option Addon.t)) (addon_name : string)
    (w w' : World) (stored : option Addon.t) (remote : Addon.t) (created : Q)
    (Hsearch : Downloader._search self = Some find)
    (Hstored : (Config.get_addon E addon_name w).1 = Ok stored)
    (Hremote : find addon_name w = (Ok (Some remote), w'))
    (Hcreated : st_ctime E (Downloader._addon_directory self) addon_name = Some created) :
  ∃ answer,
    Downloader._update_required E self addon_name w = (Ok answer, w')
    ∧ (stored = None → answer = true)
    ∧ (∀ s, stored = Some s →
         Addon.get_date s = Addon.get_date remote → answer = true)
    ∧ (∀ s, stored = Some s →
         Addon.get_date s ≠ Addon.get_date remote →
         (created < inject_Z (Addon.get_date remote))%Q → answer = true)
    ∧ (∀ s, stored = Some s →
         Addon.get_date s ≠ Addon.get_date remote →
         ¬ (created < inject_Z (Addon.get_date remote))%Q → answer = false).
Proof.
  eexists. split.
  { exact (update_required_eval E self find addon_name w w' stored remote created
             Hsearch Hstored Hremote Hcreated). }
  split; [by intros ->|]. split; [|split].
  - intros s -> Heq. apply Z.eqb_eq in Heq. by rewrite Heq.
  - intros s -> Hne Hlt. apply Z.eqb_neq in Hne. rewrite Hne.
    by apply float_lt_int_spec.
  - intros s -> Hne Hlt. apply Z.eqb_neq in Hne. rewrite Hne.
    destruct (Downloader.float_lt_int created (Addon.get_date remote)) eqn:Hf; [|done].
    by apply float_lt_int_spec in Hf.
Qed.

Lemma C1_update_required_witness :
  ∃ answer,
    Downloader._update_required Scenario.env_bar
      (Scenario.downloader_with_search Scenario.env_bar) "Bar" Scenario.bar_recorded
    = (Ok answer, (AddonSearch.find Scenario.env_bar "Bar" Scenario.bar_recorded).2)
    ∧ answer = false.
Proof.
  destruct (C1_update_required Scenario.env_bar
              (Scenario.downloader_with_search Scenario.env_bar)
              (AddonSearch.find Scenario.env_bar) "Bar" Scenario.bar_recorded
              (AddonSearch.find Scenario.env_bar "Bar" Scenario.bar_recorded).2
              (Some (Scenario.record "Bar" Scenario.bar_url 200))
              (Scenario.record "Bar" Scenario.bar_url 100) 150)
    as (answer & Hrun & _ & _ & _ & Hfalse).
  - reflexivity.
  - vm_compute. reflexivity.
  - vm_compute. reflexivity.
  - reflexivity.
  - exists answer. split; [exact Hrun|].
    apply (Hfalse _ eq_refl); [discriminate|].
    vm_compute. discriminate.
Defined.

(** ** The negative cache *)

#[local] Instance neg_le_preorder : PreOrder neg_le.
Proof. split; [by intros w name | intros w1 w2 w3 H12 H23 name H; auto]. Qed.

Lemma neg_le_same_search w w' : search w' = search w → neg_le w w'.
Proof. intros Heq name. unfold neg_cached. by rewrite Heq. Qed.

Ltac frame_step :=
  lazymatch goal with
  | |- preserves _ (Py.modify _) =>
      apply preserves_modify; intros ?; try (by apply neg_le_same_search)
  | |- preserves _ (match ?x with _ => _ end) => destruct x
  | |- _ => preserves_step
  end.

Section NegativeCache.
Context (E : Env).

Lemma no_results_found_with_neg name :
  preserves neg_le (AddonSearch._no_results_found_with name).
Proof.
  apply preserves_modify. intros w other. unfold neg_cached. simpl.
  destruct (decide (name = other)) as [->|Hne].
  - by rewrite lookup_insert_eq.
  - by rewrite lookup_insert_ne.
Qed.

Lemma remember_neg name a : preserves neg_le (AddonSearch.remember name a).
Proof. apply preserves_modify. intros w other. done. Qed.

Lemma http_request_neg url params : preserves neg_le (http_request E url params).
Proof. unfold http_request, print, log. repeat frame_step. Qed.

Lemma results_found_on_neg page : preserves neg_le (AddonSearch._results_found_on page).
Proof. unfold AddonSearch._results_found_on. repeat frame_step. Qed.

Lemma find_addon_info_on_neg page :
  preserves neg_le (AddonSearch._find_addon_info_on E page).
Proof.
  unfold AddonSearch._find_addon_info_on, AddonSearch._find_addon_date,
    AddonSearch._make_full_url_from.
  repeat first [apply http_request_neg | frame_step].
Qed.

Lemma search_request_neg name : preserves neg_le (AddonSearch._search_request E name).
Proof.
  unfold AddonSearch._search_request.
  induction (AddonSearch.search_terms E name) as [|term rest IH]; simpl.
  - repeat frame_step.
  - destruct (Str.nonempty term); [|exact IH].
    repeat first [apply http_request_neg | apply results_found_on_neg
                 | apply no_results_found_with_neg | frame_step].
Qed.

Lemma not_found_neg name : preserves neg_le (AddonSearch.not_found name).
Proof.
  unfold AddonSearch.not_found.
  repeat first [apply no_results_found_with_neg | frame_step].
Qed.

Lemma search_online_neg name : preserves neg_le (AddonSearch._search_online E name).
Proof.
  unfold AddonSearch._search_online.
  repeat first [apply search_request_neg | apply find_addon_info_on_neg
               | apply not_found_neg | apply remember_neg | frame_step].
Qed.

(** A call of [find] only adds to the negative cache. *)
Lemma find_neg name : preserves neg_le (AddonSearch.find E name).
Proof.
  unfold AddonSearch.find.
  repeat first [apply search_online_neg | frame_step].
Qed.

Lemma later_on_neg w1 w2 : later_on E w1 w2 → neg_le w1 w2.
Proof.
  induction 1 as [w|w1 w2 other _ IH|w1 w2 w3 _ IH Heq].
  - reflexivity.
  - etransitivity; [exact IH | apply find_neg].
  - etransitivity; [exact IH | by apply neg_le_same_search].
Qed.

(** A name of the negative cache is answered on the spot. *)
Lemma find_neg_cached name w :
  neg_cached w name → AddonSearch.find E name w = (Ok None, w).
Proof. intros H. unfold AddonSearch.find, Py.bind, Py.gets. by rewrite H. Qed.

Lemma not_found_cached name w r w' :
  AddonSearch.not_found name w = (r, w') → neg_cached w' name.
Proof.
  unfold AddonSearch.not_found, AddonSearch._no_results_found_with.
  py_unfold. simpl. intros [= _ <-]. unfold neg_cached. simpl.
  apply lookup_insert_eq.
Qed.

(** The only way for the online search to answer [None] is [not_found]. *)
Lemma search_online_none name w w' :
  AddonSearch._search_online E name w = (Ok None, w') → neg_cached w' name.
Proof.
  unfold AddonSearch._search_online, Py.bind at 1.
  destruct (AddonSearch._search_request E name w) as [[[p|]|e] w0];
    [|apply not_found_cached|done].
  unfold Py.bind at 1.
  destruct (AddonSearch._find_addon_info_on E p w0) as [[[[[n|] [u|]] [d|]]|e] w1];
    try apply not_found_cached; [|done].
  destruct (Str.nonempty n && Str.nonempty u && Str.nonempty d);
    [|apply not_found_cached].
  unfold Py.bind at 1, Py.lift.
  destruct (Addon.__init__ E (JStr n) (JStr u) (JStr d)); [|done].
  py_unfold. simpl. done.
Qed.

Lemma find_none_cached name w w' :
  AddonSearch.find E name w = (Ok None, w') → neg_cached w' name.
Proof.
  unfold AddonSearch.find, Py.bind at 1, Py.gets at 1.
  destruct (Obj._no_results_found (search w) !! name) as [[|]|] eqn:Hneg.
  - by intros [= <-].
  - unfold Py.bind, Py.gets.
    destruct (Obj._retrieved_addons (search w) !! name); [done|].
    apply search_online_none.
  - unfold Py.bind, Py.gets.
    destruct (Obj._retrieved_addons (search w) !! name); [done|].
    apply search_online_none.
Qed.

End NegativeCache.

(** C5: [find] of a name that is in the negative cache answers [None] at
    once, the state untouched, so no request is sent; and once [find] of a
    name has answered [None], every later [find] of that name on the same
    search object answers [None] without sending a request. *)
Theorem C5_negative_cache (E : Env) (name : string) (w : World) :
  (neg_cached w name →
     AddonSearch.find E name w = (Ok None, w)
     ∧ sent_between w (AddonSearch.find E name w).2 = [])
  ∧ (∀ w1 w2,
       AddonSearch.find E name w = (Ok None, w1) →
       later_on E w1 w2 →
       AddonSearch.find E name w2 = (Ok None, w2)
       ∧ sent_between w2 (AddonSearch.find E name w2).2 = []).
Proof.
  assert (∀ v, neg_cached v name →
            AddonSearch.find E name v = (Ok None, v)
            ∧ sent_between v (AddonSearch.find E name v).2 = []) as Hhit.
  { intros v Hv. rewrite (find_neg_cached E name v Hv). split; [done|].
    unfold sent_between. simpl. apply drop_all. }
  split; [apply Hhit|].
  intros w1 w2 Hfind Hlater. apply Hhit.
  apply (later_on_neg E w1 w2 Hlater), (find_none_cached E name w w1 Hfind).
Qed.

Lemma C5_negative_cache_witness :
  let w1 := (AddonSearch.find Scenario.env_bar "Foo" Scenario.start).2 in
  let w2 := (AddonSearch.find Scenario.env_bar "Bar" w1).2 in
  AddonSearch.find Scenario.env_bar "Foo" w2 = (Ok None, w2)
  ∧ sent_between w2 (AddonSearch.find Scenario.env_bar "Foo" w2).2 = [].
Proof.
  intros w1 w2.
  apply (proj2 (C5_negative_cache Scenario.env_bar "Foo" Scenario.start) w1 w2).
  - vm_compute. reflexivity.
  - apply later_find, later_now.
Defined.

(** ** The configuration *)

Section ConfigFacts.

Lemma write_file_twice name body body' d :
  write_file name body (write_file name body' d) = write_file name body d.
Proof. unfold write_file. simpl. by rewrite insert_insert_eq. Qed.

(** The ways of [encode].  The file cannot be opened: nothing is
    changed. *)
Lemma encode_refused (w : World) e :
  open_error (disk w) (Obj._config_file (config w)) Writing = Some e →
  Config.encode w = (Raise e, w).
Proof.
  intros He. unfold Config.encode, Config.open_file. py_unfold. simpl.
  by rewrite He.
Qed.

(** The file is opened and the object holds a dictionary: the file
    holds its text. *)
Lemma encode_eval (w : World) m :
  open_error (disk w) (Obj._config_file (config w)) Writing = None →
  Obj._config_dict (config w) = JDict m →
  Config.encode w
  = (Ok tt, upd_disk (write_file (Obj._config_file (config w)) (JsonText (JDict m))) w).
Proof.
  intros He Hd. unfold Config.encode, Config.open_file. py_unfold. simpl.
  rewrite He. simpl. rewrite Hd. simpl.
  unfold upd_disk. simpl. by rewrite write_file_twice.
Qed.

(** The file is opened and the object holds something else: the file is
    left empty. *)
Lemma encode_not_dict (w : World) :
  open_error (disk w) (Obj._config_file (config w)) Writing = None →
  (∀ m, Obj._config_dict (config w) ≠ JDict m) →
  Config.encode w
  = (Raise AssertionError,
     upd_disk (write_file (Obj._config_file (config w)) (OtherText "")) w).
Proof.
  intros He Hd. unfold Config.encode, Config.open_file. py_unfold. simpl.
  rewrite He. simpl.
  destruct (Obj._config_dict (config w)) as [| | | | |m]; try done.
  by destruct (Hd m).
Qed.

(** [encode] changes the files and nothing else. *)
Lemma encode_frame (w : World) :
  let w' := (Config.encode w).2 in
  config w' = config w ∧ queue w' = queue w ∧ search w' = search w
  ∧ net_log w' = net_log w.
Proof.
  unfold Config.encode, Config.open_file. py_unfold. simpl.
  destruct (open_error (disk w) (Obj._config_file (config w)) Writing); [done|].
  simpl. by destruct (Obj._config_dict (config w)).
Qed.

(** What [update_directory] does with a directory that is not empty:
    it raises and leaves everything as it was, or it sets [PATH] in the
    [config] section and goes on to write the file. *)
Lemma update_directory_cases (directory : string) (w : World) :
  directory ≠ "" →
  (∃ e, Config.update_directory directory w = (Raise e, w))
  ∨ (∃ m c,
       Obj._config_dict (config w) = JDict m
       ∧ m !! "config" = Some (JDict c)
       ∧ Config.update_directory directory w =
           Config.encode
             (upd_config
                (Config.set_dict
                   (JDict (<["config" := JDict (<["PATH" := JStr directory]> c)]> m)))
                w)).
Proof.
  intros Hdir. unfold Config.update_directory.
  destruct directory as [|ch rest]; [done|]. simpl.
  py_unfold. simpl.
  destruct (Obj._config_dict (config w)) as [| | | | |m] eqn:Hd; simpl;
    try (left; by eexists).
  destruct (m !! "config") as [[| | | | |c]|] eqn:Hc; simpl;
    try (left; by eexists).
  right. by exists m, c.
Qed.

(** When [update_directory] returns for a directory that is not empty,
    it has set [PATH] and written the file. *)
Lemma update_directory_ok (directory : string) (w : World) :
  directory ≠ "" →
  (Config.update_directory directory w).1 = Ok tt →
  ∃ m c,
    Obj._config_dict (config w) = JDict m
    ∧ m !! "config" = Some (JDict c)
    ∧ Config.update_directory directory w =
        (Ok tt,
         upd_disk
           (write_file (Obj._config_file (config w))
              (JsonText (JDict (<["config" := JDict (<["PATH" := JStr directory]> c)]> m))))
           (upd_config
              (Config.set_dict
                 (JDict (<["config" := JDict (<["PATH" := JStr directory]> c)]> m)))
              w)).
Proof.
  intros Hdir Hok.
  destruct (update_directory_cases directory w Hdir)
    as [[e He]|(m & c & Hd & Hc & Hrun)].
  { by rewrite He in Hok. }
  exists m, c. split; [done|]. split; [done|].
  rewrite Hrun in *. set (w1 := upd_config _ w) in *.
  destruct (open_error (disk w1) (Obj._config_file (config w1)) Writing) as [e|] eqn:He.
  - by rewrite (encode_refused w1 e He) in Hok.
  - by rewrite (encode_eval w1 _ He eq_refl).
Qed.

End ConfigFacts.

(** C10: [update_directory] with the empty string changes nothing at all,
    in memory or on disk; with another string it leaves every item of the
    stored dictionary other than [config][PATH] as it was, the [addons]
    mapping in particular, as well as the queues, the caches and the
    requests sent, and when it returns [config][PATH] is the new
    directory. *)
Theorem C10_update_directory_frame (w : World) (directory : string) :
  Config.update_directory "" w = (Ok tt, w)
  ∧ (directory ≠ "" →
     let w' := (Config.update_directory directory w).2 in
     (∀ section, section ≠ "config" →
        Json.getitem (Obj._config_dict (config w')) section
        = Json.getitem (Obj._config_dict (config w)) section)
     ∧ (∀ section key, (section, key) ≠ ("config", "PATH") →
          config_item w' section key = config_item w section key)
     ∧ ((Config.update_directory directory w).1 = Ok tt →
          config_item w' "config" "PATH" = Ok (JStr directory))
     ∧ queue w' = queue w ∧ search w' = search w ∧ net_log w' = net_log w).
Proof.
  split; [reflexivity|].
  intros Hdir.
  destruct (update_directory_cases directory w Hdir)
    as [[e He]|(m & c & Hd & Hc & Hrun)].
  - rewrite He. simpl. repeat split; done.
  - rewrite Hrun.
    set (w1 := upd_config _ w).
    destruct (encode_frame w1) as (Hconfig & Hqueue & Hsearch & Hlog).
    unfold config_item. rewrite Hconfig, Hqueue, Hsearch, Hlog.
    unfold w1. simpl. rewrite Hd. simpl.
    split; [|split; [|split]].
    + intros section Hne. by rewrite lookup_insert_ne.
    + intros section key Hne.
      destruct (decide (section = "config")) as [->|Hsec].
      * rewrite lookup_insert_eq, Hc. simpl.
        rewrite lookup_insert_ne; [done|]. congruence.
      * by rewrite lookup_insert_ne.
    + intros _. rewrite lookup_insert_eq. simpl. by rewrite lookup_insert_eq.
    + done.
Qed.

Lemma C10_update_directory_frame_witness :
  let w' := (Config.update_directory "C:/Wildstar/Addons" Scenario.bar_recorded).2 in
  config_item w' "addons" "Bar" = config_item Scenario.bar_recorded "addons" "Bar"
  ∧ config_item w' "config" "PATH" = Ok (JStr "C:/Wildstar/Addons").
Proof.
  intros w'.
  destruct (proj2 (C10_update_directory_frame Scenario.bar_recorded "C:/Wildstar/Addons"))
    as (_ & Hitems & Hpath & _).
  - discriminate.
  - split.
    + apply Hitems. discriminate.
    + apply Hpath. vm_compute. reflexivity.
Defined.

(** ** Persisting and reloading the store *)

Section RoundTrip.
Context (E : Env).

(** A record with a timestamp other than zero is rebuilt from its JSON
    form. *)
Lemma json_addon_to_json name url epoch_date a :
  Addon.__init__ E name url epoch_date = Ok a →
  Addon.get_date a ≠ 0 →
  JsonAddon.__init__ E (Addon.to_json a) = Ok a.
Proof.
  intros (s & d & -> & Hurl & _ & _ & Hm & ->)%init_ok_inv Hdate.
  unfold Addon.get_date in Hdate. simpl in Hdate.
  unfold JsonAddon.__init__, Addon.to_json, Json.getitem. simpl.
  rewrite lookup_insert_eq.
  rewrite lookup_insert_ne, lookup_insert_eq by done.
  rewrite !lookup_insert_ne, lookup_insert_eq by done.
  unfold Addon.__init__. simpl.
  assert (Str.nonempty (convert_addon_name s) = true) as ->.
  { by destruct (convert_addon_name s). }
  rewrite Hurl. apply Z.eqb_neq in Hdate. rewrite Hdate. simpl.
  rewrite convert_addon_name_idemp, Hm. done.
Qed.

Lemma build_addons_filed (items : list (string * json)) :
  (∀ key value, (key, value) ∈ items → filed_record E key value) →
  ∃ loaded,
    Config.build_addons E items = Ok loaded
    ∧ Addon.to_json <$> loaded = list_to_map items
    ∧ ∀ key a, loaded !! key = Some a → key = Addon.get_name a.
Proof.
  induction items as [|[key value] rest IH]; intros Hfiled.
  - exists ∅. split; [done|]. split; [by rewrite fmap_empty|].
    intros key a. by rewrite lookup_empty.
  - destruct IH as (loaded & Hbuild & Hjson & Hkeys).
    { intros k v Hin. apply Hfiled. by right. }
    destruct (Hfiled key value) as (name & url & epoch & a & Hinit & Hdate & -> & ->);
      [by left|].
    exists (<[Addon.get_name a := a]> loaded). cbn [Config.build_addons].
    rewrite (json_addon_to_json _ _ _ _ Hinit Hdate), Hbuild.
    split; [done|]. split.
    + by rewrite fmap_insert, Hjson.
    + intros k b. destruct (decide (Addon.get_name a = k)) as [<-|Hne].
      * rewrite lookup_insert_eq. by intros [= <-].
      * rewrite lookup_insert_ne by done. apply Hkeys.
Qed.

(** [get_addons] reads the [addons] mapping of the stored dictionary
    and nothing else. *)
Lemma get_addons_eval (w : World) (m addons : gmap string json) loaded :
  Obj._config_dict (config w) = JDict m →
  m !! "addons" = Some (JDict addons) →
  Config.build_addons E (map_to_list addons) = Ok loaded →
  Config.get_addons E w = (Ok loaded, w).
Proof.
  intros Hd Ha Hbuild. unfold Config.get_addons. py_unfold. simpl.
  rewrite Hd. simpl. rewrite Ha. simpl. by rewrite Hbuild.
Qed.

(** Writing the file and loading it again gives the object the
    dictionary it had. *)
Lemma persist_and_reload_config (w : World) m :
  (∀ mode, config_file_opens w mode) →
  Obj._config_dict (config w) = JDict m →
  ∃ w', persist_and_reload w = (Ok tt, w') ∧ config w' = config w.
Proof.
  intros Hopen Hd. unfold persist_and_reload, Py.bind at 1.
  rewrite (encode_eval w m (Hopen Writing) Hd).
  unfold Config.__init__, Config.decode, Config.read_config_file, Config.open_file,
    Py.try_except.
  py_unfold. simpl. rewrite (Hopen Reading). simpl.
  rewrite lookup_insert_eq. simpl.
  eexists. split; [reflexivity|]. simpl.
  rewrite <- Hd. by destruct (config w).
Qed.

Lemma filed_key_normalized key value :
  filed_record E key value → convert_addon_name key = key.
Proof.
  intros (name & url & epoch & a & Hinit & _ & -> & _).
  apply init_ok_inv in Hinit as (s & d & _ & _ & _ & _ & _ & ->).
  apply convert_addon_name_idemp.
Qed.

End RoundTrip.

(** C9: for a store whose [addons] mapping holds validly constructed
    records (each built by the constructor, with a timestamp other than
    zero as the invariant of a record demands, and filed under its name)
    and whose file can be opened for writing and for reading, writing the
    store to its file and
    loading the file again succeeds and gives back the same dictionary,
    and [get_addons] reads from it the records it read before: their JSON
    forms (name, url, date) are exactly the stored ones, and every name
    is its own normalization. *)
Theorem C9_store_round_trip (E : Env) (w : World) (m addons : gmap string json)
    (Hopens : ∀ mode, config_file_opens w mode)
    (Hdict : Obj._config_dict (config w) = JDict m)
    (Haddons : m !! "addons" = Some (JDict addons))
    (Hfiled : ∀ key value, addons !! key = Some value → filed_record E key value) :
  ∃ w' loaded,
    persist_and_reload w = (Ok tt, w')
    ∧ Obj._config_dict (config w') = Obj._config_dict (config w)
    ∧ Config.get_addons E w = (Ok loaded, w)
    ∧ Config.get_addons E w' = (Ok loaded, w')
    ∧ Addon.to_json <$> loaded = addons
    ∧ ∀ key a, loaded !! key = Some a →
        key = Addon.get_name a ∧ convert_addon_name key = key.
Proof.
  destruct (persist_and_reload_config w m Hopens Hdict) as (w' & Hrun & Hconfig).
  destruct (build_addons_filed E (map_to_list addons)) as (loaded & Hbuild & Hjson & Hkeys).
  { intros k v Hin. apply Hfiled. by apply elem_of_map_to_list. }
  rewrite list_to_map_to_list in Hjson.
  exists w', loaded. rewrite Hconfig.
  split; [done|]. split; [done|].
  split; [by apply (get_addons_eval E w m addons)|].
  split; [apply (get_addons_eval E w' m addons); by rewrite ?Hconfig|].
  split; [done|].
  intros key a Hin. split; [by apply Hkeys|].
  assert (addons !! key = Some (Addon.to_json a)) as Hstored.
  { rewrite <- Hjson, lookup_fmap. by rewrite Hin. }
  by apply (filed_key_normalized E key _ (Hfiled _ _ Hstored)).
Qed.

Lemma C9_store_round_trip_witness :
  ∃ w' loaded,
    persist_and_reload Scenario.bar_recorded = (Ok tt, w')
    ∧ Obj._config_dict (config w') = Obj._config_dict (config Scenario.bar_recorded)
    ∧ Config.get_addons Scenario.env_bar Scenario.bar_recorded
        = (Ok loaded, Scenario.bar_recorded)
    ∧ Config.get_addons Scenario.env_bar w' = (Ok loaded, w')
    ∧ Addon.to_json <$> loaded
        = {[ "Bar" := Addon.to_json (Scenario.record "Bar" Scenario.bar_url 200) ]}
    ∧ ∀ key a, loaded !! key = Some a →
        key = Addon.get_name a ∧ convert_addon_name key = key.
Proof.
  apply (C9_store_round_trip Scenario.env_bar Scenario.bar_recorded
           (<["addons" := JDict {[ "Bar" := Addon.to_json
                                     (Scenario.record "Bar" Scenario.bar_url 200) ]}]>
              (<["config" := JDict ∅]> ∅))).
  - intros mode. reflexivity.
  - vm_compute. reflexivity.
  - vm_compute. reflexivity.
  - intros key value [<- <-]%lookup_singleton_Some.
    exists (JStr "Bar"), (JStr Scenario.bar_url), (JInt 200),
      (Scenario.record "Bar" Scenario.bar_url 200).
    split; [vm_compute; reflexivity|]. split; [discriminate|]. split; reflexivity.
Defined.

(** What follows from a record with the date zero (see C8): once it is
    stored and the store written and loaded again, [get_addons] raises
    ValueError instead of returning the mapping. *)
Example zero_timestamp_record_is_not_reloaded :
  ∃ a w',
    Addon.__init__ Scenario.env_bar (JStr "Foo") (JStr "http://x/foo") (JStr "0") = Ok a
    ∧ Addon.get_date a = 0
    ∧ persist_and_reload (Config.update_addon a Scenario.start).2 = (Ok tt, w')
    ∧ (Config.get_addons Scenario.env_bar w').1 = Raise ValueError.
Proof.
  eexists. eexists.
  split; [vm_compute; reflexivity|].
  split; [reflexivity|].
  split; vm_compute; reflexivity.
Qed.

(** ** The positive cache *)

Section PositiveCache.
Context (E : Env).

(** A name under which an entry is cached, and which is not in the
    negative cache, is answered from the cache. *)
Lemma find_cached name a w :
  ¬ neg_cached w name →
  Obj._retrieved_addons (search w) !! name = Some a →
  AddonSearch.find E name w = (Ok (Some a), w).
Proof.
  intros Hneg Hpos. unfold AddonSearch.find. py_unfold.
  unfold neg_cached in Hneg.
  destruct (Obj._no_results_found (search w) !! name) as [[|]|];
    [done| |]; by rewrite Hpos.
Qed.

(** An entry that the online search returns has been cached under its
    own name, the normalized name of the catalog row. *)
Lemma search_online_cached name a w w' :
  AddonSearch._search_online E name w = (Ok (Some a), w') →
  Obj._retrieved_addons (search w') !! Addon.get_name a = Some a.
Proof.
  unfold AddonSearch._search_online, Py.bind at 1.
  destruct (AddonSearch._search_request E name w) as [[[p|]|e] w0]; [|done|done].
  unfold Py.bind at 1, AddonSearch._find_addon_info_on.
  destruct (first_link p) as [[text href]|]; [|done].
  unfold Py.bind at 1.
  destruct (AddonSearch._make_full_url_from E href w0) as [[url|e] w1]; [|done].
  unfold Py.bind at 1.
  destruct (AddonSearch._find_addon_date E url w1) as [[[d|]|e] w2]; [|done|done].
  unfold Py.ret at 1.
  destruct (Str.nonempty (convert_addon_name text) && Str.nonempty url && Str.nonempty d);
    [|done].
  unfold Py.bind at 1, Py.lift.
  destruct (Addon.__init__ E (JStr (convert_addon_name text)) (JStr url) (JStr d))
    as [b|e] eqn:Hinit; [|done].
  unfold AddonSearch.remember. py_unfold. simpl. intros [= <- <-]. simpl.
  apply init_ok_inv in Hinit as (s' & z & [= <-] & _ & _ & _ & _ & ->).
  unfold Addon.get_name. simpl.
  rewrite convert_addon_name_idemp. apply lookup_insert_eq.
Qed.

End PositiveCache.

(** C6 (failing input): [find] of "SpaceStashCore" resolves to the
    catalog entry "Space Stash"; the entry is cached under "SpaceStash",
    not under "SpaceStashCore", and a second [find] of "SpaceStashCore"
    sends the search request and the detail request again. *)
Theorem C6_cache_keyed_by_catalog_name :
  let first := AddonSearch.find Scenario.env_space_stash "SpaceStashCore" Scenario.start in
  let second := AddonSearch.find Scenario.env_space_stash "SpaceStashCore" first.2 in
  let entry := Scenario.record "SpaceStash" Scenario.space_stash_url 1407542400 in
  first.1 = Ok (Some entry)
  ∧ Obj._retrieved_addons (search first.2) !! "SpaceStashCore" = None
  ∧ Obj._retrieved_addons (search first.2) !! "SpaceStash" = Some entry
  ∧ sent_between first.2 second.2 =
      [ Request AddonSearch.BASE_CURSE_URL (Some "SpaceStashCore");
        Request Scenario.space_stash_url None ].
Proof. vm_compute. repeat split; reflexivity. Qed.

(** ** The search worker *)

Section Commutes.
Context (g : World → World).

Lemma commutes_ret {A} (a : A) : commutes g (Py.ret a).
Proof. done. Qed.

Lemma commutes_raise {A} e : commutes g (@Py.raise World A e).
Proof. done. Qed.

Lemma commutes_lift {A} (r : result A) : commutes g (Py.lift r).
Proof. done. Qed.

Lemma commutes_gets {A} (f : World → A) :
  (∀ w, f (g w) = f w) → commutes g (Py.gets f).
Proof. intros Hf w. unfold Py.gets. simpl. by rewrite Hf. Qed.

Lemma commutes_modify (h : World → World) :
  (∀ w, h (g w) = g (h w)) → commutes g (Py.modify h).
Proof. intros Hh w. unfold Py.modify. simpl. by rewrite Hh. Qed.

Lemma commutes_bind {A B} (m : W A) (k : A → W B) :
  commutes g m → (∀ a, commutes g (k a)) → commutes g (Py.bind m k).
Proof.
  intros Hm Hk w. unfold Py.bind. rewrite Hm.
  destruct (m w) as [[a|e] w1]; simpl; [apply Hk|done].
Qed.

Lemma commutes_try_except {A} (body : W A) names (handler : exn → W A) :
  commutes g body → (∀ e, commutes g (handler e)) →
  commutes g (Py.try_except body names handler).
Proof.
  intros Hb Hh w. unfold Py.try_except. rewrite Hb.
  destruct (body w) as [[a|e] w1]; simpl; [done|].
  destruct (Py.resolve_all names); [|done].
  case_bool_decide; [apply Hh|done].
Qed.

End Commutes.

Ltac commutes_step :=
  lazymatch goal with
  | |- ∀ _, _ => intros ?
  | |- commutes _ (Py.ret _) => apply commutes_ret
  | |- commutes _ (Py.raise _) => apply commutes_raise
  | |- commutes _ (Py.lift _) => apply commutes_lift
  | |- commutes _ (Py.gets _) => apply commutes_gets; intros ?; reflexivity
  | |- commutes _ (Py.modify _) => apply commutes_modify; intros ?; reflexivity
  | |- commutes _ (Py.bind _ _) => apply commutes_bind
  | |- commutes _ (Py.try_except _ _ _) => apply commutes_try_except
  | |- commutes _ (match ?x with _ => _ end) => destruct x
  end.

Section SearchIgnoresStore.
Context (E : Env) (f : Obj.Config → Obj.Config).

Lemma http_request_config url params : commutes (upd_config f) (http_request E url params).
Proof. unfold http_request, print, log. repeat commutes_step. Qed.

Lemma search_request_config name :
  commutes (upd_config f) (AddonSearch._search_request E name).
Proof.
  unfold AddonSearch._search_request.
  induction (AddonSearch.search_terms E name) as [|term rest IH]; simpl.
  - repeat commutes_step.
  - destruct (Str.nonempty term); [|exact IH].
    unfold AddonSearch._results_found_on, AddonSearch._no_results_found_with.
    repeat first [apply http_request_config | commutes_step].
Qed.

Lemma find_config name : commutes (upd_config f) (AddonSearch.find E name).
Proof.
  unfold AddonSearch.find, AddonSearch._search_online, AddonSearch.not_found,
    AddonSearch._find_addon_info_on, AddonSearch._find_addon_date,
    AddonSearch._make_full_url_from, AddonSearch._no_results_found_with,
    AddonSearch.remember.
  repeat first [apply http_request_config | apply search_request_config | commutes_step].
Qed.

(** The search worker neither reads nor writes the stored records: its
    outcome and what it puts on the queues are the same whatever the
    config object holds. *)
Lemma run_config names : commutes (upd_config f) (AddonSearch.run E names).
Proof.
  unfold AddonSearch.run.
  apply commutes_bind; [repeat commutes_step|]. intros _.
  induction names as [|name rest IH]; simpl; [repeat commutes_step|].
  repeat first [apply find_config | exact IH | commutes_step].
Qed.

End SearchIgnoresStore.

(** C2 (failing input): the run of the search worker is the same
    whatever the config object holds, so no stored record has a say in
    what it puts on the task queue.  Bar is recorded with the date 200,
    released at 100 on the catalog, and its directory was created at 150,
    so [_update_required] answers false, before the run and after it; the
    run over ["Bar"] puts a task for Bar on the queue all the same. *)
Theorem C2_task_without_update_decision :
  (∀ E names f w,
     AddonSearch.run E names (upd_config f w)
     = ((AddonSearch.run E names w).1, upd_config f (AddonSearch.run E names w).2))
  ∧ (let E := Scenario.env_bar in
     let w := (AddonSearch.run E ["Bar"] Scenario.bar_recorded).2 in
     (Downloader._update_required E (Scenario.downloader_with_search E) "Bar"
        Scenario.bar_recorded).1 = Ok false
     ∧ (Downloader._update_required E (Scenario.downloader_with_search E) "Bar" w).1
         = Ok false
     ∧ Obj._task_queue (queue w)
         = [Message.task "Bar" (Scenario.record "Bar" Scenario.bar_url 100)]).
Proof.
  split; [intros E names f w; apply run_config|].
  vm_compute. repeat split; reflexivity.
Qed.

(** ** The install worker *)

Section Extract.
Context (E : Env).

(** The tuple of the except clause of [_extract_zipfile] names
    [BadZipFile], which the module does not bind. *)
Lemma extract_handler_names : Py.resolve_all ["TypeError"; "BadZipFile"] = Raise NameError.
Proof. reflexivity. Qed.

(** A download that succeeds and is a zip archive is extracted. *)
Lemma extract_zipfile_archive self url w r members :
  net E (net_log w) (Request url None) = Responded r →
  zip_members r = Some members →
  (Downloader._extract_zipfile E self url w).1 = Ok tt.
Proof.
  intros Hnet Hzip.
  unfold Downloader._extract_zipfile, Py.try_except, http_request,
    Downloader.extractall.
  py_unfold. simpl. rewrite Hnet. simpl. by rewrite Hzip.
Qed.

(** Any other download ends in NameError, and the handler that would log
    the error does not run: the state is the one [http_request] left. *)
Lemma extract_zipfile_failure self url w :
  (∀ r, net E (net_log w) (Request url None) = Responded r → zip_members r = None) →
  Downloader._extract_zipfile E self url w
  = (Raise NameError, (http_request E url None w).2).
Proof.
  intros Hnet.
  unfold Downloader._extract_zipfile, Py.try_except, http_request, print, log.
  py_unfold. simpl.
  destruct (net E (net_log w) (Request url None)) as [r| |err]; simpl; [|done|done].
  by rewrite (Hnet r eq_refl).
Qed.

End Extract.

#[local] Instance same_tasks_preorder : PreOrder same_tasks.
Proof.
  split; [by intros w | intros w1 w2 w3 H12 H23; unfold same_tasks in *; congruence].
Qed.

Section RunTerminates.
Context (E : Env).

Ltac tasks_step :=
  lazymatch goal with
  | |- preserves _ (Py.modify _) => apply preserves_modify; intros ?; reflexivity
  | |- preserves _ (match ?x with _ => _ end) => destruct x
  | |- preserves _ (if ?x then _ else _) => destruct x
  | |- _ => preserves_step
  end.

Lemma extract_zipfile_tasks self url :
  preserves same_tasks (Downloader._extract_zipfile E self url).
Proof.
  unfold Downloader._extract_zipfile, Downloader.extractall, http_request, print, log.
  repeat tasks_step.
Qed.

Lemma update_addon_tasks a : preserves same_tasks (Config.update_addon a).
Proof. unfold Config.update_addon, Config.encode, Config.open_file. repeat tasks_step. Qed.

(** One turn of the loop takes the first task off the queue, whatever
    becomes of the install. *)
Lemma run_body_takes_one self w task rest :
  Obj._task_queue (queue w) = task :: rest →
  Obj._task_queue (queue (Downloader.run_body E self w).2) = rest.
Proof.
  intros Hq. unfold Downloader.run_body.
  set (install := λ (t : Message.t),
    match Message.current_addon t, Message.online_addon t with
    | Some current_addon, Some online_addon =>
        if Str.nonempty current_addon then
          Py.bind (Py.modify (upd_queue (MultiQueue.put_message
             (Message.text ("Downloading " +:+ Addon.get_name online_addon +:+ "...")))))
            (λ _, Py.bind (Downloader._extract_zipfile E self (Addon.get_full_url online_addon))
            (λ _, Config.update_addon online_addon))
        else Py.ret tt
    | _, _ => Py.ret tt
    end).
  assert (∀ t, preserves same_tasks (install t)) as Hinstall.
  { intros t. unfold install.
    destruct (Message.current_addon t), (Message.online_addon t);
      repeat first [apply extract_zipfile_tasks | apply update_addon_tasks | tasks_step]. }
  unfold Py.try_except, Py.bind at 1, Py.gets at 1, MultiQueue.get_task.
  rewrite Hq. unfold Py.bind at 1, Py.modify at 1.
  fold (install task).
  pose proof (Hinstall task (upd_queue (λ _, {|
      Obj._task_queue := rest;
      Obj._message_queue := Obj._message_queue (queue w);
      Obj._warning_queue := Obj._warning_queue (queue w) |}) w)) as Hkeep.
  unfold same_tasks in Hkeep. simpl in Hkeep.
  destruct (install task _) as [[[]|e] w1]; simpl in *; [done|].
  by case_bool_decide.
Qed.

(** The loop of [run] ends because the queue is empty or an exception
    leaves it: more fuel than there are tasks changes nothing. *)
Lemma run_loop_fuel self fuel extra w :
  (length (Obj._task_queue (queue w)) < fuel)%nat →
  Downloader.run_loop E self fuel w = Downloader.run_loop E self (fuel + extra) w.
Proof.
  revert w. induction fuel as [|fuel IH]; intros w Hlen; [lia|].
  simpl. unfold Py.bind at 1 3, Py.gets, MultiQueue.task_available.
  destruct (Obj._task_queue (queue w)) as [|task rest] eqn:Hq; [done|].
  simpl. unfold Py.bind.
  pose proof (run_body_takes_one self w task rest Hq) as Hrest.
  destruct (Downloader.run_body E self w) as [[[]|e] w1]; [|done].
  simpl in Hrest. apply IH. rewrite Hrest. simpl in Hlen. lia.
Qed.

End RunTerminates.

(** C3 (failing input): [_extract_zipfile] either succeeds or ends in
    NameError in the state that [http_request] left, its handler never
    logging anything.  With the installs of A and B queued and the
    download of A not a zip archive, [run] ends with NameError: nothing
    is logged, nothing is extracted or stored, and the task of B is left
    on the queue.  When the download of C fails instead, [http_request]
    logs the request error and [run] ends with NameError as well. *)
Theorem C3_failed_install_ends_the_worker :
  (∀ E self url w,
     (Downloader._extract_zipfile E self url w).1 = Ok tt
     ∨ Downloader._extract_zipfile E self url w
       = (Raise NameError, (http_request E url None w).2))
  ∧ (let E := Scenario.env_downloads in
     let bad_zip := Downloader.run E Scenario.downloader Scenario.two_tasks in
     bad_zip.1 = Raise NameError
     ∧ errors_log (disk bad_zip.2) = []
     ∧ Obj._task_queue (queue bad_zip.2) = [Scenario.task_b]
     ∧ config bad_zip.2 = config Scenario.two_tasks
     ∧ files (disk bad_zip.2) = files (disk Scenario.two_tasks)
     ∧ extracted (disk bad_zip.2) = ∅)
  ∧ (let E := Scenario.env_downloads in
     let no_page := Downloader.run E Scenario.downloader Scenario.two_tasks_unreachable in
     no_page.1 = Raise NameError
     ∧ errors_log (disk no_page.2) = ["404 Client Error"]
     ∧ Obj._task_queue (queue no_page.2) = [Scenario.task_b]
     ∧ config no_page.2 = config Scenario.two_tasks_unreachable).
Proof.
  split.
  - intros E self url w.
    destruct (net E (net_log w) (Request url None)) as [r| |err] eqn:Hnet.
    + destruct (zip_members r) as [members|] eqn:Hzip.
      * left. by apply (extract_zipfile_archive E self url w r members).
      * right. apply extract_zipfile_failure. intros r' Hr'. congruence.
    + right. apply extract_zipfile_failure. intros r' Hr'. congruence.
    + right. apply extract_zipfile_failure. intros r' Hr'. congruence.
  - vm_compute. repeat split; reflexivity.
Qed.

(** ** The search request *)

Section SearchRequest.
Context (E : Env).

(** Whatever the order of the terms, one request at most is sent. *)
Lemma search_request_at_most_one name w :
  (length (sent_between w (AddonSearch._search_request E name w).2) ≤ 1)%nat.
Proof.
  unfold AddonSearch._search_request, sent_between.
  destruct (search_loop_one_request E name (AddonSearch.search_terms E name) w)
    as [Hlog|(t & _ & _ & Hlog)]; rewrite Hlog.
  - rewrite drop_all. simpl. lia.
  - rewrite drop_app_length. simpl. lia.
Qed.

(** The body of the loop returns in its first turn for a term that is
    not empty: the terms after it play no part. *)
Lemma search_loop_first_term name c term rest w :
  AddonSearch.search_loop E name (String c term :: rest) w
  = AddonSearch.search_loop E name [String c term] w.
Proof. reflexivity. Qed.

Lemma search_loop_skips_empty name rest w :
  AddonSearch.search_loop E name ("" :: rest) w = AddonSearch.search_loop E name rest w.
Proof. reflexivity. Qed.

End SearchRequest.

(** C4 (failing input): [_search_request] sends one request at most,
    whatever the terms and their order, because the loop returns in the
    first turn whose term is not empty.  For "SpaceStashCore", with the
    raw name tried first: when the catalog has no result for the raw name
    and one for "Space Stash Core", [find] sends the request for the raw
    name only and answers [None]; and when the request for the raw name
    times out while both other terms have a result, it does the same. *)
Theorem C4_search_ends_after_first_term :
  (∀ E name w,
     (length (sent_between w (AddonSearch._search_request E name w).2) ≤ 1)%nat)
  ∧ (∀ E name c term rest w,
       AddonSearch.search_loop E name (String c term :: rest) w
       = AddonSearch.search_loop E name [String c term] w)
  ∧ (let E := Scenario.env_split_only in
     let out := AddonSearch.find E "SpaceStashCore" Scenario.start in
     AddonSearch.search_terms E "SpaceStashCore"
       = ["SpaceStashCore"; "Space Stash Core"; "SpaceStash"]
     ∧ net E [] (Request AddonSearch.BASE_CURSE_URL (Some "Space Stash Core"))
         = Responded (Scenario.result_page "Space Stash" Scenario.space_stash_href)
     ∧ out.1 = Ok None
     ∧ net_log out.2 = [Request AddonSearch.BASE_CURSE_URL (Some "SpaceStashCore")])
  ∧ (let E := Scenario.env_raw_times_out in
     let out := AddonSearch.find E "SpaceStashCore" Scenario.start in
     net E [] (Request AddonSearch.BASE_CURSE_URL (Some "SpaceStashCore")) = TimedOut
     ∧ out.1 = Ok None
     ∧ net_log out.2 = [Request AddonSearch.BASE_CURSE_URL (Some "SpaceStashCore")]
     ∧ stdout (disk out.2) = ["Connection timed out."]).
Proof.
  split; [apply search_request_at_most_one|].
  split; [intros; apply search_loop_first_term|].
  vm_compute. repeat split; reflexivity.
Qed.

(** ** Examples of whole runs *)

(** An install whose download is a zip archive: the members are
    extracted, the record is stored and written to config.json, and the
    queue is empty afterwards. *)
Example install_of_an_archive :
  let w := upd_queue (MultiQueue.put_task Scenario.task_b) Scenario.start in
  let out := Downloader.run Scenario.env_downloads Scenario.downloader w in
  out.1 = Ok tt
  ∧ Obj._task_queue (queue out.2) = []
  ∧ extracted (disk out.2) !! ("Addons", "B/toc.xml") = Some "<Addon/>"
  ∧ config_item out.2 "addons" "B"
      = Ok (Addon.to_json (Scenario.record "B" "http://x/b" 20))
  ∧ files (disk out.2) !! "config.json"
      = Some (JsonText (Obj._config_dict (config out.2))).
Proof. vm_compute. repeat split; reflexivity. Qed.

(** A name that no term finds: [None], a warning, no task. *)
Example search_of_an_unknown_name :
  let out := AddonSearch.run Scenario.env_bar ["Foo"] Scenario.start in
  out.1 = Ok tt
  ∧ Obj._task_queue (queue out.2) = []
  ∧ Obj._warning_queue (queue out.2)
      = [Message.text "Unable to find 'Foo' on Curse."]
  ∧ neg_cached out.2 "Foo".
Proof. vm_compute. repeat split; reflexivity. Qed.

(** A recorded name with the same date on the catalog: the decision is
    true. *)
Example equal_dates_need_update :
  let E := Scenario.env_bar in
  let w := Scenario.with_record (Scenario.record "Bar" Scenario.bar_url 100) in
  (Downloader._update_required E (Scenario.downloader_with_search E) "Bar" w).1 = Ok true.
Proof. vm_compute. reflexivity. Qed.

(** A downloader as [__init__] leaves it has no [_search]: the decision
    raises AttributeError. *)
Example update_required_without_search :
  (Downloader._update_required Scenario.env_bar Scenario.downloader "Bar"
     Scenario.bar_recorded).1 = Raise AttributeError.
Proof. vm_compute. reflexivity. Qed.

(* ===================================================================== *)
(** * Further properties of the code                                       *)
(* ===================================================================== *)

(** ** Names and search terms *)

Section MoreStrings.

Lemma append_cons c a b : String c a +:+ b = String c (a +:+ b).
Proof. reflexivity. Qed.

Lemma append_empty_l s : "" +:+ s = s.
Proof. reflexivity. Qed.

Lemma append_empty_r s : s +:+ "" = s.
Proof. induction s as [|c r IH]; [done|]. by rewrite append_cons, IH. Qed.

Lemma filter_append p a b : Str.filter p (a +:+ b) = Str.filter p a +:+ Str.filter p b.
Proof.
  induction a as [|c r IH]; [done|]. rewrite append_cons. simpl.
  destruct (p c); by rewrite ?append_cons, IH.
Qed.

Lemma upper_not_lower_or_digit c :
  Str.is_upper c = true → Str.is_lower_or_digit c = false.
Proof.
  destruct c as [[] [] [] [] [] [] [] []]; vm_compute; intros; congruence.
Qed.

Lemma string_of_snoc l c s :
  string_of_list_ascii (l ++ [c]) +:+ s = string_of_list_ascii l +:+ String c s.
Proof. induction l as [|x l IH]; [done|]. simpl. by rewrite !append_cons, IH. Qed.

Lemma findall_run u run : ∀ acc rest,
  Str.forallb Str.is_lower_or_digit run = true →
  match_ends_before rest →
  acc ≠ [] ∨ run ≠ "" →
  Str.findall_from (Some (u, acc)) (run +:+ rest)
  = String u (string_of_list_ascii (rev acc) +:+ run) :: Str.findall_from None rest.
Proof.
  induction run as [|c run IH]; intros acc rest Hrun Hrest Hne.
  - destruct Hne as [Hacc|]; [|done]. rewrite append_empty_r, append_empty_l.
    destruct rest as [|d r]; simpl.
    + by destruct acc.
    + simpl in Hrest. rewrite Hrest. by destruct acc.
  - simpl in Hrun. apply andb_true_iff in Hrun as [Hc Hrun].
    rewrite append_cons. simpl. rewrite Hc.
    rewrite (IH (c :: acc) rest Hrun Hrest); [|by left].
    simpl. by rewrite string_of_snoc.
Qed.

Lemma findall_fragment f rest :
  is_fragment f = true → match_ends_before rest →
  Str.findall_from None (f +:+ rest) = f :: Str.findall_from None rest.
Proof.
  destruct f as [|u run]; [done|]. simpl.
  intros [[Hu Hne]%andb_true_iff Hrun]%andb_true_iff Hrest.
  rewrite Hu. rewrite (findall_run u run [] rest Hrun Hrest); [done|].
  right. by destruct run.
Qed.

Lemma join_empty_cons f fs : Str.join "" (f :: fs) = f +:+ Str.join "" fs.
Proof.
  unfold Str.join. destruct fs as [|g fs]; simpl; [by rewrite append_empty_r|done].
Qed.

Lemma join_fragments_start fs :
  Forall (λ f, is_fragment f = true) fs → match_ends_before (Str.join "" fs).
Proof.
  destruct 1 as [|f fs Hf _]; [done|]. rewrite join_empty_cons.
  destruct f as [|u run]; [done|]. rewrite append_cons. simpl in *.
  apply andb_true_iff in Hf as [[Hu _]%andb_true_iff _].
  by apply upper_not_lower_or_digit.
Qed.

Lemma findall_join_fragments fs :
  Forall (λ f, is_fragment f = true) fs →
  Str.findall_capitalized (Str.join "" fs) = fs.
Proof.
  unfold Str.findall_capitalized.
  induction 1 as [|f fs Hf Hfs IH]; [done|].
  rewrite join_empty_cons, findall_fragment, IH; [done..|].
  by apply join_fragments_start.
Qed.

End MoreStrings.

(** X1: normalizing a name twice is normalizing it once, and a
    normalized name has only characters of [a-zA-Z0-9]. *)
Theorem X1_normalization_idempotent (name : string) :
  convert_addon_name (convert_addon_name name) = convert_addon_name name
  ∧ Str.forallb Str.is_alnum (convert_addon_name name) = true.
Proof.
  split; [apply convert_addon_name_idemp|].
  rewrite convert_addon_name_filter. apply forallb_filter.
Qed.

(** X2: characters outside [a-zA-Z0-9] inside a name leave no trace: the
    normalization of two parts with such a separator between them is the
    normalization of the one followed by that of the other. *)
Theorem X2_normalization_drops_separators (a sep b : string)
    (Hsep : Str.forallb (λ c, negb (Str.is_alnum c)) sep = true) :
  convert_addon_name (a +:+ sep +:+ b)
  = convert_addon_name a +:+ convert_addon_name b.
Proof.
  rewrite !convert_addon_name_filter, !filter_append.
  by rewrite (filter_none _ _ Hsep).
Qed.

Lemma X2_normalization_drops_separators_witness :
  convert_addon_name ("TB" +:+ "- " +:+ "Graphics")
  = convert_addon_name "TB" +:+ convert_addon_name "Graphics".
Proof. apply X2_normalization_drops_separators. reflexivity. Defined.

(** X3: for a name that is a sequence of capitalized fragments written
    one after the other, the pattern finds exactly these fragments: the
    camel-case split is the fragments joined by spaces, and the term of
    [_remove_last_word] is the fragments but the last joined without a
    separator (the empty string when there is one fragment only). *)
Theorem X3_camel_case_round_trip (fragments : list string)
    (Hfragments : Forall (λ f, is_fragment f = true) fragments) :
  Str.findall_capitalized (Str.join "" fragments) = fragments
  ∧ AddonSearch._split_by_camel_case (Str.join "" fragments)
      = Str.join " " fragments
  ∧ AddonSearch._remove_last_word (Str.join "" fragments)
      = Str.join "" (removelast fragments).
Proof.
  unfold AddonSearch._split_by_camel_case, AddonSearch._remove_last_word.
  by rewrite (findall_join_fragments fragments Hfragments).
Qed.

Lemma X3_camel_case_round_trip_witness :
  Str.findall_capitalized (Str.join "" ["Space"; "Stash"; "Core"])
    = ["Space"; "Stash"; "Core"]
  ∧ AddonSearch._split_by_camel_case (Str.join "" ["Space"; "Stash"; "Core"])
      = Str.join " " ["Space"; "Stash"; "Core"]
  ∧ AddonSearch._remove_last_word (Str.join "" ["Space"; "Stash"; "Core"])
      = Str.join "" (removelast ["Space"; "Stash"; "Core"]).
Proof.
  apply X3_camel_case_round_trip.
  repeat constructor.
Defined.

(** ** The configuration object *)

Section MoreConfig.
Context (E : Env).

(** With an [addons] section that is a dictionary, [update_addon]
    stores the record in it and goes on to write the file. *)
Lemma update_addon_unfold (a : Addon.t) (w : World) (m addons : gmap string json) :
  Obj._config_dict (config w) = JDict m →
  m !! "addons" = Some (JDict addons) →
  let d' := JDict (<["addons" := JDict (<[Addon.get_name a := Addon.to_json a]> addons)]> m) in
  Config.update_addon a w = Config.encode (upd_config (Config.set_dict d') w).
Proof.
  intros Hd Ha. unfold Config.update_addon. py_unfold. simpl.
  rewrite Hd. simpl. rewrite Ha. done.
Qed.

Lemma update_addon_eval (a : Addon.t) (w : World) (m addons : gmap string json) :
  config_file_opens w Writing →
  Obj._config_dict (config w) = JDict m →
  m !! "addons" = Some (JDict addons) →
  let d' := JDict (<["addons" := JDict (<[Addon.get_name a := Addon.to_json a]> addons)]> m) in
  Config.update_addon a w
  = (Ok tt, upd_disk (write_file (Obj._config_file (config w)) (JsonText d'))
              (upd_config (Config.set_dict d') w)).
Proof.
  intros Hopen Hd Ha. cbv zeta. rewrite (update_addon_unfold a w m addons Hd Ha).
  set (d' := JDict _).
  by rewrite (encode_eval (upd_config (Config.set_dict d') w) _ Hopen eq_refl).
Qed.

(** When [update_addon] returns, the file could be opened. *)
Lemma update_addon_ok_opens (a : Addon.t) (w : World) :
  (Config.update_addon a w).1 = Ok tt → config_file_opens w Writing.
Proof.
  unfold config_file_opens, Config.update_addon, Config.encode, Config.open_file.
  py_unfold. simpl.
  destruct (Obj._config_dict (config w)) as [| | | | |m]; simpl; try done.
  destruct (m !! "addons") as [[| | | | |addons]|]; simpl; try done.
  by destruct (open_error (disk w) (Obj._config_file (config w)) Writing).
Qed.

(** Without an [addons] section that is a dictionary, [update_addon]
    raises and leaves everything as it was. *)
Lemma update_addon_cases (a : Addon.t) (w : World) :
  (∃ e, Config.update_addon a w = (Raise e, w) ∧ (e = KeyError ∨ e = TypeError))
  ∨ has_addons w.
Proof.
  unfold Config.update_addon, has_addons. py_unfold. simpl.
  destruct (Obj._config_dict (config w)) as [| | | | |m]; simpl;
    try (left; eexists; split; [done|by right]).
  destruct (m !! "addons") as [[| | | | |addons]|] eqn:Ha; simpl;
    try (left; eexists; split; [done|by right]).
  - right. by exists m, addons.
  - left. eexists. split; [done|by left].
Qed.

Lemma get_addon_eval name (w : World) (m addons : gmap string json) :
  Obj._config_dict (config w) = JDict m →
  m !! "addons" = Some (JDict addons) →
  Config.get_addon E name w
  = (match JsonAddon.__init__ E (default JNull (addons !! name)) with
     | Ok a => Ok (Some a)
     | Raise ValueError => Ok None
     | Raise e => Raise e
     end, w).
Proof.
  intros Hd Ha. unfold Config.get_addon, Py.try_except. py_unfold. simpl.
  rewrite Hd. simpl. rewrite Ha. simpl.
  destruct (JsonAddon.__init__ E (default JNull (addons !! name))) as [a|[]]; done.
Qed.

Lemma addon_names_eval (w : World) (m addons : gmap string json) :
  Obj._config_dict (config w) = JDict m →
  m !! "addons" = Some (JDict addons) →
  Config.addon_names w = (Ok (dom addons), w).
Proof.
  intros Hd Ha. unfold Config.addon_names. py_unfold. simpl.
  rewrite Hd. simpl. by rewrite Ha.
Qed.

Lemma store_all_other l : ∀ addons key,
  key ∉ Addon.get_name <$> l → store_all l addons !! key = addons !! key.
Proof.
  induction l as [|a l IH]; intros addons key Hkey; [done|].
  simpl in *. apply not_elem_of_cons in Hkey as [Hne Hkey].
  unfold store_all in *. simpl. rewrite IH by done. by rewrite lookup_insert_ne.
Qed.

Lemma store_all_lookup l : ∀ addons a,
  NoDup (Addon.get_name <$> l) → a ∈ l →
  store_all l addons !! Addon.get_name a = Some (Addon.to_json a).
Proof.
  induction l as [|b l IH]; intros addons a Hnodup Hin; [by apply elem_of_nil in Hin|].
  simpl in Hnodup. apply NoDup_cons in Hnodup as [Hb Hnodup].
  unfold store_all in *. simpl.
  apply elem_of_cons in Hin as [->|Hin].
  - fold (store_all l (<[Addon.get_name b := Addon.to_json b]> addons)).
    rewrite store_all_other by done. apply lookup_insert_eq.
  - by apply IH.
Qed.

Lemma store_all_dom l : ∀ addons,
  dom (store_all l addons) = dom addons ∪ list_to_set (Addon.get_name <$> l).
Proof.
  induction l as [|a l IH]; intros addons; unfold store_all in *; simpl.
  - by rewrite (right_id_L ∅ (∪)).
  - rewrite IH, dom_insert_L.
    by rewrite (comm_L (∪) {[Addon.get_name a]} (dom addons)), (assoc_L (∪)).
Qed.

(** The loop of [add_addons] on a store that has an [addons] section. *)
Lemma update_each_eval l : ∀ (w : World) (m addons : gmap string json),
  config_file_opens w Writing →
  Obj._config_dict (config w) = JDict m →
  m !! "addons" = Some (JDict addons) →
  ∃ w',
    Config.update_each l w = (Ok tt, w')
    ∧ Obj._config_dict (config w') = JDict (<["addons" := JDict (store_all l addons)]> m)
    ∧ Obj._config_file (config w') = Obj._config_file (config w)
    ∧ config_file_opens w' Writing.
Proof.
  induction l as [|a l IH]; intros w m addons Hopen Hd Ha.
  - exists w. split; [done|]. split; [|done].
    rewrite Hd. f_equal. symmetry. by apply insert_id.
  - simpl. unfold Py.bind. rewrite (update_addon_eval a w m addons Hopen Hd Ha).
    set (w1 := upd_disk _ _).
    destruct (IH w1 (<["addons" := JDict (<[Addon.get_name a := Addon.to_json a]> addons)]> m)
                (<[Addon.get_name a := Addon.to_json a]> addons))
      as (w' & Hrun & Hd' & Hfile & Hopen'); [done|done|apply lookup_insert_eq|].
    exists w'. split; [done|]. split; [|done].
    rewrite Hd'. by rewrite insert_insert_eq.
Qed.

End MoreConfig.

(** X4: [decode] changes nothing.  When the config file can be opened
    it gives the document of the file if the file holds JSON, and the
    default document (an empty [config] and an empty [addons] section) if
    the file is missing or is not JSON.  When the file system refuses to
    open the file, the error passes through [decode] unless its class is
    one of the three of the except clause: PermissionError and
    IsADirectoryError are not caught.  Building a [Config] succeeds and
    holds that document in the first case, and raises in the second. *)
Theorem X4_decode_default_and_errors (w : World) (file_name : string) :
  let document (name : string) :=
    match files (disk w) !! name with
    | Some (JsonText d) => d
    | Some (OtherText _) | None => Config._default
    end in
  let caught (e : exn) := bool_decide (e ∈ [FileNotFoundError; ValueError; KeyError]) in
  (config_file_opens w Reading →
     Config.decode w = (Ok (document (Obj._config_file (config w))), w))
  ∧ (∀ e, open_error (disk w) (Obj._config_file (config w)) Reading = Some e →
       Config.decode w = (if caught e then Ok Config._default else Raise e, w))
  ∧ (open_error (disk w) file_name Reading = None →
       Config.__init__ file_name w
       = (Ok tt, upd_config (λ _, {| Obj._config_file := file_name;
                                     Obj._config_dict := document file_name |}) w))
  ∧ (∀ e, open_error (disk w) file_name Reading = Some e → caught e = false →
       (Config.__init__ file_name w).1 = Raise e)
  ∧ caught PermissionError = false ∧ caught IsADirectoryError = false
  ∧ Json.getitem Config._default "addons" = Ok (JDict ∅)
  ∧ Json.getitem Config._default "config" = Ok (JDict ∅).
Proof.
  cbv zeta. split; [|split; [|split; [|split; [|repeat split; reflexivity]]]].
  - unfold config_file_opens. intros Hopen.
    unfold Config.decode, Config.read_config_file, Config.open_file, Py.try_except.
    py_unfold. simpl. rewrite Hopen. simpl.
    by destruct (files (disk w) !! Obj._config_file (config w)) as [[d|t]|].
  - intros e He.
    unfold Config.decode, Config.read_config_file, Config.open_file, Py.try_except.
    py_unfold. simpl. rewrite He. simpl.
    by destruct (bool_decide (e ∈ [FileNotFoundError; ValueError; KeyError])).
  - intros Hopen.
    unfold Config.__init__, Config.decode, Config.read_config_file, Config.open_file,
      Py.try_except.
    py_unfold. simpl. rewrite Hopen. simpl.
    by destruct (files (disk w) !! file_name) as [[d|t]|].
  - intros e He Hcaught.
    unfold Config.__init__, Config.decode, Config.read_config_file, Config.open_file,
      Py.try_except.
    py_unfold. simpl. rewrite He. simpl. by rewrite Hcaught.
Qed.

Lemma X4_decode_default_and_errors_witness :
  Config.decode Scenario.start = (Ok Config._default, Scenario.start)
  ∧ Config.decode Malformed.locked = (Raise PermissionError, Malformed.locked).
Proof.
  destruct (X4_decode_default_and_errors Scenario.start "config.json") as (Hopens & _).
  destruct (X4_decode_default_and_errors Malformed.locked "config.json")
    as (_ & Hrefused & _).
  split.
  - apply Hopens. reflexivity.
  - apply (Hrefused PermissionError). reflexivity.
Defined.

(** X5: [get_addon] answers [None] for a name that is not recorded and
    for a record that is not a dictionary; it raises KeyError, which its
    handler does not catch, when the store has no [addons] section and
    when the record lacks one of the fields [name], [url], [date].  The
    state is never changed. *)
Theorem X5_get_addon_edges (E : Env) (w : World) (name : string)
    (m : gmap string json)
    (Hdict : Obj._config_dict (config w) = JDict m) :
  (m !! "addons" = None → Config.get_addon E name w = (Raise KeyError, w))
  ∧ (∀ addons, m !! "addons" = Some (JDict addons) →
       (addons !! name = None → Config.get_addon E name w = (Ok None, w))
       ∧ (∀ v, addons !! name = Some v →
            (∀ fields, v ≠ JDict fields) →
            Config.get_addon E name w = (Ok None, w))
       ∧ (∀ fields, addons !! name = Some (JDict fields) →
            fields !! "name" = None ∨ fields !! "url" = None ∨ fields !! "date" = None →
            Config.get_addon E name w = (Raise KeyError, w))).
Proof.
  split.
  - intros Ha. unfold Config.get_addon, Py.try_except. py_unfold. simpl.
    rewrite Hdict. simpl. by rewrite Ha.
  - intros addons Ha. rewrite (get_addon_eval E name w m addons Hdict Ha).
    split; [|split].
    + by intros ->.
    + intros v -> Hv. simpl. destruct v; try done. by destruct (Hv d).
    + intros fields -> Hmissing. simpl. unfold Json.getitem.
      destruct (fields !! "name"); [|done].
      destruct (fields !! "url"); [|done].
      destruct (fields !! "date"); [|done].
      by destruct Hmissing as [|[|]].
Qed.

Lemma X5_get_addon_edges_witness :
  Config.get_addon Scenario.env_bar "Foo" Scenario.bar_recorded
  = (Ok None, Scenario.bar_recorded).
Proof.
  destruct (X5_get_addon_edges Scenario.env_bar Scenario.bar_recorded "Foo"
              (<["addons" := JDict {[ "Bar" := Addon.to_json
                                        (Scenario.record "Bar" Scenario.bar_url 200) ]}]>
                 (<["config" := JDict ∅]> ∅))) as [_ Hrecorded].
  - vm_compute. reflexivity.
  - apply (Hrecorded {[ "Bar" := Addon.to_json
                          (Scenario.record "Bar" Scenario.bar_url 200) ]}).
    + vm_compute. reflexivity.
    + vm_compute. reflexivity.
Defined.

(** X6: when [update_addon] has stored a constructed record whose
    timestamp is not zero, [get_addon] of its name gives the record back,
    [get_addon] of any other name answers as before, the name is among
    [addon_names], and the config file holds the new dictionary. *)
Theorem X6_update_addon_then_get (E : Env) (w : World)
    (name url epoch_date : json) (a : Addon.t)
    (Hinit : Addon.__init__ E name url epoch_date = Ok a)
    (Hdate : Addon.get_date a ≠ 0)
    (Hstored : (Config.update_addon a w).1 = Ok tt) :
  let w' := (Config.update_addon a w).2 in
  Config.get_addon E (Addon.get_name a) w' = (Ok (Some a), w')
  ∧ (∀ other, other ≠ Addon.get_name a →
       (Config.get_addon E other w').1 = (Config.get_addon E other w).1)
  ∧ (∃ names, Config.addon_names w' = (Ok names, w') ∧ Addon.get_name a ∈ names)
  ∧ flushed w'.
Proof.
  destruct (update_addon_cases a w) as [(e & He & _)|(m & addons & Hd & Ha)].
  { rewrite He in Hstored. done. }
  rewrite (update_addon_eval a w m addons (update_addon_ok_opens a w Hstored) Hd Ha).
  simpl.
  set (addons' := <[Addon.get_name a := Addon.to_json a]> addons).
  set (m' := <["addons" := JDict addons']> m).
  set (w' := upd_disk _ _).
  assert (Obj._config_dict (config w') = JDict m') as Hd' by done.
  assert (m' !! "addons" = Some (JDict addons')) as Ha' by apply lookup_insert_eq.
  split; [|split; [|split]].
  - rewrite (get_addon_eval E _ w' m' addons' Hd' Ha').
    unfold addons'. rewrite lookup_insert_eq.
    change (default JNull (Some (Addon.to_json a))) with (Addon.to_json a).
    by rewrite (json_addon_to_json E _ _ _ _ Hinit Hdate).
  - intros other Hne.
    rewrite (get_addon_eval E _ w' m' addons' Hd' Ha'),
      (get_addon_eval E _ w m addons Hd Ha).
    unfold addons'. by rewrite lookup_insert_ne.
  - exists (dom addons'). split.
    + apply (addon_names_eval w' m' addons' Hd' Ha').
    + unfold addons'. rewrite dom_insert_L. apply elem_of_union_l, elem_of_singleton. done.
  - unfold flushed, w'. simpl. apply lookup_insert_eq.
Qed.

Lemma X6_update_addon_then_get_witness :
  let a := Scenario.record "Bar" Scenario.bar_url 200 in
  let w' := (Config.update_addon a Scenario.start).2 in
  Config.get_addon Scenario.env_bar "Bar" w' = (Ok (Some a), w').
Proof.
  intros a w'.
  apply (X6_update_addon_then_get Scenario.env_bar Scenario.start
           (JStr "Bar") (JStr Scenario.bar_url) (JInt 200) a).
  - vm_compute. reflexivity.
  - vm_compute. discriminate.
  - vm_compute. reflexivity.
Defined.

(** X7: [update_addon] changes the dictionary before it writes the
    file.  Without an [addons] section that is a dictionary it raises
    KeyError or TypeError and nothing is changed.  With one, the record
    is in the dictionary of the object whatever comes next: when the file
    opens for writing the call returns and the file holds the new
    dictionary; when the file system refuses to open it the call raises
    that error and the disk is as it was, so the object holds the record
    though nothing was written. *)
Theorem X7_update_addon_stores_before_writing (a : Addon.t) (w : World) :
  (¬ has_addons w →
     ∃ e, Config.update_addon a w = (Raise e, w) ∧ (e = KeyError ∨ e = TypeError))
  ∧ (has_addons w →
     let w' := (Config.update_addon a w).2 in
     config_item w' "addons" (Addon.get_name a) = Ok (Addon.to_json a)
     ∧ (config_file_opens w Writing →
          (Config.update_addon a w).1 = Ok tt ∧ flushed w')
     ∧ (∀ e, open_error (disk w) (Obj._config_file (config w)) Writing = Some e →
          (Config.update_addon a w).1 = Raise e ∧ disk w' = disk w)).
Proof.
  split.
  - intros Hno. by destruct (update_addon_cases a w) as [He|Hhas].
  - intros (m & addons & Hd & Ha). cbv zeta.
    rewrite (update_addon_unfold a w m addons Hd Ha).
    set (d' := JDict _). set (w1 := upd_config (Config.set_dict d') w).
    assert (config_item w1 "addons" (Addon.get_name a) = Ok (Addon.to_json a)) as Hitem.
    { unfold config_item, w1, d'. simpl. rewrite lookup_insert_eq. simpl.
      by rewrite lookup_insert_eq. }
    split; [|split].
    + unfold config_item in *. by destruct (encode_frame w1) as (-> & _).
    + intros Hopen. rewrite (encode_eval w1 _ Hopen eq_refl). simpl.
      split; [done|]. unfold flushed. simpl. apply lookup_insert_eq.
    + intros e He. by rewrite (encode_refused w1 e He).
Qed.

Lemma X7_update_addon_stores_before_writing_witness :
  let a := Scenario.record "Bar" Scenario.bar_url 200 in
  let w' := (Config.update_addon a Malformed.locked).2 in
  config_item w' "addons" "Bar" = Ok (Addon.to_json a)
  ∧ (Config.update_addon a Malformed.locked).1 = Raise PermissionError
  ∧ disk w' = disk Malformed.locked.
Proof.
  intros a w'.
  destruct (proj2 (X7_update_addon_stores_before_writing a Malformed.locked))
    as (Hitem & _ & Hrefused).
  - exists (<["config" := JDict ∅]> (<["addons" := JDict ∅]> ∅)), ∅.
    split; reflexivity.
  - split; [exact Hitem|]. apply (Hrefused PermissionError). reflexivity.
Defined.

(** X8: on a store whose file opens for writing, [add_addons] stores
    constructed records with timestamps other than zero and names that
    differ from one another, given as a list or as the values of a
    dictionary; then [get_addon] gives each of them back under its name, [addon_names] are the names there were and the
    names of the records, and the config file holds the new dictionary. *)
Theorem X8_add_addons_then_get (E : Env) (w : World) (addons : Config.addons_arg)
    (Hbuilt : ∀ a, a ∈ Config.values addons →
       ∃ name url epoch_date,
         Addon.__init__ E name url epoch_date = Ok a ∧ Addon.get_date a ≠ 0)
    (Hnames : NoDup (Addon.get_name <$> Config.values addons))
    (Hsection : has_addons w)
    (Hopens : config_file_opens w Writing) :
  ∃ w' before,
    Config.add_addons addons w = (Ok tt, w')
    ∧ (∀ a, a ∈ Config.values addons →
         Config.get_addon E (Addon.get_name a) w' = (Ok (Some a), w'))
    ∧ Config.addon_names w = (Ok before, w)
    ∧ Config.addon_names w'
        = (Ok (before ∪ list_to_set (Addon.get_name <$> Config.values addons)), w')
    ∧ flushed w'.
Proof.
  destruct Hsection as (m & stored & Hd & Ha).
  destruct (update_each_eval (Config.values addons) w m stored Hopens Hd Ha)
    as (w1 & Hrun & Hd1 & Hfile & Hopens1).
  set (stored' := store_all (Config.values addons) stored) in *.
  set (m' := <["addons" := JDict stored']> m) in *.
  eexists. exists (dom stored).
  split.
  { unfold Config.add_addons, Py.bind. rewrite Hrun.
    apply (encode_eval w1 _ Hopens1 Hd1). }
  set (w' := upd_disk _ w1).
  assert (Obj._config_dict (config w') = JDict m') as Hd' by done.
  assert (m' !! "addons" = Some (JDict stored')) as Ha' by apply lookup_insert_eq.
  split; [|split; [|split]].
  - intros a Hin. destruct (Hbuilt a Hin) as (name & url & epoch & Hinit & Hdate).
    rewrite (get_addon_eval E _ w' m' stored' Hd' Ha').
    unfold stored'. rewrite (store_all_lookup _ stored a Hnames Hin).
    change (default JNull (Some (Addon.to_json a))) with (Addon.to_json a).
    by rewrite (json_addon_to_json E _ _ _ _ Hinit Hdate).
  - apply (addon_names_eval w m stored Hd Ha).
  - rewrite (addon_names_eval w' m' stored' Hd' Ha').
    unfold stored'. by rewrite store_all_dom.
  - unfold flushed, w'. simpl. rewrite Hd1. apply lookup_insert_eq.
Qed.

Lemma X8_add_addons_then_get_witness :
  ∃ w' before,
    Config.add_addons
      (Config.AddonDict [ ("A", Scenario.record "A" "http://x/a" 10);
                          ("B", Scenario.record "B" "http://x/b" 20) ])
      Scenario.start = (Ok tt, w')
    ∧ (∀ a, a ∈ [Scenario.record "A" "http://x/a" 10; Scenario.record "B" "http://x/b" 20] →
         Config.get_addon Scenario.env_bar (Addon.get_name a) w' = (Ok (Some a), w'))
    ∧ Config.addon_names Scenario.start = (Ok before, Scenario.start)
    ∧ Config.addon_names w' = (Ok (before ∪ list_to_set ["A"; "B"]), w')
    ∧ flushed w'.
Proof.
  apply (X8_add_addons_then_get Scenario.env_bar Scenario.start
           (Config.AddonDict [ ("A", Scenario.record "A" "http://x/a" 10);
                               ("B", Scenario.record "B" "http://x/b" 20) ])).
  - intros a Hin. simpl in Hin.
    apply elem_of_cons in Hin as [->|Hin].
    { exists (JStr "A"), (JStr "http://x/a"), (JInt 10).
      split; [vm_compute; reflexivity|discriminate]. }
    apply elem_of_cons in Hin as [->|Hin].
    { exists (JStr "B"), (JStr "http://x/b"), (JInt 20).
      split; [vm_compute; reflexivity|discriminate]. }
    by apply elem_of_nil in Hin.
  - simpl. apply NoDup_cons. split.
    + intros Hin%list_elem_of_singleton. discriminate.
    + apply NoDup_singleton.
  - exists (<["config" := JDict ∅]> (<["addons" := JDict ∅]> ∅)), ∅.
    split; reflexivity.
  - reflexivity.
Defined.

(** X9: after [update_directory] has stored a directory, [get_directory]
    answers that directory and the config file holds the new dictionary;
    on a store whose [config] section has no [PATH], [get_directory]
    answers the empty string. *)
Theorem X9_directory_round_trip (w : World) (directory : string)
    (Hdirectory : directory ≠ "")
    (Hstored : (Config.update_directory directory w).1 = Ok tt) :
  let w' := (Config.update_directory directory w).2 in
  Config.get_directory w' = (Ok (JStr directory), w')
  ∧ flushed w'
  ∧ (∀ v m section,
       Obj._config_dict (config v) = JDict m →
       m !! "config" = Some (JDict section) →
       section !! "PATH" = None →
       Config.get_directory v = (Ok (JStr ""), v)).
Proof.
  split; [|split].
  - destruct (update_directory_ok directory w Hdirectory Hstored)
      as (m & c & Hd & Hc & Hrun).
    rewrite Hrun. unfold Config.get_directory. py_unfold. simpl.
    rewrite lookup_insert_eq. simpl. by rewrite lookup_insert_eq.
  - destruct (update_directory_ok directory w Hdirectory Hstored)
      as (m & c & Hd & Hc & Hrun).
    rewrite Hrun. unfold flushed. simpl. apply lookup_insert_eq.
  - intros v m section Hd Hc Hpath.
    unfold Config.get_directory. py_unfold. simpl.
    rewrite Hd. simpl. rewrite Hc. simpl. by rewrite Hpath.
Qed.

Lemma X9_directory_round_trip_witness :
  let w' := (Config.update_directory "C:/Wildstar/Addons" Scenario.start).2 in
  Config.get_directory w' = (Ok (JStr "C:/Wildstar/Addons"), w')
  ∧ Config.get_directory Scenario.start = (Ok (JStr ""), Scenario.start).
Proof.
  intros w'.
  destruct (X9_directory_round_trip Scenario.start "C:/Wildstar/Addons")
    as (Hget & _ & Hdefault).
  - discriminate.
  - vm_compute. reflexivity.
  - split; [exact Hget|].
    apply (Hdefault Scenario.start
             (<["config" := JDict ∅]> (<["addons" := JDict ∅]> ∅)) ∅); reflexivity.
Defined.

(** ** JsonAddon *)

(** X10: the JSON form of a constructed record is rebuilt by [JsonAddon]
    into the same record when its timestamp is not zero, and rejected
    with ValueError when its timestamp is zero. *)
Theorem X10_json_addon_of_to_json (E : Env) (name url epoch_date : json) (a : Addon.t)
    (Hinit : Addon.__init__ E name url epoch_date = Ok a) :
  (Addon.get_date a ≠ 0 → JsonAddon.__init__ E (Addon.to_json a) = Ok a)
  ∧ (Addon.get_date a = 0 → JsonAddon.__init__ E (Addon.to_json a) = Raise ValueError).
Proof.
  split; [apply (json_addon_to_json E _ _ _ _ Hinit)|].
  apply init_ok_inv in Hinit as (s & d & -> & Hurl & _ & _ & Hm & ->).
  unfold Addon.get_date. simpl. intros ->.
  unfold JsonAddon.__init__, Addon.to_json, Json.getitem. simpl.
  rewrite lookup_insert_eq.
  rewrite lookup_insert_ne, lookup_insert_eq by done.
  rewrite !lookup_insert_ne, lookup_insert_eq by done.
  unfold Addon.__init__. simpl. by rewrite !andb_false_r.
Qed.

Lemma X10_json_addon_of_to_json_witness :
  JsonAddon.__init__ Scenario.env_bar
    (Addon.to_json (Scenario.record "Bar" Scenario.bar_url 200))
  = Ok (Scenario.record "Bar" Scenario.bar_url 200)
  ∧ JsonAddon.__init__ Scenario.env_bar
      (Addon.to_json (Scenario.record "Foo" "http://x/foo" 0))
    = Raise ValueError.
Proof.
  split.
  - apply (X10_json_addon_of_to_json Scenario.env_bar
             (JStr "Bar") (JStr Scenario.bar_url) (JInt 200)).
    + vm_compute. reflexivity.
    + vm_compute. discriminate.
  - apply (X10_json_addon_of_to_json Scenario.env_bar
             (JStr "Foo") (JStr "http://x/foo") (JStr "0")).
    + vm_compute. reflexivity.
    + reflexivity.
Defined.

(** ** The search object *)

#[local] Instance scrape_frame_preorder : PreOrder scrape_frame.
Proof.
  split.
  - by intros w.
  - intros w1 w2 w3 (?&?&?&?&?) (?&?&?&?&?). unfold scrape_frame. repeat split; congruence.
Qed.

#[local] Instance same_tasks_messages_preorder : PreOrder same_tasks_messages.
Proof.
  split.
  - by intros w.
  - intros w1 w2 w3 [? ?] [? ?]. unfold same_tasks_messages. split; congruence.
Qed.

#[local] Instance keeps_cache_keyed_preorder : PreOrder keeps_cache_keyed.
Proof. split; [intros w H; exact H | intros w1 w2 w3 H12 H23 H; auto]. Qed.

(** One step of a frame proof: the structure of the computation, and a
    state change that is checked by unfolding. *)
Ltac frame_auto :=
  lazymatch goal with
  | |- preserves _ (Py.modify _) =>
      apply preserves_modify; intros ?; by repeat split
  | |- preserves _ (match ?x with _ => _ end) => destruct x
  | |- _ => preserves_step
  end.

Section SearchFrames.
Context (E : Env).

Lemma http_request_scrape url params : preserves scrape_frame (http_request E url params).
Proof. unfold http_request, print, log. repeat frame_auto. Qed.

Lemma search_request_scrape name : preserves scrape_frame (AddonSearch._search_request E name).
Proof.
  unfold AddonSearch._search_request.
  induction (AddonSearch.search_terms E name) as [|term rest IH]; simpl.
  - repeat frame_auto.
  - destruct (Str.nonempty term); [|exact IH].
    unfold AddonSearch._results_found_on, AddonSearch._no_results_found_with.
    repeat first [apply http_request_scrape | frame_auto].
Qed.

Lemma find_addon_info_on_scrape page :
  preserves scrape_frame (AddonSearch._find_addon_info_on E page).
Proof.
  unfold AddonSearch._find_addon_info_on, AddonSearch._find_addon_date,
    AddonSearch._make_full_url_from.
  repeat first [apply http_request_scrape | frame_auto].
Qed.

(** The three ways in which the online search ends: not found, found and
    cached under the name of the entry, or an exception; up to there only
    the catalog has been looked at. *)
Lemma search_online_inv name w r w' :
  AddonSearch._search_online E name w = (r, w') →
  ∃ w0, scrape_frame w w0
    ∧ ((r = Ok None ∧ w' = (AddonSearch.not_found name w0).2)
       ∨ (∃ a text url date,
            r = Ok (Some a)
            ∧ Addon.__init__ E (JStr (convert_addon_name text)) (JStr url) (JStr date) = Ok a
            ∧ w' = (AddonSearch.remember (Addon.get_name a) a w0).2)
       ∨ (∃ e, r = Raise e ∧ w' = w0 ∧ (e = AttributeError ∨ e = ValueError))).
Proof.
  unfold AddonSearch._search_online, Py.bind at 1.
  pose proof (search_request_scrape name w) as H0.
  assert (∀ e v, AddonSearch._search_request E name w ≠ (Raise e, v)) as Hnoraise.
  { unfold AddonSearch._search_request.
    generalize w. induction (AddonSearch.search_terms E name) as [|term rest IH];
      intros u e v; simpl; [done|].
    destruct (Str.nonempty term); [|apply IH].
    unfold http_request, print, log, AddonSearch._results_found_on,
      AddonSearch._no_results_found_with, Py.try_except.
    py_unfold. simpl.
    destruct (net E (net_log u) _) as [r0| |err]; simpl; [|done|done].
    by destruct (no_results_marker r0). }
  destruct (AddonSearch._search_request E name w) as [[[p|]|e] w0]; simpl in H0.
  2:{ intros Hnf. exists w0. split; [done|]. left.
      destruct (AddonSearch.not_found name w0) as [r1 w1] eqn:Hr.
      revert Hr. unfold AddonSearch.not_found. py_unfold. simpl.
      intros [= <- <-]. by injection Hnf as <- <-. }
  2:{ by destruct (Hnoraise e w0). }
  unfold Py.bind at 1.
  pose proof (find_addon_info_on_scrape p w0) as H1.
  assert (∀ e v, AddonSearch._find_addon_info_on E p w0 = (Raise e, v) → e = AttributeError)
    as Hattr.
  { unfold AddonSearch._find_addon_info_on, AddonSearch._find_addon_date,
      AddonSearch._make_full_url_from, http_request, print, log.
    py_unfold. simpl. intros e v.
    destruct (first_link p) as [[text [href|]]|]; simpl; try (by intros [= <-]).
    destruct (net E (net_log w0) _) as [r0| |err]; simpl; try done.
    destruct (last_released r0); simpl; try done. by intros [= <-]. }
  assert (∀ n u d v, AddonSearch._find_addon_info_on E p w0 = (Ok (Some n, u, d), v) →
            ∃ text, n = convert_addon_name text) as Hname.
  { unfold AddonSearch._find_addon_info_on. py_unfold. intros n u d v.
    destruct (first_link p) as [[text href]|]; [|done].
    destruct (AddonSearch._make_full_url_from E href w0) as [[url|e] w1]; [|done].
    destruct (AddonSearch._find_addon_date E url w1) as [[dt|e] w2]; [|done].
    intros [= <- _ _]. by exists text. }
  destruct (AddonSearch._find_addon_info_on E p w0) as [[[[[n|] [u|]] [d|]]|e] w1] eqn:Hinfo;
    simpl in H1.
  all: assert (scrape_frame w w1) as H01 by (etransitivity; [exact H0|exact H1]).
  all: try (intros Hnf; exists w1; split; [done|]; left;
            revert Hnf; unfold AddonSearch.not_found; py_unfold; simpl;
            by intros [= <- <-]).
  - destruct (Hname n (Some u) (Some d) w1 eq_refl) as [text ->].
    destruct (Str.nonempty (convert_addon_name text) && Str.nonempty u && Str.nonempty d)
      eqn:Hall.
    2:{ intros Hnf; exists w1; split; [done|]; left.
        revert Hnf; unfold AddonSearch.not_found; py_unfold; simpl.
        by intros [= <- <-]. }
    unfold Py.bind at 1, Py.lift.
    destruct (Addon.__init__ E (JStr (convert_addon_name text)) (JStr u) (JStr d))
      as [a|e] eqn:Hinit.
    + unfold AddonSearch.remember. py_unfold. simpl. intros [= <- <-].
      exists w1. split; [done|]. right; left. exists a, text, u, d.
      split; [done|]. split; [done|].
      apply init_ok_inv in Hinit as (s' & z & [= <-] & _ & _ & _ & _ & ->).
      unfold Addon.get_name. simpl. by rewrite convert_addon_name_idemp.
    + intros [= <- <-]. exists w1. split; [done|]. right; right.
      exists e. split; [done|]. split; [done|]. right.
      revert Hinit. unfold Addon.__init__. simpl.
      apply andb_true_iff in Hall as [[Hn Hu]%andb_true_iff Hd].
      rewrite Hn, Hu, Hd. simpl. rewrite convert_addon_name_idemp.
      assert (Addon.match_alnum (convert_addon_name text) = true) as ->.
      { pose proof (forallb_filter Str.is_alnum text) as Hf.
        rewrite <- convert_addon_name_filter in Hf.
        destruct (convert_addon_name text); [done|].
        simpl in Hf. by apply andb_true_iff in Hf as [? _]. }
      simpl. destruct (Str.int_of d); [done|]. by intros [= <-].
  - intros [= <- <-]. exists w1. split; [done|]. right; right.
    exists e. split; [done|]. split; [done|]. left. by apply (Hattr e w1).
Qed.

End SearchFrames.

Section FindFacts.
Context (E : Env).

(** The three ways of [find]: the negative cache, the positive cache,
    the online search. *)
Lemma find_inv name w r w' :
  AddonSearch.find E name w = (r, w') →
  (neg_cached w name ∧ r = Ok None ∧ w' = w)
  ∨ (¬ neg_cached w name
     ∧ ∃ a, Obj._retrieved_addons (search w) !! name = Some a
            ∧ r = Ok (Some a) ∧ w' = w)
  ∨ (¬ neg_cached w name
     ∧ Obj._retrieved_addons (search w) !! name = None
     ∧ AddonSearch._search_online E name w = (r, w')).
Proof.
  unfold AddonSearch.find, neg_cached. py_unfold.
  destruct (Obj._no_results_found (search w) !! name) as [[|]|] eqn:Hneg.
  - intros [= <- <-]. by left.
  - destruct (Obj._retrieved_addons (search w) !! name) as [a|].
    + intros [= <- <-]. right; left. split; [done|]. by exists a.
    + intros Hon. right; right. by repeat split.
  - destruct (Obj._retrieved_addons (search w) !! name) as [a|].
    + intros [= <- <-]. right; left. split; [done|]. by exists a.
    + intros Hon. right; right. by repeat split.
Qed.

Lemma remember_keyed a w :
  cache_keyed w → cache_keyed (AddonSearch.remember (Addon.get_name a) a w).2.
Proof.
  intros Hk key b. unfold AddonSearch.remember, Py.modify. simpl.
  destruct (decide (Addon.get_name a = key)) as [<-|Hne].
  - rewrite lookup_insert_eq. by intros [= <-].
  - rewrite lookup_insert_ne by done. apply Hk.
Qed.

Lemma cache_keyed_same w w' :
  Obj._retrieved_addons (search w') = Obj._retrieved_addons (search w) →
  cache_keyed w → cache_keyed w'.
Proof. intros Heq Hk key a. rewrite Heq. apply Hk. Qed.

Lemma find_keeps_cache_keyed name : preserves keeps_cache_keyed (AddonSearch.find E name).
Proof.
  intros w Hk.
  destruct (AddonSearch.find E name w) as [r w'] eqn:Hfind. simpl.
  apply find_inv in Hfind as [(_ & _ & ->)|[(_ & a & _ & _ & ->)|(_ & _ & Hon)]];
    [done|done|].
  apply search_online_inv in Hon as (w0 & (_ & Hc & _) & Hcases).
  assert (cache_keyed w0) as Hk0 by by apply (cache_keyed_same w).
  destruct Hcases as [[_ ->]|[(a & text & url & date & _ & _ & ->)|(e & _ & -> & _)]].
  - by apply (cache_keyed_same w0).
  - by apply remember_keyed.
  - done.
Qed.

Lemma find_tasks_messages name : preserves same_tasks_messages (AddonSearch.find E name).
Proof.
  intros w.
  destruct (AddonSearch.find E name w) as [r w'] eqn:Hfind. simpl.
  apply find_inv in Hfind as [(_ & _ & ->)|[(_ & a & _ & _ & ->)|(_ & _ & Hon)]];
    [done|done|].
  apply search_online_inv in Hon as (w0 & (Hq & _) & Hcases).
  destruct Hcases as [[_ ->]|[(a & text & url & date & _ & _ & ->)|(e & _ & -> & _)]];
    unfold same_tasks_messages; simpl; by rewrite Hq.
Qed.

End FindFacts.

(** X11: [find] of a name under which an entry is cached answers that
    entry without sending a request or changing anything, unless the
    name is also in the negative cache, which comes first: then the
    answer is [None]. *)
Theorem X11_find_answers_from_cache (E : Env) (name : string) (a : Addon.t) (w : World)
    (Hcached : Obj._retrieved_addons (search w) !! name = Some a) :
  (¬ neg_cached w name → AddonSearch.find E name w = (Ok (Some a), w))
  ∧ (neg_cached w name → AddonSearch.find E name w = (Ok None, w)).
Proof.
  split.
  - intros Hneg. by apply find_cached.
  - apply find_neg_cached.
Qed.

Lemma X11_find_answers_from_cache_witness :
  let w := (AddonSearch.find Scenario.env_bar "Bar" Scenario.start).2 in
  AddonSearch.find Scenario.env_bar "Bar" w
  = (Ok (Some (Scenario.record "Bar" Scenario.bar_url 100)), w).
Proof.
  intros w.
  apply (X11_find_answers_from_cache Scenario.env_bar "Bar"
           (Scenario.record "Bar" Scenario.bar_url 100) w).
  - vm_compute. reflexivity.
  - vm_compute. discriminate.
Defined.

(** X12: when every entry of the positive cache is filed under its own
    name, as in a new search object, it is still so after [find], and an
    entry that [find] returns is in the cache under its own name, the
    normalized name of the catalog row. *)
Theorem X12_cache_filed_under_entry_name (E : Env) (name : string) (w : World)
    (Hkeyed : cache_keyed w) :
  cache_keyed (AddonSearch.find E name w).2
  ∧ (∀ a, (AddonSearch.find E name w).1 = Ok (Some a) →
       Obj._retrieved_addons (search (AddonSearch.find E name w).2) !! Addon.get_name a
       = Some a).
Proof.
  split; [by apply find_keeps_cache_keyed|].
  intros a Hret.
  destruct (AddonSearch.find E name w) as [r w'] eqn:Hfind. simpl in *. subst r.
  apply find_inv in Hfind as [(_ & ? & _)|[(_ & b & Hb & [= <-] & ->)|(_ & _ & Hon)]];
    [done| |].
  - by rewrite <- (Hkeyed name a Hb).
  - by apply (search_online_cached E name a w w').
Qed.

Lemma X12_cache_filed_under_entry_name_witness :
  let out := AddonSearch.find Scenario.env_space_stash "SpaceStashCore" Scenario.start in
  cache_keyed out.2
  ∧ (∀ a, out.1 = Ok (Some a) →
       Obj._retrieved_addons (search out.2) !! Addon.get_name a = Some a).
Proof.
  apply (X12_cache_filed_under_entry_name Scenario.env_space_stash
           "SpaceStashCore" Scenario.start).
  intros key a Hin. vm_compute in Hin. discriminate.
Defined.

(** X13: [find] puts one warning on the queue, "Unable to find '<name>'
    on Curse.", exactly when it answers [None] for a name that was not in
    the negative cache; in every other case the warning queue is as it
    was, so a name is reported once however often it is looked up. *)
Theorem X13_one_warning_per_failed_name (E : Env) (name : string) (w : World) :
  let out := AddonSearch.find E name w in
  (out.1 = Ok None → ¬ neg_cached w name →
     Obj._warning_queue (queue out.2) = Obj._warning_queue (queue w) ++ [unable_message name])
  ∧ (out.1 ≠ Ok None ∨ neg_cached w name →
       Obj._warning_queue (queue out.2) = Obj._warning_queue (queue w)).
Proof.
  simpl.
  destruct (AddonSearch.find E name w) as [r w'] eqn:Hfind. simpl.
  apply find_inv in Hfind as [(Hneg & -> & ->)|[(Hneg & a & _ & -> & ->)|(Hneg & _ & Hon)]].
  - split; [done|done].
  - split; [done|done].
  - apply search_online_inv in Hon as (w0 & (Hq & _) & Hcases).
    destruct Hcases as [[-> ->]|[(a & text & url & date & -> & _ & ->)|(e & -> & -> & _)]].
    + split.
      * intros _ _. unfold AddonSearch.not_found. py_unfold. simpl. by rewrite Hq.
      * intros [?|?]; done.
    + split; [done|]. intros _. simpl. by rewrite Hq.
    + split; [done|]. intros _. by rewrite Hq.
Qed.

Lemma X13_one_warning_per_failed_name_witness :
  let first := AddonSearch.find Scenario.env_bar "Foo" Scenario.start in
  let second := AddonSearch.find Scenario.env_bar "Foo" first.2 in
  Obj._warning_queue (queue first.2) = [unable_message "Foo"]
  ∧ Obj._warning_queue (queue second.2) = [unable_message "Foo"].
Proof.
  intros first second. split.
  - apply (proj1 (X13_one_warning_per_failed_name Scenario.env_bar "Foo" Scenario.start)).
    + vm_compute. reflexivity.
    + vm_compute. discriminate.
  - transitivity (Obj._warning_queue (queue first.2)).
    + apply (proj2 (X13_one_warning_per_failed_name Scenario.env_bar "Foo" first.2)).
      right. vm_compute. reflexivity.
    + vm_compute. reflexivity.
Defined.

(** ** The search worker, further *)

Section SearchRun.
Context (E : Env).

Lemma run_loop_order names : ∀ w w',
  AddonSearch.run_loop E names w = (Ok tt, w') →
  Obj._message_queue (queue w')
    = Obj._message_queue (queue w) ++ (searching_message <$> names)
  ∧ ∃ found : list (string * Addon.t),
      Obj._task_queue (queue w')
        = Obj._task_queue (queue w) ++ (uncurry Message.task <$> found)
      ∧ found.*1 `sublist_of` names.
Proof.
  induction names as [|name rest IH]; intros w w'.
  - intros [= <-]. rewrite !app_nil_r. split; [done|]. exists []. by rewrite app_nil_r.
  - simpl. unfold Py.bind at 1, Py.modify at 1.
    set (w1 := upd_queue _ w).
    unfold Py.bind at 1.
    pose proof (find_tasks_messages E name w1) as [Ht Hm].
    destruct (AddonSearch.find E name w1) as [[[a|]|e] w2]; simpl in Ht, Hm; [| |done].
    + unfold Py.bind at 1, Py.modify at 1. intros Hrest.
      apply IH in Hrest as (Hmsg & found & Htasks & Hsub). simpl in *.
      split.
      * rewrite Hmsg, Hm. unfold w1. simpl. by rewrite <- app_assoc.
      * exists ((name, a) :: found). split.
        -- rewrite Htasks, Ht. unfold w1. simpl. by rewrite <- app_assoc.
        -- simpl. by apply sublist_skip.
    + unfold Py.bind at 1, Py.ret at 1. intros Hrest.
      apply IH in Hrest as (Hmsg & found & Htasks & Hsub).
      split.
      * rewrite Hmsg, Hm. unfold w1. simpl. by rewrite <- app_assoc.
      * exists found. split.
        -- rewrite Htasks, Ht. by unfold w1.
        -- by apply sublist_cons.
Qed.




End SearchRun.

(** X14: when the run of the search worker returns, the message queue
    has received the start message and then one "Searching for '<name>'..."
    per name, in the order of the list, and the task queue has received
    tasks for names of the list in the order of the list, one per name at
    most. *)
Theorem X14_search_run_order (E : Env) (names : list string) (w w' : World)
    (Hrun : AddonSearch.run E names w = (Ok tt, w')) :
  Obj._message_queue (queue w')
    = Obj._message_queue (queue w)
      ++ Message.text AddonSearch.SEARCH_START :: (searching_message <$> names)
  ∧ ∃ found : list (string * Addon.t),
      Obj._task_queue (queue w')
        = Obj._task_queue (queue w) ++ (uncurry Message.task <$> found)
      ∧ found.*1 `sublist_of` names.
Proof.
  revert Hrun. unfold AddonSearch.run, Py.bind at 1, Py.modify at 1.
  intros (Hmsg & found & Htasks & Hsub)%run_loop_order. simpl in *.
  split.
  - rewrite Hmsg. by rewrite <- app_assoc.
  - by exists found.
Qed.

Lemma X14_search_run_order_witness :
  let out := AddonSearch.run Scenario.env_bar ["Foo"; "Bar"] Scenario.start in
  Obj._message_queue (queue out.2)
    = [] ++ Message.text AddonSearch.SEARCH_START
            :: (searching_message <$> ["Foo"; "Bar"])
  ∧ ∃ found : list (string * Addon.t),
      Obj._task_queue (queue out.2) = [] ++ (uncurry Message.task <$> found)
      ∧ found.*1 `sublist_of` ["Foo"; "Bar"].
Proof.
  intros out.
  apply (X14_search_run_order Scenario.env_bar ["Foo"; "Bar"] Scenario.start out.2).
  vm_compute. reflexivity.
Defined.





#[local] Instance log_only_frame_preorder : PreOrder log_only_frame.
Proof.
  split.
  - intros w. by repeat split.
  - intros w1 w2 w3 (Hc & Hf & Hx & Ho & Hl & Hs) (Hc' & Hf' & Hx' & Ho' & Hl' & Hs').
    unfold log_only_frame. repeat split; try congruence.
    + by etransitivity.
    + by etransitivity.
Qed.

Ltac log_only_step :=
  lazymatch goal with
  | |- preserves _ (Py.modify _) =>
      apply preserves_modify; intros ?; unfold log_only_frame; simpl;
      repeat split; try done; by apply prefix_app_r
  | |- preserves _ (if ?x then _ else _) => destruct x
  | |- preserves _ (match ?x with _ => _ end) => destruct x
  | |- _ => preserves_step
  end.

Section SearchDisk.
Context (E : Env).

Lemma http_request_log_only url params :
  preserves log_only_frame (http_request E url params).
Proof. unfold http_request, print, log. repeat log_only_step. Qed.

Lemma search_request_log_only name :
  preserves log_only_frame (AddonSearch._search_request E name).
Proof.
  unfold AddonSearch._search_request.
  induction (AddonSearch.search_terms E name) as [|term rest IH]; simpl.
  - repeat log_only_step.
  - destruct (Str.nonempty term); [|exact IH].
    unfold AddonSearch._results_found_on, AddonSearch._no_results_found_with.
    repeat first [apply http_request_log_only | log_only_step].
Qed.

Lemma find_log_only name : preserves log_only_frame (AddonSearch.find E name).
Proof.
  unfold AddonSearch.find, AddonSearch._search_online, AddonSearch.not_found,
    AddonSearch.remember, AddonSearch._no_results_found_with,
    AddonSearch._find_addon_info_on, AddonSearch._find_addon_date,
    AddonSearch._make_full_url_from.
  repeat first [apply search_request_log_only | apply http_request_log_only
               | log_only_step].
Qed.

Lemma run_loop_log_only names : preserves log_only_frame (AddonSearch.run_loop E names).
Proof.
  induction names as [|name rest IH]; simpl.
  - repeat log_only_step.
  - repeat first [apply find_log_only | exact IH | log_only_step].
Qed.

End SearchDisk.

(** X17: the run of the search worker, however it ends, leaves the
    config object, the files kept by name (the config file among them),
    what was extracted and the rights of the file system as they were.
    The one file it writes is errors.log, and it only appends to it, as
    it only adds to the output: a run in which the request for a detail
    page fails leaves the error in errors.log. *)
Theorem X17_search_run_writes_only_the_log (E : Env) (names : list string) (w : World) :
  (let w' := (AddonSearch.run E names w).2 in
   config w' = config w
   ∧ files (disk w') = files (disk w)
   ∧ extracted (disk w') = extracted (disk w)
   ∧ open_error (disk w') = open_error (disk w)
   ∧ errors_log (disk w) `prefix_of` errors_log (disk w')
   ∧ stdout (disk w) `prefix_of` stdout (disk w'))
  ∧ errors_log (disk (AddonSearch.run Malformed.env_no_detail_page ["Bar"]
                        Scenario.start).2)
    = ["404 Client Error"].
Proof.
  split; [|vm_compute; reflexivity].
  assert (preserves log_only_frame (AddonSearch.run E names)) as Hrun.
  { unfold AddonSearch.run. repeat first [apply run_loop_log_only | log_only_step]. }
  apply Hrun.
Qed.

(** ** The install worker, further *)

#[local] Instance install_frame_preorder : PreOrder install_frame.
Proof.
  split.
  - by intros w.
  - intros w1 w2 w3 [? ?] [? ?]. unfold install_frame. split; congruence.
Qed.

#[local] Instance keeps_config_queue_preorder : PreOrder keeps_config_queue.
Proof.
  split.
  - by intros w.
  - intros w1 w2 w3 [? ?] [? ?]. unfold keeps_config_queue. split; congruence.
Qed.

#[local] Instance downloads_only_preorder : PreOrder downloads_only.
Proof.
  split.
  - intros w. exists []. by rewrite app_nil_r.
  - intros w1 w2 w3 (s12 & H12 & F12) (s23 & H23 & F23).
    exists (s12 ++ s23). split.
    + by rewrite H23, H12, <- app_assoc.
    + by apply Forall_app.
Qed.

Lemma downloads_only_same w w' : net_log w' = net_log w → downloads_only w w'.
Proof. intros Heq. exists []. by rewrite app_nil_r. Qed.

Ltac downloads_step :=
  lazymatch goal with
  | |- preserves _ (Py.modify _) =>
      apply preserves_modify; intros ?; by apply downloads_only_same
  | |- preserves _ (match ?x with _ => _ end) => destruct x
  | |- preserves _ (if ?x then _ else _) => destruct x
  | |- _ => preserves_step
  end.

Ltac frame_if :=
  lazymatch goal with
  | |- preserves _ (if ?x then _ else _) => destruct x
  | |- _ => frame_auto
  end.

Section InstallRun.
Context (E : Env).

Lemma http_download_only url : preserves downloads_only (http_request E url None).
Proof.
  intros w. exists [Request url None]. split.
  - apply http_request_log.
  - by constructor.
Qed.

Lemma run_body_downloads_only self : preserves downloads_only (Downloader.run_body E self).
Proof.
  unfold Downloader.run_body, Downloader._extract_zipfile, Downloader.extractall,
    Config.update_addon, Config.encode, Config.open_file, log.
  repeat first [apply http_download_only | downloads_step].
Qed.

Lemma http_request_install url params : preserves install_frame (http_request E url params).
Proof. unfold http_request, print, log. repeat frame_if. Qed.

(** A turn of the loop on a queue that holds a task: the task is taken,
    then installed under the handler of the loop. *)
Lemma run_body_unfold self w task rest :
  Obj._task_queue (queue w) = task :: rest →
  Downloader.run_body E self w
  = Py.try_except (install_task E self task) ["queue.Empty"] (λ _, Py.ret tt)
      (upd_queue without_first_task w).
Proof.
  intros Hq.
  assert (upd_queue without_first_task w
          = upd_queue (λ _, {| Obj._task_queue := rest;
                               Obj._message_queue := Obj._message_queue (queue w);
                               Obj._warning_queue := Obj._warning_queue (queue w) |}) w)
    as ->.
  { unfold upd_queue, without_first_task. by rewrite Hq. }
  unfold Downloader.run_body, Py.try_except, Py.bind at 1, Py.gets at 1,
    MultiQueue.get_task.
  rewrite Hq. reflexivity.
Qed.

Lemma install_task_install self task : preserves install_frame (install_task E self task).
Proof.
  unfold install_task, Downloader._extract_zipfile, Downloader.extractall,
    Config.update_addon, Config.encode, Config.open_file, log.
  repeat first [apply http_request_install | frame_if].
Qed.

Lemma run_body_install self : preserves install_frame (Downloader.run_body E self).
Proof.
  intros w. destruct (Obj._task_queue (queue w)) as [|task rest] eqn:Hq.
  - unfold Downloader.run_body, Py.try_except, Py.bind, Py.gets, MultiQueue.get_task.
    by rewrite Hq.
  - rewrite (run_body_unfold self w task rest Hq).
    transitivity (upd_queue without_first_task w); [done|].
    apply preserves_try_except;
      [apply _ | apply install_task_install | repeat frame_if].
Qed.

Lemma run_loop_frames self fuel :
  preserves install_frame (Downloader.run_loop E self fuel)
  ∧ preserves downloads_only (Downloader.run_loop E self fuel).
Proof.
  induction fuel as [|fuel [IHi IHd]]; simpl.
  - split; repeat frame_if.
  - split.
    + repeat first [apply run_body_install | exact IHi | frame_if].
    + repeat first [apply run_body_downloads_only | exact IHd | downloads_step].
Qed.

Lemma http_request_config_queue url : preserves keeps_config_queue (http_request E url None).
Proof. unfold http_request, print, log. repeat frame_if. Qed.

Lemma extract_zipfile_config_queue self url :
  preserves keeps_config_queue (Downloader._extract_zipfile E self url).
Proof.
  unfold Downloader._extract_zipfile, Downloader.extractall, log.
  repeat first [apply http_request_config_queue | frame_if].
Qed.

(** [_extract_zipfile] raises nothing but NameError. *)
Lemma extract_zipfile_raises self url w e w' :
  Downloader._extract_zipfile E self url w = (Raise e, w') → e = NameError.
Proof.
  destruct (net E (net_log w) (Request url None)) as [r| |err] eqn:Hnet.
  - destruct (zip_members r) as [members|] eqn:Hzip.
    + pose proof (extract_zipfile_archive E self url w r members Hnet Hzip) as Hok.
      intros Hr. rewrite Hr in Hok. done.
    + rewrite extract_zipfile_failure; [by intros [= <- _]|].
      intros r' Hr'. congruence.
  - rewrite extract_zipfile_failure; [by intros [= <- _]|]. intros r' Hr'. congruence.
  - rewrite extract_zipfile_failure; [by intros [= <- _]|]. intros r' Hr'. congruence.
Qed.

Lemma stored_record_config w w' key :
  config w' = config w → stored_record w' key = stored_record w key.
Proof. intros Heq. unfold stored_record, config_item. by rewrite Heq. Qed.

(** One turn of the loop that returns: the task is taken, announced,
    and its addon stored. *)
Lemma run_body_ok self w w1 task rest :
  Obj._task_queue (queue w) = task :: rest →
  Downloader.run_body E self w = (Ok tt, w1) →
  Obj._task_queue (queue w1) = rest
  ∧ Obj._message_queue (queue w1) = Obj._message_queue (queue w) ++ announced task
  ∧ match installed_by task with
    | Some a =>
        stored_record w1 (Addon.get_name a) = Ok (Addon.to_json a)
        ∧ ∀ key, key ≠ Addon.get_name a → stored_record w1 key = stored_record w key
    | None => config w1 = config w
    end.
Proof.
  intros Hq Hrun.
  split; [by rewrite <- (run_body_takes_one E self w task rest Hq), Hrun|].
  revert Hrun. unfold Downloader.run_body, Py.try_except, Py.bind at 1, Py.gets at 1,
    MultiQueue.get_task.
  rewrite Hq. unfold Py.bind at 1, Py.modify at 1.
  set (w0 := upd_queue _ w).
  unfold announced, installed_by.
  destruct (Message.current_addon task) as [current|];
    [|intros [= <-]; by rewrite app_nil_r].
  destruct (Message.online_addon task) as [a|];
    [|intros [= <-]; by rewrite app_nil_r].
  destruct (Str.nonempty current); [|intros [= <-]; by rewrite app_nil_r].
  unfold Py.bind at 1, Py.modify at 1.
  set (w0' := upd_queue _ w0).
  unfold Py.bind at 1.
  pose proof (extract_zipfile_config_queue self (Addon.get_full_url a) w0') as [Hc Hqq].
  destruct (Downloader._extract_zipfile E self (Addon.get_full_url a) w0')
    as [[[]|e] w2] eqn:Hex; simpl in Hc, Hqq.
  2:{ apply extract_zipfile_raises in Hex as ->. done. }
  destruct (update_addon_cases a w2) as [(e & He & Hkind)|(m & addons & Hd & Ha)].
  { rewrite He. by destruct Hkind as [-> | ->]. }
  rewrite (update_addon_unfold a w2 m addons Hd Ha).
  set (w3 := upd_config _ w2).
  destruct (encode_frame w3) as (Hc3 & Hq3 & _).
  destruct (Config.encode w3) as [r4 w4]. simpl in Hc3, Hq3.
  enough (Obj._message_queue (queue w4)
            = Obj._message_queue (queue w) ++ [downloading_message a]
          ∧ stored_record w4 (Addon.get_name a) = Ok (Addon.to_json a)
          ∧ ∀ key, key ≠ Addon.get_name a → stored_record w4 key = stored_record w key)
    as Hdone.
  { destruct r4 as [[]|e]; simpl; [by intros [= <-]|].
    destruct (bool_decide (e ∈ [QueueEmpty])); [by intros [= <-]|done]. }
  split; [by rewrite Hq3, Hqq|].
  unfold stored_record, config_item. rewrite Hc3. unfold w3. simpl.
  assert (Obj._config_dict (config w) = JDict m) as Hdw by (by rewrite <- Hd, Hc).
  rewrite Hdw. simpl. rewrite lookup_insert_eq, Ha. simpl.
  split; [by rewrite lookup_insert_eq|].
  intros key Hne. by rewrite lookup_insert_ne.
Qed.

Lemma installed_names_cons task rest :
  installed_names (task :: rest)
  = match installed_by task with
    | Some a => Addon.get_name a :: installed_names rest
    | None => installed_names rest
    end.
Proof. unfold installed_names. simpl. by destruct (installed_by task). Qed.

Lemma installed_names_elem tasks key :
  key ∈ installed_names tasks ↔
  ∃ a, Some a ∈ installed_by <$> tasks ∧ Addon.get_name a = key.
Proof.
  unfold installed_names. rewrite list_elem_of_omap. split.
  - intros (t & Ht & Hname). destruct (installed_by t) as [a|] eqn:Hi; [|done].
    injection Hname as <-. exists a. split; [|done].
    apply list_elem_of_fmap. exists t. by split.
  - intros (a & (t & Hi & Ht)%list_elem_of_fmap & <-).
    exists t. split; [done|]. by rewrite <- Hi.
Qed.

(** What a run of the loop that returns has done. *)
Lemma run_loop_ok self fuel : ∀ w w',
  (length (Obj._task_queue (queue w)) < fuel)%nat →
  Downloader.run_loop E self fuel w = (Ok tt, w') →
  Obj._task_queue (queue w') = []
  ∧ Obj._message_queue (queue w')
      = Obj._message_queue (queue w) ++ (Obj._task_queue (queue w) ≫= announced)
  ∧ (∀ key, key ∉ installed_names (Obj._task_queue (queue w)) →
       stored_record w' key = stored_record w key)
  ∧ (∀ a, Some a ∈ installed_by <$> Obj._task_queue (queue w) →
       ∃ b, Some b ∈ installed_by <$> Obj._task_queue (queue w)
            ∧ Addon.get_name b = Addon.get_name a
            ∧ stored_record w' (Addon.get_name a) = Ok (Addon.to_json b)).
Proof.
  induction fuel as [|fuel IH]; intros w w' Hlen; [lia|].
  cbn [Downloader.run_loop]. unfold Py.bind at 1, Py.gets at 1, MultiQueue.task_available.
  destruct (Obj._task_queue (queue w)) as [|task rest] eqn:Hq.
  { intros [= <-]. rewrite Hq, app_nil_r. repeat split; try done.
    intros a Hin. by apply elem_of_nil in Hin. }
  cbn [length]. unfold Py.bind at 1.
  destruct (Downloader.run_body E self w) as [[[]|e] w1] eqn:Hbody; [|done].
  destruct (run_body_ok self w w1 task rest Hq Hbody) as (Hq1 & Hm1 & Hstore).
  intros Hrest. apply IH in Hrest as (Hempty & Hmsg & Hframe & Hrecords);
    [|rewrite Hq1; simpl in Hlen; lia].
  rewrite Hq1 in Hmsg, Hframe, Hrecords.
  split; [done|].
  split; [rewrite Hmsg, Hm1; simpl; by rewrite <- app_assoc|].
  assert (∀ key, key ∉ installed_names (task :: rest) →
            stored_record w1 key = stored_record w key) as Hframe1.
  { intros key. rewrite installed_names_cons.
    destruct (installed_by task) as [a|].
    - intros [Hne _]%not_elem_of_cons. by apply Hstore.
    - intros _. by apply stored_record_config. }
  split.
  - intros key Hkey. rewrite Hframe; [by apply Hframe1|].
    rewrite installed_names_cons in Hkey.
    destruct (installed_by task); [by apply not_elem_of_cons in Hkey as [_ ?]|done].
  - intros a Hin.
    destruct (decide (Addon.get_name a ∈ installed_names rest)) as [Hlater|Hnot].
    + apply installed_names_elem in Hlater as (b0 & Hb0 & Hname0).
      destruct (Hrecords b0 Hb0) as (b & Hb & Hname & Hrec).
      exists b. split; [by right|]. split; [congruence|]. by rewrite <- Hname0.
    + simpl in Hin. apply elem_of_cons in Hin as [Hhere|Hrest'].
      2:{ destruct Hnot. apply installed_names_elem. by exists a. }
      exists a. split; [rewrite fmap_cons, <- Hhere; by left|]. split; [done|].
      rewrite Hframe by done. rewrite <- Hhere in Hstore. apply Hstore.
Qed.

End InstallRun.

(** X18: the run of the install worker, however it ends, leaves the
    search object and the warning queue as they were, and every request
    it sends is a download: none carries a search parameter. *)
Theorem X18_install_run_frame (E : Env) (self : Downloader.t) (w : World) :
  let w' := (Downloader.run E self w).2 in
  search w' = search w
  ∧ Obj._warning_queue (queue w') = Obj._warning_queue (queue w)
  ∧ ∃ sent, net_log w' = net_log w ++ sent
            ∧ Forall (λ rq, req_search rq = None) sent.
Proof.
  unfold Downloader.run, Py.bind, Py.gets. simpl.
  destruct (run_loop_frames E self (S (MultiQueue.task_available (queue w))))
    as [Hi Hd].
  destruct (Hi w) as [Hs Hw]. by split; [|split; [|apply Hd]].
Qed.

(** X19: when the run of the install worker returns, the task queue is
    empty, the message queue has received one "Downloading <name>..."
    per installed task in the order of the queue, under the name of every
    installed addon the store holds the record of an installed addon of
    that name, and the records under all other names are as they were. *)
Theorem X19_install_run_completes (E : Env) (self : Downloader.t) (w w' : World)
    (Hrun : Downloader.run E self w = (Ok tt, w')) :
  Obj._task_queue (queue w') = []
  ∧ Obj._message_queue (queue w')
      = Obj._message_queue (queue w) ++ (Obj._task_queue (queue w) ≫= announced)
  ∧ (∀ a, Some a ∈ installed_by <$> Obj._task_queue (queue w) →
       ∃ b, Some b ∈ installed_by <$> Obj._task_queue (queue w)
            ∧ Addon.get_name b = Addon.get_name a
            ∧ stored_record w' (Addon.get_name a) = Ok (Addon.to_json b))
  ∧ (∀ key, key ∉ installed_names (Obj._task_queue (queue w)) →
       stored_record w' key = stored_record w key).
Proof.
  revert Hrun. unfold Downloader.run, Py.bind at 1, Py.gets at 1.
  intros Hloop. apply run_loop_ok in Hloop as (H1 & H2 & H3 & H4).
  - done.
  - unfold MultiQueue.task_available. lia.
Qed.

Lemma X19_install_run_completes_witness :
  let w := upd_queue (MultiQueue.put_task Scenario.task_b) Scenario.start in
  let w' := (Downloader.run Scenario.env_downloads Scenario.downloader w).2 in
  Obj._task_queue (queue w') = []
  ∧ Obj._message_queue (queue w')
      = Obj._message_queue (queue w) ++ (Obj._task_queue (queue w) ≫= announced).
Proof.
  intros w w'.
  destruct (X19_install_run_completes Scenario.env_downloads Scenario.downloader w w')
    as (Hempty & Hmsg & _).
  - vm_compute. reflexivity.
  - exact (conj Hempty Hmsg).
Defined.

(** ** The update decision and the pending downloads, further *)

Section Pending.
Context (E : Env).

Lemma update_required_unresolved (self : Downloader.t) find addon_name w w' stored :
  Downloader._search self = Some find →
  (Config.get_addon E addon_name w).1 = Ok stored →
  find addon_name w = (Ok None, w') →
  Downloader._update_required E self addon_name w
  = (match stored with Some _ => Raise AttributeError | None => Ok true end, w').
Proof.
  intros Hsearch Hstored Hnone.
  unfold Downloader._update_required, Py.bind at 1.
  pose proof (get_addon_state E addon_name w) as Hstate.
  destruct (Config.get_addon E addon_name w) as [r w0]; simpl in *; subst.
  unfold Downloader.get_search. rewrite Hsearch.
  unfold Py.bind at 1. simpl.
  unfold Py.bind at 1. rewrite Hnone.
  by destruct stored.
Qed.

(** Without [_search], the loop of [_get_pending_downloads] passes over
    what is not a directory and stops at the first directory. *)
Lemma pending_loop_without_search (self : Downloader.t) names w :
  Downloader._search self = None →
  Downloader.pending_loop E self names w
  = (if forallb (λ n, negb (isdir E (Downloader._addon_directory self) n)) names
     then Ok [] else Raise AttributeError, w).
Proof.
  intros Hnone. induction names as [|name rest IH]; [done|].
  simpl. unfold Py.bind at 1, Downloader._addon_exists.
  destruct (isdir E (Downloader._addon_directory self) name); simpl.
  - unfold Downloader.get_search. by rewrite Hnone.
  - unfold Py.bind at 1, Py.ret at 1, Py.bind at 1. rewrite IH.
    by destruct (forallb _ rest).
Qed.

Lemma pending_loop_listed (self : Downloader.t) names : ∀ w w' pending,
  Downloader.pending_loop E self names w = (Ok pending, w') →
  ∀ name, name ∈ pending →
    name ∈ names ∧ isdir E (Downloader._addon_directory self) name = true.
Proof.
  induction names as [|first rest IH]; intros w w' pending.
  - intros [= <- _] name Hin. by apply elem_of_nil in Hin.
  - simpl. unfold Py.bind at 1.
    destruct (Downloader._addon_exists E self first w) as [[present|e] w1] eqn:Hex; [|done].
    unfold Py.bind at 1.
    assert (present = true → isdir E (Downloader._addon_directory self) first = true)
      as Hdir.
    { revert Hex. unfold Downloader._addon_exists.
      destruct (isdir E (Downloader._addon_directory self) first); [done|].
      by intros [= <- _]. }
    destruct ((if present then Downloader._update_required E self first else Py.ret false) w1)
      as [[wanted|e] w2] eqn:Hwant; [|done].
    unfold Py.bind at 1.
    destruct (Downloader.pending_loop E self rest w2) as [[others|e] w3] eqn:Hrest; [|done].
    intros [= <- _] name Hin.
    assert (name ∈ others → name ∈ first :: rest
              ∧ isdir E (Downloader._addon_directory self) name = true) as Hothers.
    { intros Ho. destruct (IH w2 w3 others Hrest name Ho). split; [by right|done]. }
    destruct wanted; [|by apply Hothers].
    apply elem_of_cons in Hin as [->|Hin]; [|by apply Hothers].
    split; [by left|]. apply Hdir. destruct present; [done|].
    by injection Hwant.
Qed.

End Pending.

(** X20: when the search object answers [None] for the name,
    [_update_required] answers true if no record is stored for the name,
    and raises AttributeError if one is stored. *)
Theorem X20_update_required_unresolved (E : Env) (self : Downloader.t)
    (find : string → W (option Addon.t)) (addon_name : string)
    (w w' : World) (stored : option Addon.t)
    (Hsearch : Downloader._search self = Some find)
    (Hstored : (Config.get_addon E addon_name w).1 = Ok stored)
    (Hunresolved : find addon_name w = (Ok None, w')) :
  (stored = None →
     Downloader._update_required E self addon_name w = (Ok true, w'))
  ∧ (stored ≠ None →
       Downloader._update_required E self addon_name w = (Raise AttributeError, w')).
Proof.
  rewrite (update_required_unresolved E self find addon_name w w' stored
             Hsearch Hstored Hunresolved).
  split; [by intros ->|]. by destruct stored.
Qed.

Lemma X20_update_required_unresolved_witness :
  Downloader._update_required Malformed.env_offline
    (Scenario.downloader_with_search Malformed.env_offline) "Bar" Scenario.bar_recorded
  = (Raise AttributeError,
     (AddonSearch.find Malformed.env_offline "Bar" Scenario.bar_recorded).2)
  ∧ Downloader._update_required Malformed.env_offline
      (Scenario.downloader_with_search Malformed.env_offline) "Bar" Scenario.start
    = (Ok true, (AddonSearch.find Malformed.env_offline "Bar" Scenario.start).2).
Proof.
  split.
  - apply (X20_update_required_unresolved Malformed.env_offline
             (Scenario.downloader_with_search Malformed.env_offline)
             (AddonSearch.find Malformed.env_offline) "Bar" Scenario.bar_recorded _
             (Some (Scenario.record "Bar" Scenario.bar_url 200))).
    + reflexivity.
    + vm_compute. reflexivity.
    + vm_compute. reflexivity.
    + discriminate.
  - apply (X20_update_required_unresolved Malformed.env_offline
             (Scenario.downloader_with_search Malformed.env_offline)
             (AddonSearch.find Malformed.env_offline) "Bar" Scenario.start _ None).
    + reflexivity.
    + vm_compute. reflexivity.
    + vm_compute. reflexivity.
    + reflexivity.
Defined.

(** X21: a downloader as [__init__] builds it has no [_search]: its
    [_get_pending_downloads] returns the empty set when nothing in the
    addon directory is a directory, and raises AttributeError as soon as
    there is one; the state is unchanged either way. *)
Theorem X21_pending_downloads_without_search (E : Env) (self : Downloader.t) (w : World)
    (Hnone : Downloader._search self = None) :
  let dir := Downloader._addon_directory self in
  ((∀ name, name ∈ listdir E dir → isdir E dir name = false) →
     Downloader._get_pending_downloads E self w = (Ok ∅, w))
  ∧ ((∃ name, name ∈ listdir E dir ∧ isdir E dir name = true) →
       Downloader._get_pending_downloads E self w = (Raise AttributeError, w)).
Proof.
  simpl. unfold Downloader._get_pending_downloads, Py.bind.
  rewrite (pending_loop_without_search E self _ w Hnone).
  split.
  - intros Hfiles.
    assert (forallb (λ n, negb (isdir E (Downloader._addon_directory self) n))
              (listdir E (Downloader._addon_directory self)) = true) as ->; [|done].
    apply forallb_forall. intros name Hin%list_elem_of_In.
    by rewrite (Hfiles name Hin).
  - intros (name & Hin & Hdir).
    destruct (forallb _ _) eqn:Hall; [|done].
    rewrite forallb_forall in Hall. specialize (Hall name).
    rewrite Hdir in Hall. discriminate Hall. by apply list_elem_of_In.
Qed.

Lemma X21_pending_downloads_without_search_witness :
  Downloader._get_pending_downloads Malformed.env_files_only Scenario.downloader
    Scenario.start = (Ok ∅, Scenario.start)
  ∧ Downloader._get_pending_downloads Malformed.env_listing Scenario.downloader
      Scenario.start = (Raise AttributeError, Scenario.start).
Proof.
  split.
  - apply (X21_pending_downloads_without_search Malformed.env_files_only
             Scenario.downloader Scenario.start eq_refl).
    intros name _. reflexivity.
  - apply (X21_pending_downloads_without_search Malformed.env_listing
             Scenario.downloader Scenario.start eq_refl).
    exists "Bar". split; [|reflexivity]. right. left.
Defined.

(** X22: every name that [_get_pending_downloads] returns is an entry of
    the addon directory and is a directory. *)
Theorem X22_pending_downloads_are_directories (E : Env) (self : Downloader.t)
    (w w' : World) (pending : gset string)
    (Hrun : Downloader._get_pending_downloads E self w = (Ok pending, w')) :
  ∀ name, name ∈ pending →
    name ∈ listdir E (Downloader._addon_directory self)
    ∧ isdir E (Downloader._addon_directory self) name = true.
Proof.
  revert Hrun. unfold Downloader._get_pending_downloads, Py.bind.
  destruct (Downloader.pending_loop E self _ w) as [[download_list|e] w1] eqn:Hloop;
    [|done].
  intros [= <- _] name Hin%elem_of_list_to_set.
  by apply (pending_loop_listed E self _ w w1 download_list Hloop).
Qed.

Lemma X22_pending_downloads_are_directories_witness :
  let self := Scenario.downloader_with_search Malformed.env_listing in
  let out := Downloader._get_pending_downloads Malformed.env_listing self Scenario.start in
  out.1 = Ok {[ "Bar" ]}
  ∧ ∀ name, name ∈ ({[ "Bar" ]} : gset string) →
      name ∈ listdir Malformed.env_listing (Downloader._addon_directory self)
      ∧ isdir Malformed.env_listing (Downloader._addon_directory self) name = true.
Proof.
  intros self out. split; [vm_compute; reflexivity|].
  apply (X22_pending_downloads_are_directories Malformed.env_listing self
           Scenario.start out.2).
  vm_compute. reflexivity.
Defined.

(** ** The requests of a lookup *)

Section Requests.
Context (E : Env).

Lemma find_addon_info_on_requests page w :
  ∃ details,
    net_log (AddonSearch._find_addon_info_on E page w).2 = net_log w ++ details
    ∧ (length details ≤ 1)%nat
    ∧ Forall (λ rq, req_search rq = None) details.
Proof.
  assert (∃ details : list request, net_log w = net_log w ++ details
            ∧ (length details ≤ 1)%nat
            ∧ Forall (λ rq, req_search rq = None) details) as Hnone.
  { exists []. rewrite app_nil_r. split; [done|]. split; [simpl; lia|constructor]. }
  unfold AddonSearch._find_addon_info_on.
  destruct (first_link page) as [[text href]|]; [|exact Hnone].
  destruct href as [href|]; [|exact Hnone].
  unfold AddonSearch._make_full_url_from, Py.bind at 1, Py.ret at 1.
  unfold Py.bind at 1, AddonSearch._find_addon_date, Py.bind at 1.
  pose proof (http_request_log E
    (urljoin E AddonSearch.BASE_URL_CURSEFORGE (AddonSearch._remove_page href)) None w) as Hlog.
  exists [Request (urljoin E AddonSearch.BASE_URL_CURSEFORGE
                     (AddonSearch._remove_page href)) None].
  split; [|split; [simpl; lia|by repeat constructor]].
  destruct (http_request E _ None w) as [[[r|]|e] w1]; cbn [snd] in Hlog; [|done|done].
  by destruct (last_released r).
Qed.

(** The requests of the online search: one search request at most, for a
    search term that is not empty, then one request at most for the
    detail page. *)
Lemma search_online_requests name w :
  ∃ searches details,
    net_log (AddonSearch._search_online E name w).2 = net_log w ++ searches ++ details
    ∧ (length searches ≤ 1)%nat ∧ (length details ≤ 1)%nat
    ∧ Forall (λ rq, req_url rq = AddonSearch.BASE_CURSE_URL
                    ∧ ∃ term, req_search rq = Some term ∧ term ≠ ""
                              ∧ term ∈ AddonSearch.search_terms E name) searches
    ∧ Forall (λ rq, req_search rq = None) details.
Proof.
  pose proof (search_loop_one_request E name (AddonSearch.search_terms E name) w) as Hs.
  simpl in Hs.
  assert (∃ searches,
            net_log (AddonSearch._search_request E name w).2 = net_log w ++ searches
            ∧ (length searches ≤ 1)%nat
            ∧ Forall (λ rq, req_url rq = AddonSearch.BASE_CURSE_URL
                            ∧ ∃ term, req_search rq = Some term ∧ term ≠ ""
                                      ∧ term ∈ AddonSearch.search_terms E name) searches)
    as (searches & Hlog0 & Hlen0 & Hall0).
  { unfold AddonSearch._search_request.
    destruct Hs as [Hs|(t & Hin & Hne & Hs)].
    - exists []. rewrite app_nil_r. split; [done|]. split; [simpl; lia|constructor].
    - exists [Request AddonSearch.BASE_CURSE_URL (Some t)].
      split; [done|]. split; [simpl; lia|].
      constructor; [|constructor]. split; [done|]. by exists t. }
  unfold AddonSearch._search_online, Py.bind at 1.
  destruct (AddonSearch._search_request E name w) as [[[p|]|e] w0]; simpl in Hlog0.
  2:{ exists searches, []. rewrite app_nil_r. simpl. rewrite Hlog0.
      split; [done|]. split; [done|]. split; [simpl; lia|]. split; [done|constructor]. }
  2:{ exists searches, []. rewrite app_nil_r. simpl.
      split; [done|]. split; [done|]. split; [simpl; lia|]. split; [done|constructor]. }
  unfold Py.bind at 1.
  destruct (find_addon_info_on_requests p w0) as (details & Hlog1 & Hlen1 & Hall1).
  exists searches, details.
  split; [|by repeat split].
  rewrite app_assoc, <- Hlog0, <- Hlog1.
  destruct (AddonSearch._find_addon_info_on E p w0) as [[[[[n|] [u|]] [d|]]|e] w1];
    simpl; try done.
  destruct (Str.nonempty n && Str.nonempty u && Str.nonempty d); [|done].
  unfold Py.bind at 1, Py.lift.
  by destruct (Addon.__init__ E (JStr n) (JStr u) (JStr d)).
Qed.

End Requests.

(** X23: [find] sends one search request at most, to the search address
    and for one of the search terms of the name that is not empty, and
    then one request at most for a detail page; for a name that is in the
    negative cache or in the positive cache it sends nothing. *)
Theorem X23_find_sends_two_requests_at_most (E : Env) (name : string) (w : World) :
  (∃ searches details,
     net_log (AddonSearch.find E name w).2 = net_log w ++ searches ++ details
     ∧ (length searches ≤ 1)%nat ∧ (length details ≤ 1)%nat
     ∧ Forall (λ rq, req_url rq = AddonSearch.BASE_CURSE_URL
                     ∧ ∃ term, req_search rq = Some term ∧ term ≠ ""
                               ∧ term ∈ AddonSearch.search_terms E name) searches
     ∧ Forall (λ rq, req_search rq = None) details)
  ∧ (neg_cached w name ∨ is_Some (Obj._retrieved_addons (search w) !! name) →
     net_log (AddonSearch.find E name w).2 = net_log w
     ∧ sent_between w (AddonSearch.find E name w).2 = []).
Proof.
  destruct (AddonSearch.find E name w) as [r w'] eqn:Hfind.
  apply find_inv in Hfind as [(Hneg & _ & ->)|[(Hneg & a & Ha & _ & ->)|(Hneg & Hnone & Hon)]].
  - split.
    + exists [], []. simpl. rewrite app_nil_r. repeat split; try lia; constructor.
    + intros _. simpl. split; [done|]. unfold sent_between. apply drop_all.
  - split.
    + exists [], []. simpl. rewrite app_nil_r. repeat split; try lia; constructor.
    + intros _. simpl. split; [done|]. unfold sent_between. apply drop_all.
  - split.
    + destruct (search_online_requests E name w) as (searches & details & Hlog & Hrest).
      rewrite Hon in Hlog. by exists searches, details.
    + intros [Hcached|[a Ha]]; [done|]. by rewrite Ha in Hnone.
Qed.

Lemma X23_find_sends_two_requests_at_most_witness :
  let w := (AddonSearch.find Scenario.env_bar "Bar" Scenario.start).2 in
  net_log (AddonSearch.find Scenario.env_bar "Bar" w).2 = net_log w
  ∧ sent_between w (AddonSearch.find Scenario.env_bar "Bar" w).2 = [].
Proof.
  intros w.
  apply (proj2 (X23_find_sends_two_requests_at_most Scenario.env_bar "Bar" w)).
  right. vm_compute. by eexists.
Defined.
